(** * GtkGridView: the grid-geometry engine of gtk/gtkgridview.c

    A shallow embedding of the layout-relevant part of gtk/gtkgridview.c:
    the augmented tree of cells, the two geometry queries, the row-height
    estimator, the column solver, the layout pass and the scroll-anchor
    controller, followed by the properties established about them.

    Conventions.
    - [guint] values are integers in [0, 2^32); [int] values are integers
      in [-2^31, 2^31).  Every C operation is written with its conversion
      ([to_guint], [to_gint]) at the place where C performs it.
    - An operation that traps in C (division or remainder by zero) makes the
      enclosing function return [None].
    - A [Cell *] is a path from the root of the tree ([Handle]); [NULL] is
      the absence of a path. *)

From Stdlib Require Import ZArith QArith Qround List Lia Bool Permutation Sorted.
Import ListNotations.
Open Scope Z_scope.

(* ================================================================== *)
(** ** Machine integers *)

Definition guint_modulus : Z := 2 ^ 32.
Definition gint_half : Z := 2 ^ 31.

Definition is_guint (x : Z) : Prop := 0 <= x < guint_modulus.
Definition is_gint (x : Z) : Prop := - gint_half <= x < gint_half.

(** Conversion to [guint]: reduction modulo 2^32. *)
Definition to_guint (x : Z) : Z := x mod guint_modulus.

(** Conversion to [int]: the two's-complement reading of the low 32 bits. *)
Definition to_gint (x : Z) : Z := (x + gint_half) mod guint_modulus - gint_half.

(** [a / b] and [a % b] on [guint]; a zero divisor traps. *)
Definition udiv (a b : Z) : option Z :=
  if b =? 0 then None else Some (a / b).
Definition umod (a b : Z) : option Z :=
  if b =? 0 then None else Some (a mod b).

(** [a / b] on [int]: truncation toward zero; a zero divisor and
    [INT_MIN / -1] trap. *)
Definition sdiv (a b : Z) : option Z :=
  if b =? 0 then None
  else if (a =? - gint_half) && (b =? -1) then None
  else Some (Z.quot a b).

(** Sequencing of computations that may trap. *)
Definition bind {A B : Type} (m : option A) (k : A -> option B) : option B :=
  match m with
  | Some a => k a
  | None => None
  end.

Notation "x <- m ;; k" := (bind m (fun x => k))
  (at level 61, m at next level, right associativity).
Notation "' p <- m ;; k" := (bind m (fun x => let p := x in k))
  (at level 61, p pattern, m at next level, right associativity).

(* ================================================================== *)
(** ** GLib macros

    [MAX], [MIN] and [CLAMP] are the macros of glib/gmacros.h:
    [MAX(a,b) = ((a) > (b)) ? (a) : (b)],
    [MIN(a,b) = ((a) < (b)) ? (a) : (b)],
    [CLAMP(x,low,high) = ((x) > (high)) ? (high) : (((x) < (low)) ? (low) : (x))].
    They are given here on operands of one common C type; where the source
    mixes [int] and [guint] the conversion is written at the call. *)

Definition MAX (a b : Z) : Z := if a >? b then a else b.
Definition MIN (a b : Z) : Z := if a <? b then a else b.
Definition CLAMP (x low high : Z) : Z :=
  if x >? high then high else if x <? low then low else x.

(* ================================================================== *)
(** ** Data model *)

Inductive GtkOrientation := GTK_ORIENTATION_HORIZONTAL | GTK_ORIENTATION_VERTICAL.
Inductive GtkScrollablePolicy := GTK_SCROLL_MINIMUM | GTK_SCROLL_NATURAL.

Definition OPPOSITE_ORIENTATION (o : GtkOrientation) : GtkOrientation :=
  match o with
  | GTK_ORIENTATION_HORIZONTAL => GTK_ORIENTATION_VERTICAL
  | GTK_ORIENTATION_VERTICAL => GTK_ORIENTATION_HORIZONTAL
  end.

Definition orientation_eqb (a b : GtkOrientation) : bool :=
  match a, b with
  | GTK_ORIENTATION_HORIZONTAL, GTK_ORIENTATION_HORIZONTAL => true
  | GTK_ORIENTATION_VERTICAL, GTK_ORIENTATION_VERTICAL => true
  | _, _ => false
  end.

Definition is_minimum (p : GtkScrollablePolicy) : bool :=
  match p with GTK_SCROLL_MINIMUM => true | GTK_SCROLL_NATURAL => false end.

(** A realized element.  The only thing the engine asks of it is
    [gtk_widget_measure (widget, orientation, for_size, &min, &nat, ...)];
    the widget is represented by that answer. *)
Record GtkWidget := {
  gtk_widget_measure : GtkOrientation -> Z -> Z * Z
}.

(** [struct _Cell]: [parent.n_items], [parent.widget] and [size]. *)
Record Cell := {
  n_items : Z;
  widget : option GtkWidget;
  size : Z
}.

(** [struct _CellAugment]: [parent.n_items] and [size]. *)
Record CellAugment := {
  aug_n_items : Z;
  aug_size : Z
}.

(** The tree of the list item manager.  Each node carries its cell, the
    cached augment and the dirty flag of the cache.  Colours and
    rebalancing play no part in what follows and are left out. *)
Inductive GtkRbTree :=
| Leaf
| Node (left : GtkRbTree) (cell : Cell) (aug : CellAugment) (dirty : bool)
       (right : GtkRbTree).

Inductive Direction := L | R.

(** A [Cell *]: the way from the root to the node. *)
Definition Handle := list Direction.

Fixpoint gtk_rb_tree_node (t : GtkRbTree) (h : Handle) : option Cell :=
  match t, h with
  | Leaf, _ => None
  | Node _ c _ _ _, [] => Some c
  | Node l _ _ _ _, L :: h' => gtk_rb_tree_node l h'
  | Node _ _ _ _ r, R :: h' => gtk_rb_tree_node r h'
  end.

(** [gtk_list_item_manager_get_first] followed by repeated
    [gtk_rb_tree_node_get_next]: the handles of all cells in order. *)
Fixpoint gtk_rb_tree_handles (t : GtkRbTree) : list Handle :=
  match t with
  | Leaf => []
  | Node l _ _ _ r =>
      map (cons L) (gtk_rb_tree_handles l) ++ [] :: map (cons R) (gtk_rb_tree_handles r)
  end.

(** The cells in order. *)
Fixpoint cells (t : GtkRbTree) : list Cell :=
  match t with
  | Leaf => []
  | Node l c _ _ r => cells l ++ c :: cells r
  end.

(* ================================================================== *)
(** ** Augmentation *)

(** Modelled from the spec: [gtk_list_item_manager_augment_node] of
    gtk/gtklistitemmanager.c, which [cell_augment] calls first.  The
    augmented summary caches the sum of [item_count] over the subtree: the
    node's own [n_items] combined with both children's summaries. *)
Definition gtk_list_item_manager_augment_node
    (c : Cell) (left_aug right_aug : option CellAugment) : Z :=
  let n := n_items c in
  let n := match left_aug with
           | Some la => to_guint (n + aug_n_items la)
           | None => n
           end in
  match right_aug with
  | Some ra => to_guint (n + aug_n_items ra)
  | None => n
  end.

(** [cell_augment]: [aug->size = cell->size], plus the left child's summary
    if there is a left child, plus the right child's if there is one. *)
Definition cell_augment
    (c : Cell) (left_aug right_aug : option CellAugment) : CellAugment :=
  let n := gtk_list_item_manager_augment_node c left_aug right_aug in
  let s := size c in
  let s := match left_aug with
           | Some la => to_guint (s + aug_size la)
           | None => s
           end in
  let s := match right_aug with
           | Some ra => to_guint (s + aug_size ra)
           | None => s
           end in
  {| aug_n_items := n; aug_size := s |}.

(** Modelled from the spec: the augment cache of gtk/gtkrbtree.c.  "Must be
    recomputed bottom-up whenever a node's own fields or a child pointer
    changes": reading the summary of a node whose cache is dirty recomputes
    it with the augment function from the children's summaries, read the
    same way.  [gtk_rb_tree_get_augment] is the value read ([None] for
    [NULL]); [gtk_rb_tree_reaugment] is the tree the read leaves behind. *)
Fixpoint gtk_rb_tree_get_augment (t : GtkRbTree) : option CellAugment :=
  match t with
  | Leaf => None
  | Node l c a d r =>
      if d
      then Some (cell_augment c (gtk_rb_tree_get_augment l) (gtk_rb_tree_get_augment r))
      else Some a
  end.

Fixpoint gtk_rb_tree_reaugment (t : GtkRbTree) : GtkRbTree :=
  match t with
  | Leaf => Leaf
  | Node l c a d r =>
      if d
      then
        let l' := gtk_rb_tree_reaugment l in
        let r' := gtk_rb_tree_reaugment r in
        Node l' c (cell_augment c (gtk_rb_tree_get_augment l') (gtk_rb_tree_get_augment r'))
             false r'
      else t
  end.

(** Modelled from the spec: [gtk_rb_tree_node_mark_dirty] applied to the
    node at [h] after [upd] changed its cell: the node and every node on
    the way up to the root lose their cached summary. *)
Fixpoint gtk_rb_tree_update (upd : Cell -> Cell) (t : GtkRbTree) (h : Handle)
  : GtkRbTree :=
  match t, h with
  | Leaf, _ => Leaf
  | Node l c a _ r, [] => Node l (upd c) a true r
  | Node l c a _ r, L :: h' => Node (gtk_rb_tree_update upd l h') c a true r
  | Node l c a _ r, R :: h' => Node l c a true (gtk_rb_tree_update upd r h')
  end.

Definition with_size (s : Z) (c : Cell) : Cell :=
  {| n_items := n_items c; widget := widget c; size := s |}.

(** [cell_set_size]: nothing happens when the size is unchanged; otherwise
    the size is stored and the node marked dirty. *)
Definition cell_set_size (t : GtkRbTree) (h : Handle) (s : Z) : GtkRbTree :=
  match gtk_rb_tree_node t h with
  | None => t
  | Some c =>
      if size c =? s then t
      else gtk_rb_tree_update (with_size s) t h
  end.

(* ================================================================== *)
(** ** The widget state used by layout and geometry *)

(** The fields of [struct _GtkGridView] that layout and the geometry
    queries read or write.  [item_manager] stands for the root of the
    manager's tree.  [column_width] is a [double] in the source; it is only
    ever assigned the quotient of two integers or an [int] (see
    [gtk_grid_view_size_allocate]), values a [double] holds exactly, and is
    represented by the integer it holds. *)
Record GtkGridView := {
  item_manager : GtkRbTree;
  scroll_policy : GtkOrientation -> GtkScrollablePolicy;
  orientation : GtkOrientation;
  min_columns : Z;
  max_columns : Z;
  n_columns : Z;
  column_width : Z;
  unknown_row_height : Z
}.

(* ================================================================== *)
(** ** Geometry queries *)

(** What [gtk_grid_view_get_cell_at_y] hands back: the returned [Cell *]
    and the three out-parameters.  Every call in the file passes all three
    pointers, so they are always written. *)
Record CellAtY := {
  cy_cell : option Handle;
  cy_position : Z;
  cy_offset : Z;
  cy_size : Z
}.

(** The descent of [gtk_grid_view_get_cell_at_y].  The result is the cell
    where the loop breaks (with its handle below [t]) or nothing when the
    loop ends on [NULL], and the final [y] and [pos].  [y] is an [int] and
    the sizes are [guint], so every comparison and subtraction is done on
    [guint]. *)
Fixpoint cell_at_y_loop (t : GtkRbTree) (y pos : Z)
  : option (Handle * Cell) * Z * Z :=
  match t with
  | Leaf => (None, y, pos)
  | Node l c _ _ r =>
      let '(go_left, y1, pos1) :=
        match gtk_rb_tree_get_augment l with
        | Some la =>
            if to_guint y <? aug_size la then (true, y, pos)
            else (false, to_gint (to_guint y - aug_size la),
                  to_guint (pos + aug_n_items la))
        | None => (false, y, pos)
        end in
      if go_left then
        let '(res, y', pos') := cell_at_y_loop l y pos in
        (option_map (fun hc => (L :: fst hc, snd hc)) res, y', pos')
      else if to_guint y1 <? size c then (Some ([], c), y1, pos1)
      else
        let '(res, y', pos') :=
          cell_at_y_loop r (to_gint (to_guint y1 - size c))
                         (to_guint (pos1 + n_items c)) in
        (option_map (fun hc => (R :: fst hc, snd hc)) res, y', pos')
  end.

(** [gtk_grid_view_get_cell_at_y]. *)
Definition gtk_grid_view_get_cell_at_y (self : GtkGridView) (y : Z)
  : option CellAtY :=
  let '(res, y, pos) := cell_at_y_loop (item_manager self) y 0 in
  match res with
  | None =>
      Some {| cy_cell := None; cy_position := 0; cy_offset := 0; cy_size := 0 |}
  | Some (h, c) =>
      let n := n_items c in
      rem <- umod pos (n_columns self) ;;
      (* skip remaining items at end of row *)
      let '(n, pos) :=
        if negb (rem =? 0) then
          let skip := to_guint (pos - rem) in
          (to_guint (n - skip), to_guint (pos + skip))
        else (n, pos) in
      (* Skip all the rows this index doesn't go into *)
      no_widget_rows <- udiv (to_guint (n - 1)) (n_columns self) ;;
      q <- sdiv y (unknown_row_height self) ;;
      let skip := MIN (to_guint q) no_widget_rows in
      let y := to_gint (to_guint y - to_guint (skip * to_guint (unknown_row_height self))) in
      let pos := to_guint (pos + to_guint (n_columns self * skip)) in
      Some {| cy_cell := Some h;
              cy_position := pos;
              cy_offset := y;
              cy_size :=
                if skip <? no_widget_rows then unknown_row_height self
                else to_gint (size c - to_guint (no_widget_rows
                                                 * to_guint (unknown_row_height self))) |}
  end.

(** What [gtk_grid_view_get_size_at_position] hands back: the returned
    [gboolean] and the two out-parameters. *)
Record SizeAtPosition := {
  sp_found : bool;
  sp_offset : Z;
  sp_size : Z
}.

(** The descent of [gtk_grid_view_get_size_at_position]. *)
Fixpoint size_at_position_loop (t : GtkRbTree) (position y : Z)
  : option (Handle * Cell) * Z * Z :=
  match t with
  | Leaf => (None, position, y)
  | Node l c _ _ r =>
      let '(go_left, position1, y1) :=
        match gtk_rb_tree_get_augment l with
        | Some la =>
            if position <? aug_n_items la then (true, position, y)
            else (false, to_guint (position - aug_n_items la),
                  to_gint (to_guint y + aug_size la))
        | None => (false, position, y)
        end in
      if go_left then
        let '(res, position', y') := size_at_position_loop l position y in
        (option_map (fun hc => (L :: fst hc, snd hc)) res, position', y')
      else if position1 <? n_items c then (Some ([], c), position1, y1)
      else
        let '(res, position', y') :=
          size_at_position_loop r (to_guint (position1 - n_items c))
                                (to_gint (to_guint y1 + size c)) in
        (option_map (fun hc => (R :: fst hc, snd hc)) res, position', y')
  end.

(** [gtk_grid_view_get_size_at_position]. *)
Definition gtk_grid_view_get_size_at_position (self : GtkGridView) (position : Z)
  : option SizeAtPosition :=
  rem0 <- umod position (n_columns self) ;;
  let position := to_guint (position - rem0) in
  let '(res, position, y) := size_at_position_loop (item_manager self) position 0 in
  match res with
  | None => Some {| sp_found := false; sp_offset := 0; sp_size := 0 |}
  | Some (_, c) =>
      let n := n_items c in
      rem <- umod position (n_columns self) ;;
      (* skip remaining items at end of row *)
      let '(n, position) :=
        if negb (rem =? 0) then (to_guint (n - rem), to_guint (position - rem))
        else (n, position) in
      (* Skip all the rows this index doesn't go into *)
      skip <- udiv position (n_columns self) ;;
      let n := to_guint (n - to_guint (skip * n_columns self)) in
      let y := to_gint (to_guint y + to_guint (skip * to_guint (unknown_row_height self))) in
      Some {| sp_found := true;
              sp_offset := y;
              sp_size :=
                if n >? n_columns self then unknown_row_height self
                else to_gint (size c - to_guint (skip * to_guint (unknown_row_height self))) |}
  end.

(* ================================================================== *)
(** ** Row-height estimator *)

(** [compare_ints]: the difference of the two [int]s, as an [int]. *)
Definition compare_ints (first second : Z) : Z := to_gint (first - second).

(** [g_array_sort (heights, compare_ints)] hands the array to the C
    library's [qsort] with the comparator: the elements are rearranged
    until [compare] puts no element before its predecessor.  The
    arrangement is produced here by insertion. *)
Fixpoint g_array_insert (compare : Z -> Z -> Z) (x : Z) (l : list Z) : list Z :=
  match l with
  | [] => [x]
  | y :: l' =>
      if compare x y <=? 0 then x :: y :: l'
      else y :: g_array_insert compare x l'
  end.

Fixpoint g_array_sort (compare : Z -> Z -> Z) (l : list Z) : list Z :=
  match l with
  | [] => []
  | x :: l' => g_array_insert compare x (g_array_sort compare l')
  end.

(** [gtk_grid_view_get_unknown_row_size]:
    [g_return_val_if_fail (heights->len > 0, 0)], then the element at index
    [heights->len / 2] of the sorted array. *)
Definition gtk_grid_view_get_unknown_row_size (heights : list Z) : Z :=
  match heights with
  | [] => 0
  | _ :: _ =>
      nth (Nat.div (length heights) 2) (g_array_sort compare_ints heights) 0
  end.

(* ================================================================== *)
(** ** Column solver *)

(** [gtk_grid_view_measure_column_size]: the largest minimum and natural
    size, across the grid, of the realized cells. *)
Definition gtk_grid_view_measure_column_size (self : GtkGridView) : Z * Z :=
  let opposite := OPPOSITE_ORIENTATION (orientation self) in
  fold_left
    (fun (acc : Z * Z) (c : Cell) =>
       match widget c with
       | None => acc
       | Some w =>
           let '(child_min, child_nat) := gtk_widget_measure w opposite (-1) in
           (MAX (fst acc) child_min, MAX (snd acc) child_nat)
       end)
    (cells (item_manager self)) (0, 0).

(** [gtk_grid_view_compute_n_columns].  [for_size] is a [guint], [min] and
    [nat] are [int]s; the divisor [MAX (1, min)] is converted to [guint]
    for the division. *)
Definition gtk_grid_view_compute_n_columns
    (self : GtkGridView) (for_size min nat : Z) : option Z :=
  n <- (if is_minimum (scroll_policy self (OPPOSITE_ORIENTATION (orientation self)))
        then udiv for_size (to_guint (MAX 1 min))
        else udiv for_size (to_guint (MAX 1 nat))) ;;
  Some (CLAMP n (min_columns self) (max_columns self)).

(** Step 1 of [gtk_grid_view_size_allocate]: the column count and the
    column width for an allocation of [for_size] along the cross axis
    ([width] for a vertical grid, [height] otherwise).  [for_size] is an
    [int]; it is converted to [guint] both as the argument of the column
    solver and as the dividend of the width. *)
Definition gtk_grid_view_size_allocate_columns
    (self : GtkGridView) (for_size col_min col_nat : Z) : option (Z * Z) :=
  n <- gtk_grid_view_compute_n_columns self (to_guint for_size) col_min col_nat ;;
  w <- udiv (to_guint for_size) n ;;
  Some (n, MAX w col_min).

(* ================================================================== *)
(** ** Layout pass *)

Definition with_tree (t : GtkRbTree) (self : GtkGridView) : GtkGridView :=
  {| item_manager := t;
     scroll_policy := scroll_policy self;
     orientation := orientation self;
     min_columns := min_columns self;
     max_columns := max_columns self;
     n_columns := n_columns self;
     column_width := column_width self;
     unknown_row_height := unknown_row_height self |}.

Definition with_columns (n w : Z) (self : GtkGridView) : GtkGridView :=
  {| item_manager := item_manager self;
     scroll_policy := scroll_policy self;
     orientation := orientation self;
     min_columns := min_columns self;
     max_columns := max_columns self;
     n_columns := n;
     column_width := w;
     unknown_row_height := unknown_row_height self |}.

Definition with_unknown_row_height (u : Z) (self : GtkGridView) : GtkGridView :=
  {| item_manager := item_manager self;
     scroll_policy := scroll_policy self;
     orientation := orientation self;
     min_columns := min_columns self;
     max_columns := max_columns self;
     n_columns := n_columns self;
     column_width := column_width self;
     unknown_row_height := u |}.

(** A [for] loop over the cells in order, threading the loop variables. *)
Fixpoint for_each_cell {S : Type} (body : S -> Handle -> option S)
    (hs : list Handle) (s : S) : option S :=
  match hs with
  | [] => Some s
  | h :: hs' => s' <- body s h ;; for_each_cell body hs' s'
  end.

(** [cell_set_size (cell, cell->size + delta)] with [delta] already
    converted to [guint]. *)
Definition cell_add_size (t : GtkRbTree) (h : Handle) (delta : Z)
  : option GtkRbTree :=
  c <- gtk_rb_tree_node t h ;;
  Some (cell_set_size t h (to_guint (size c + delta))).

(** The loop variables of step 2: the tree, [i], [row_height], [start] and
    the [heights] array. *)
Record Step2 := {
  s2_tree : GtkRbTree;
  s2_i : Z;
  s2_row_height : Z;
  s2_start : option Handle;
  s2_heights : list Z
}.

(** Body of the loop of step 2, "determine height of known rows". *)
Definition size_allocate_step2_body (self : GtkGridView) (s : Step2) (h : Handle)
  : option Step2 :=
  c <- gtk_rb_tree_node (s2_tree s) h ;;
  let start := if s2_i s =? 0 then Some h else s2_start s in
  let '(heights, row_height) :=
    match widget c with
    | Some w =>
        let '(min, nat) := gtk_widget_measure w (orientation self) (column_width self) in
        let sz := if is_minimum (scroll_policy self (orientation self)) then min else nat in
        (s2_heights s ++ [sz], MAX (s2_row_height s) sz)
    | None => (s2_heights s, s2_row_height s)
    end in
  let t := cell_set_size (s2_tree s) h 0 in
  let i := to_guint (s2_i s + n_items c) in
  if i >=? n_columns self then
    i' <- umod i (n_columns self) ;;
    st <- start ;;
    t' <- cell_add_size t st (to_guint row_height) ;;
    Some {| s2_tree := t'; s2_i := i'; s2_row_height := 0;
            s2_start := Some h; s2_heights := heights |}
  else
    Some {| s2_tree := t; s2_i := i; s2_row_height := row_height;
            s2_start := start; s2_heights := heights |}.

(** The loop variables of step 3: the tree, [i], [known] and [start]. *)
Record Step3 := {
  s3_tree : GtkRbTree;
  s3_i : Z;
  s3_known : bool;
  s3_start : option Handle
}.

(** Body of the loop of step 3, "determine height of rows with only
    unknown items". *)
Definition size_allocate_step3_body (self : GtkGridView) (s : Step3) (h : Handle)
  : option Step3 :=
  c <- gtk_rb_tree_node (s3_tree s) h ;;
  let start := if s3_i s =? 0 then Some h else s3_start s in
  let known := match widget c with Some _ => true | None => s3_known s end in
  let i := to_guint (s3_i s + n_items c) in
  if i >=? n_columns self then
    t <- (if negb known then
            st <- start ;;
            cell_add_size (s3_tree s) st (to_guint (unknown_row_height self))
          else Some (s3_tree s)) ;;
    let i := to_guint (i - n_columns self) in
    if i >=? n_columns self then
      rows <- udiv i (n_columns self) ;;
      t' <- cell_add_size t h (to_guint (to_guint (unknown_row_height self) * rows)) ;;
      i' <- umod i (n_columns self) ;;
      Some {| s3_tree := t'; s3_i := i'; s3_known := false; s3_start := Some h |}
    else
      Some {| s3_tree := t; s3_i := i; s3_known := false; s3_start := Some h |}
  else
    Some {| s3_tree := (s3_tree s); s3_i := i; s3_known := known; s3_start := start |}.

(** [gtk_grid_view_size_allocate], steps 0 to 3, for an allocation of
    [for_size] along the cross axis.  Step 4 pushes the anchor to the two
    adjustments (see [gtk_grid_view_update_adjustment] below) and places
    the realized children; neither changes the fields computed here. *)
Definition gtk_grid_view_size_allocate (self : GtkGridView) (for_size : Z)
  : option GtkGridView :=
  match item_manager self with
  | Leaf =>
      (* step 0: exit early if list is empty *)
      Some self
  | Node _ _ _ _ _ =>
      (* step 1: determine width of the list *)
      let '(col_min, col_nat) := gtk_grid_view_measure_column_size self in
      '(n, w) <- gtk_grid_view_size_allocate_columns self for_size col_min col_nat ;;
      let self := with_columns n w self in
      (* step 2: determine height of known rows *)
      let hs := gtk_rb_tree_handles (item_manager self) in
      s2 <- for_each_cell (size_allocate_step2_body self) hs
              {| s2_tree := item_manager self; s2_i := 0; s2_row_height := 0;
                 s2_start := None; s2_heights := [] |} ;;
      t <- (if s2_i s2 >? 0 then
              st <- s2_start s2 ;;
              cell_add_size (s2_tree s2) st (to_guint (s2_row_height s2))
            else Some (s2_tree s2)) ;;
      (* step 3: determine height of rows with only unknown items *)
      let self :=
        with_unknown_row_height
          (gtk_grid_view_get_unknown_row_size (s2_heights s2)) (with_tree t self) in
      s3 <- for_each_cell (size_allocate_step3_body self) hs
              {| s3_tree := t; s3_i := 0; s3_known := false;
                 s3_start := hd_error hs |} ;;
      t <- (if (s3_i s3 >? 0) && negb (s3_known s3) then
              st <- s3_start s3 ;;
              cell_add_size (s3_tree s3) st (to_guint (unknown_row_height self))
            else Some (s3_tree s3)) ;;
      Some (with_tree t self)
  end.

(* ================================================================== *)
(** ** Measuring *)

(** [gtk_grid_view_measure_across]: the column size times the column
    bounds.  [*minimum *= self->min_columns] multiplies an [int] by a
    [guint] and stores the product as an [int]. *)
Definition gtk_grid_view_measure_across (self : GtkGridView) (for_size : Z)
  : Z * Z :=
  let '(minimum, natural) := gtk_grid_view_measure_column_size self in
  (to_gint (to_guint minimum * min_columns self),
   to_gint (to_guint natural * max_columns self)).

(** The loop variables of [gtk_grid_view_measure_list]: [i], [row_height],
    [measured], the [heights] array, [n_unknown] and [height]. *)
Record MeasureList := {
  ml_i : Z;
  ml_row_height : Z;
  ml_measured : bool;
  ml_heights : list Z;
  ml_n_unknown : Z;
  ml_height : Z
}.

(** A [for] loop over the cells in order that reads them only. *)
Fixpoint for_each_cell_read {S : Type} (body : S -> Cell -> option S)
    (cs : list Cell) (s : S) : option S :=
  match cs with
  | [] => Some s
  | c :: cs' => s' <- body s c ;; for_each_cell_read body cs' s'
  end.

(** Body of the loop of [gtk_grid_view_measure_list]. *)
Definition measure_list_body (self : GtkGridView) (n_columns column_size : Z)
    (s : MeasureList) (c : Cell) : option MeasureList :=
  let '(row_height, measured) :=
    match widget c with
    | Some w =>
        let '(child_min, child_nat) :=
          gtk_widget_measure w (orientation self) column_size in
        (if is_minimum (scroll_policy self (orientation self))
         then MAX (ml_row_height s) child_min
         else MAX (ml_row_height s) child_nat,
         true)
    | None => (ml_row_height s, ml_measured s)
    end in
  let i := to_guint (ml_i s + n_items c) in
  if i >=? n_columns then
    let s1 :=
      if measured then
        {| ml_i := to_guint (i - n_columns); ml_row_height := 0; ml_measured := false;
           ml_heights := ml_heights s ++ [row_height];
           ml_n_unknown := ml_n_unknown s;
           ml_height := to_gint (ml_height s + row_height) |}
      else
        {| ml_i := i; ml_row_height := row_height; ml_measured := measured;
           ml_heights := ml_heights s; ml_n_unknown := ml_n_unknown s;
           ml_height := ml_height s |} in
    q <- udiv (ml_i s1) n_columns ;;
    r <- umod (ml_i s1) n_columns ;;
    Some {| ml_i := r; ml_row_height := ml_row_height s1;
            ml_measured := ml_measured s1; ml_heights := ml_heights s1;
            ml_n_unknown := to_guint (ml_n_unknown s1 + q);
            ml_height := ml_height s1 |}
  else
    Some {| ml_i := i; ml_row_height := row_height; ml_measured := measured;
            ml_heights := ml_heights s; ml_n_unknown := ml_n_unknown s;
            ml_height := ml_height s |}.

(** [gtk_grid_view_measure_list]: minimum and natural size along the
    grid.  [for_size] is an [int]; it is converted to [guint] as the
    argument of the column solver and as the dividend of the column
    size. *)
Definition gtk_grid_view_measure_list (self : GtkGridView) (for_size : Z)
  : option (Z * Z) :=
  let '(col_min, col_nat) := gtk_grid_view_measure_column_size self in
  let for_size := MAX for_size (to_gint (col_min * to_gint (min_columns self))) in
  n_columns <- gtk_grid_view_compute_n_columns self (to_guint for_size) col_min col_nat ;;
  q <- udiv (to_guint for_size) n_columns ;;
  let column_size := to_gint q in
  s <- for_each_cell_read (measure_list_body self n_columns column_size)
         (cells (item_manager self))
         {| ml_i := 0; ml_row_height := 0; ml_measured := false;
            ml_heights := []; ml_n_unknown := 0; ml_height := 0 |} ;;
  let '(heights, n_unknown, height) :=
    if ml_i s >? 0 then
      if ml_measured s
      then (ml_heights s ++ [ml_row_height s], ml_n_unknown s,
            to_gint (ml_height s + ml_row_height s))
      else (ml_heights s, to_guint (ml_n_unknown s + 1), ml_height s)
    else (ml_heights s, ml_n_unknown s, ml_height s) in
  let height :=
    if negb (n_unknown =? 0)
    then to_gint (to_guint height
                  + to_guint (n_unknown
                              * to_guint (gtk_grid_view_get_unknown_row_size heights)))
    else height in
  Some (height, height).

(** [gtk_grid_view_measure]: along the grid the list is measured, across
    it the columns. *)
Definition gtk_grid_view_measure (self : GtkGridView) (o : GtkOrientation)
    (for_size : Z) : option (Z * Z) :=
  if orientation_eqb o (orientation self)
  then gtk_grid_view_measure_list self for_size
  else Some (gtk_grid_view_measure_across self for_size).

(* ================================================================== *)
(** ** Scroll-anchor controller *)

(** The [double] arithmetic of the controller.  The alignments and the
    fields of an adjustment are [double]s; the controller only combines
    them with the operations below and converts between them and integers.
    Nothing proved here depends on how the operations round, so they are
    an interface. *)
Class Double := {
  double : Type;
  (** conversion of an [int] or [guint] to [double] *)
  d_of_Z : Z -> double;
  (** conversion of a [double] to [int], and to [guint] *)
  d_to_int : double -> Z;
  d_to_guint : double -> Z;
  d_add : double -> double -> double;
  d_sub : double -> double -> double;
  d_mul : double -> double -> double;
  d_div : double -> double -> double;
  (** [round], [ceil] and [floor] of the C library *)
  d_round : double -> double;
  d_ceil : double -> double;
  d_floor : double -> double;
  (** [==] on [double] *)
  d_eqb : double -> double -> bool;
  (** the constants [0.1] and [0.9] *)
  d_tenth : double;
  d_nine_tenths : double
}.

Inductive GtkTextDirection := GTK_TEXT_DIR_LTR | GTK_TEXT_DIR_RTL.

Definition GTK_GRID_VIEW_MIN_VISIBLE_ROWS : Z := 30.
Definition GTK_INVALID_LIST_POSITION : Z := guint_modulus - 1.

(** Modelled from the spec: a scroll-position store (gtk/gtkadjustment.c).
    It "exposes value, page_size, upper_bound, and a change notification";
    the remaining fields are those [gtk_adjustment_configure] receives.
    [handler_connected] tells whether the view's handler
    [gtk_grid_view_adjustment_value_changed_cb] is connected to the
    notification ([gtk_grid_view_set_adjustment] connects it) and
    [handler_blocked] counts how often it is currently blocked. *)
Record GtkAdjustment {D : Double} := {
  gtk_adjustment_get_value : double;
  gtk_adjustment_get_lower : double;
  gtk_adjustment_get_upper : double;
  gtk_adjustment_get_step_increment : double;
  gtk_adjustment_get_page_increment : double;
  gtk_adjustment_get_page_size : double;
  handler_connected : bool;
  handler_blocked : nat
}.

(** What happens at the adjustments, in order of occurrence. *)
Inductive SignalEvent :=
| HandlerBlocked (o : GtkOrientation)
| AdjustmentConfigured (o : GtkOrientation)
| HandlerUnblocked (o : GtkOrientation)
| HandlerRun (o : GtkOrientation).

(** The widget as the controller sees it: the layout state [view], the two
    adjustments (two different objects), the text direction, the size of
    the widget along each orientation ([gtk_widget_get_size]), the number
    of items of the model, the anchor, whether an allocation is queued,
    and the events so far.  Modelled from the spec: the anchor's tracker
    (gtk/gtklistitemmanager.c) "identifies one item position";
    [anchor_position] is that position and [anchor_before],
    [anchor_after] are the numbers of items the tracker was last asked to
    keep realized around it. *)
Record GridViewState {D : Double} := {
  view : GtkGridView;
  adjustment : GtkOrientation -> GtkAdjustment;
  direction : GtkTextDirection;
  gtk_widget_get_size : GtkOrientation -> Z;
  g_list_model_get_n_items : Z;
  anchor_position : Z;
  anchor_before : Z;
  anchor_after : Z;
  anchor_xalign : double;
  anchor_yalign : double;
  anchor_xstart : bool;
  anchor_ystart : bool;
  allocate_queued : bool;
  events : list SignalEvent
}.

Definition with_anchor {D : Double} (s : GridViewState)
    (position before after : Z) : GridViewState :=
  {| view := view s; adjustment := adjustment s; direction := direction s;
     gtk_widget_get_size := gtk_widget_get_size s;
     g_list_model_get_n_items := g_list_model_get_n_items s;
     anchor_position := position; anchor_before := before; anchor_after := after;
     anchor_xalign := anchor_xalign s; anchor_yalign := anchor_yalign s;
     anchor_xstart := anchor_xstart s; anchor_ystart := anchor_ystart s;
     allocate_queued := allocate_queued s; events := events s |}.

Definition with_align {D : Double} (s : GridViewState)
    (xalign : double) (xstart : bool) (yalign : double) (ystart : bool)
  : GridViewState :=
  {| view := view s; adjustment := adjustment s; direction := direction s;
     gtk_widget_get_size := gtk_widget_get_size s;
     g_list_model_get_n_items := g_list_model_get_n_items s;
     anchor_position := anchor_position s; anchor_before := anchor_before s;
     anchor_after := anchor_after s;
     anchor_xalign := xalign; anchor_yalign := yalign;
     anchor_xstart := xstart; anchor_ystart := ystart;
     allocate_queued := allocate_queued s; events := events s |}.

(** [gtk_widget_queue_allocate]. *)
Definition gtk_widget_queue_allocate {D : Double} (s : GridViewState)
  : GridViewState :=
  {| view := view s; adjustment := adjustment s; direction := direction s;
     gtk_widget_get_size := gtk_widget_get_size s;
     g_list_model_get_n_items := g_list_model_get_n_items s;
     anchor_position := anchor_position s; anchor_before := anchor_before s;
     anchor_after := anchor_after s;
     anchor_xalign := anchor_xalign s; anchor_yalign := anchor_yalign s;
     anchor_xstart := anchor_xstart s; anchor_ystart := anchor_ystart s;
     allocate_queued := true; events := events s |}.

Definition with_adjustment {D : Double} (s : GridViewState)
    (o : GtkOrientation) (a : GtkAdjustment) (e : SignalEvent) : GridViewState :=
  {| view := view s;
     adjustment := fun o' => if orientation_eqb o o' then a else adjustment s o';
     direction := direction s;
     gtk_widget_get_size := gtk_widget_get_size s;
     g_list_model_get_n_items := g_list_model_get_n_items s;
     anchor_position := anchor_position s; anchor_before := anchor_before s;
     anchor_after := anchor_after s;
     anchor_xalign := anchor_xalign s; anchor_yalign := anchor_yalign s;
     anchor_xstart := anchor_xstart s; anchor_ystart := anchor_ystart s;
     allocate_queued := allocate_queued s; events := events s ++ [e] |}.

Definition log_event {D : Double} (s : GridViewState) (e : SignalEvent)
  : GridViewState :=
  {| view := view s; adjustment := adjustment s; direction := direction s;
     gtk_widget_get_size := gtk_widget_get_size s;
     g_list_model_get_n_items := g_list_model_get_n_items s;
     anchor_position := anchor_position s; anchor_before := anchor_before s;
     anchor_after := anchor_after s;
     anchor_xalign := anchor_xalign s; anchor_yalign := anchor_yalign s;
     anchor_xstart := anchor_xstart s; anchor_ystart := anchor_ystart s;
     allocate_queued := allocate_queued s; events := events s ++ [e] |}.

(** [gtk_grid_view_set_anchor]: the tracker is moved to [position], asked
    to keep [(MIN_VISIBLE_ROWS * yalign + 1) * max_columns] items realized
    before it and [(MIN_VISIBLE_ROWS * (1 - yalign) + 1) * max_columns]
    after it; the alignment is stored, and an allocation queued, when it
    differs from the stored one. *)
Definition gtk_grid_view_set_anchor {D : Double} (s : GridViewState)
    (position : Z) (xalign : double) (xstart : bool)
    (yalign : double) (ystart : bool) : GridViewState :=
  let rows := d_of_Z GTK_GRID_VIEW_MIN_VISIBLE_ROWS in
  let cols := d_of_Z (max_columns (view s)) in
  let before := d_to_guint (d_mul (d_add (d_mul rows yalign) (d_of_Z 1)) cols) in
  let after :=
    d_to_guint (d_mul (d_add (d_mul rows (d_sub (d_of_Z 1) yalign)) (d_of_Z 1)) cols) in
  let s := with_anchor s position before after in
  if negb (d_eqb (anchor_xalign s) xalign)
     || negb (Bool.eqb (anchor_xstart s) xstart)
     || negb (d_eqb (anchor_yalign s) yalign)
     || negb (Bool.eqb (anchor_ystart s) ystart)
  then gtk_widget_queue_allocate (with_align s xalign xstart yalign ystart)
  else s.

(** [gtk_grid_view_adjustment_is_flipped]. *)
Definition gtk_grid_view_adjustment_is_flipped {D : Double} (s : GridViewState)
    (o : GtkOrientation) : bool :=
  match o with
  | GTK_ORIENTATION_VERTICAL => false
  | GTK_ORIENTATION_HORIZONTAL =>
      match direction s with
      | GTK_TEXT_DIR_RTL => true
      | GTK_TEXT_DIR_LTR => false
      end
  end.

(** The choice of the edge to anchor, made alike for both axes in
    [gtk_grid_view_adjustment_value_changed_cb]: "find an anchor that is
    in the visible area". *)
Definition anchor_at_start (top bottom from_start page_size : Z) : bool :=
  if (top >? 0) && (bottom <? page_size)
  then to_gint (from_start - top) <=? to_gint (bottom - from_start)
  else if top >? 0 then true
  else if bottom <? page_size then false
  else to_gint (from_start - top) <=? to_gint (bottom - from_start).

(** The anchor the handler derives: [pos], [xalign], [xstart], [yalign],
    [ystart]. *)
Record DerivedAnchor {D : Double} := {
  da_pos : Z;
  da_xalign : double;
  da_xstart : bool;
  da_yalign : double;
  da_ystart : bool
}.

(** [gtk_grid_view_adjustment_value_changed_cb] up to the test
    [pos >= n_items]: the anchor derived from the value of the adjustment
    of orientation [which]. *)
Definition derive_anchor {D : Double} (s : GridViewState) (which : GtkOrientation)
  : option DerivedAnchor :=
  let self := view s in
  let adj := adjustment s which in
  let page_size := d_to_int (gtk_adjustment_get_page_size adj) in
  let value := d_to_int (gtk_adjustment_get_value adj) in
  let total_size := d_to_int (gtk_adjustment_get_upper adj) in
  let anchor_pos := anchor_position s in
  let n := g_list_model_get_n_items s in
  let value :=
    if gtk_grid_view_adjustment_is_flipped s (orientation self)
    then to_gint (to_gint (total_size - page_size) - value)
    else value in
  let align := d_div (d_of_Z value) (d_of_Z (to_gint (total_size - page_size))) in
  let from_start := d_to_int (d_round (d_mul align (d_of_Z page_size))) in
  if orientation_eqb which (orientation self) then
    (* We want the cell that far down the page *)
    cy <- gtk_grid_view_get_cell_at_y self (to_gint (value + from_start)) ;;
    '(pos, yalign, ystart) <-
      match cy_cell cy with
      | Some _ =>
          let top := to_gint (from_start - cy_offset cy) in
          let bottom := to_gint (top + cy_size cy) in
          let ystart := anchor_at_start top bottom from_start page_size in
          Some (cy_position cy,
                d_div (d_of_Z (if ystart then top else bottom)) (d_of_Z page_size),
                ystart)
      | None =>
          (* So take the last row. *)
          let pos := to_guint (n - 1) in
          rem <- umod pos (n_columns self) ;;
          Some (to_guint (pos - rem), d_of_Z 1, false)
      end ;;
    (* And finally, keep the column anchor intact. *)
    col <- umod anchor_pos (n_columns self) ;;
    Some {| da_pos := to_guint (pos + col);
            da_xalign := anchor_xalign s; da_xstart := anchor_xstart s;
            da_yalign := yalign; da_ystart := ystart |}
  else
    let width := d_of_Z (column_width self) in
    let pos := d_to_guint (d_floor (d_div (d_of_Z (to_gint (value + from_start))) width)) in
    let '(pos, xalign, xstart) :=
      if pos >=? n_columns self then
        (* scrolling to the end sets pos to exactly self->n_columns *)
        (to_guint (n_columns self - 1), d_of_Z 1, false)
      else
        let top := d_to_int (d_sub (d_ceil (d_mul width (d_of_Z pos))) (d_of_Z value)) in
        let bottom :=
          d_to_int (d_sub (d_ceil (d_mul width (d_of_Z (to_guint (pos + 1)))))
                          (d_of_Z value)) in
        let xstart := anchor_at_start top bottom from_start page_size in
        (pos, d_div (d_of_Z (if xstart then top else bottom)) (d_of_Z page_size),
         xstart) in
    (* And finally, keep the row anchor intact. *)
    col <- umod anchor_pos (n_columns self) ;;
    Some {| da_pos := to_guint (pos + to_guint (anchor_pos - col));
            da_xalign := xalign; da_xstart := xstart;
            da_yalign := anchor_yalign s; da_ystart := anchor_ystart s |}.

(** [gtk_grid_view_adjustment_value_changed_cb], the handler of the change
    notification of the adjustment of orientation [which]. *)
Definition gtk_grid_view_adjustment_value_changed_cb {D : Double}
    (s : GridViewState) (which : GtkOrientation) : option GridViewState :=
  let s := log_event s (HandlerRun which) in
  let self := view s in
  let n := g_list_model_get_n_items s in
  d <- derive_anchor s which ;;
  '(pos, xalign, xstart) <-
    (if da_pos d >=? n then
       (* Ugh, we're in the last row and don't have enough items
          to fill the row.  Do it the hard way then... *)
       let adj := adjustment s (OPPOSITE_ORIENTATION (orientation self)) in
       let pos := to_guint (n - 1) in
       col <- umod pos (n_columns self) ;;
       Some (pos,
             d_div (d_sub (d_ceil (d_mul (d_of_Z (column_width self))
                                         (d_of_Z (to_guint (col + 1)))))
                          (gtk_adjustment_get_value adj))
                   (gtk_adjustment_get_page_size adj),
             false)
     else Some (da_pos d, da_xalign d, da_xstart d)) ;;
  Some (gtk_widget_queue_allocate
          (gtk_grid_view_set_anchor s pos xalign xstart (da_yalign d) (da_ystart d))).

(** [g_signal_handlers_block_by_func] and [g_signal_handlers_unblock_by_func]
    for the view's handler at the adjustment of orientation [o]: the block
    count of the handler, if it is connected, goes up and down by one. *)
Definition g_signal_handlers_block_by_func {D : Double} (s : GridViewState)
    (o : GtkOrientation) : GridViewState :=
  let a := adjustment s o in
  with_adjustment s o
    {| gtk_adjustment_get_value := gtk_adjustment_get_value a;
       gtk_adjustment_get_lower := gtk_adjustment_get_lower a;
       gtk_adjustment_get_upper := gtk_adjustment_get_upper a;
       gtk_adjustment_get_step_increment := gtk_adjustment_get_step_increment a;
       gtk_adjustment_get_page_increment := gtk_adjustment_get_page_increment a;
       gtk_adjustment_get_page_size := gtk_adjustment_get_page_size a;
       handler_connected := handler_connected a;
       handler_blocked :=
         if handler_connected a then S (handler_blocked a) else handler_blocked a |}
    (HandlerBlocked o).

Definition g_signal_handlers_unblock_by_func {D : Double} (s : GridViewState)
    (o : GtkOrientation) : GridViewState :=
  let a := adjustment s o in
  with_adjustment s o
    {| gtk_adjustment_get_value := gtk_adjustment_get_value a;
       gtk_adjustment_get_lower := gtk_adjustment_get_lower a;
       gtk_adjustment_get_upper := gtk_adjustment_get_upper a;
       gtk_adjustment_get_step_increment := gtk_adjustment_get_step_increment a;
       gtk_adjustment_get_page_increment := gtk_adjustment_get_page_increment a;
       gtk_adjustment_get_page_size := gtk_adjustment_get_page_size a;
       handler_connected := handler_connected a;
       handler_blocked :=
         if handler_connected a then Nat.pred (handler_blocked a)
         else handler_blocked a |}
    (HandlerUnblocked o).

(** Modelled from the spec: [gtk_adjustment_configure] of
    gtk/gtkadjustment.c.  The store takes the new fields and, "pushing a
    value into a scroll-position store synchronously invokes that store's
    change callback": when the value differs from the stored one, the
    view's handler, if connected and not blocked, runs before the call
    returns. *)
Definition gtk_adjustment_configure {D : Double} (s : GridViewState)
    (o : GtkOrientation)
    (value lower upper step_increment page_increment page_size : double)
  : option GridViewState :=
  let a := adjustment s o in
  let value_changed := negb (d_eqb value (gtk_adjustment_get_value a)) in
  let s' :=
    with_adjustment s o
      {| gtk_adjustment_get_value := value;
         gtk_adjustment_get_lower := lower;
         gtk_adjustment_get_upper := upper;
         gtk_adjustment_get_step_increment := step_increment;
         gtk_adjustment_get_page_increment := page_increment;
         gtk_adjustment_get_page_size := page_size;
         handler_connected := handler_connected a;
         handler_blocked := handler_blocked a |}
      (AdjustmentConfigured o) in
  if value_changed && handler_connected a && Nat.eqb (handler_blocked a) 0
  then gtk_grid_view_adjustment_value_changed_cb s' o
  else Some s'.

(** [gtk_grid_view_update_adjustment_with_values]: the state afterwards
    and the value returned. *)
Definition gtk_grid_view_update_adjustment_with_values {D : Double}
    (s : GridViewState) (o : GtkOrientation) (value upper page_size : Z)
  : option (GridViewState * Z) :=
  let upper := MAX upper page_size in
  let value := MAX 0 value in
  let value := MIN value (to_gint (upper - page_size)) in
  let s := g_signal_handlers_block_by_func s o in
  let value :=
    if gtk_grid_view_adjustment_is_flipped s o
    then to_gint (to_gint (upper - page_size) - value)
    else value in
  s <- gtk_adjustment_configure s o
         (d_of_Z value) (d_of_Z 0) (d_of_Z upper)
         (d_mul (d_of_Z page_size) d_tenth) (d_mul (d_of_Z page_size) d_nine_tenths)
         (d_of_Z page_size) ;;
  Some (g_signal_handlers_unblock_by_func s o, value).

(** [gtk_grid_view_update_adjustment].  A failed [g_assert] ends the
    program like a trap. *)
Definition gtk_grid_view_update_adjustment {D : Double}
    (s : GridViewState) (o : GtkOrientation) : option (GridViewState * Z) :=
  let self := view s in
  let anchor_pos := anchor_position s in
  if anchor_pos =? GTK_INVALID_LIST_POSITION then
    '(s, _) <- gtk_grid_view_update_adjustment_with_values s o 0 0 0 ;;
    Some (s, 0)
  else
    let page_size := gtk_widget_get_size s o in
    if orientation_eqb (orientation self) o then
      aug <- gtk_rb_tree_get_augment (item_manager self) ;;
      sp <- gtk_grid_view_get_size_at_position self anchor_pos ;;
      if sp_found sp then
        let value :=
          if anchor_ystart s then sp_offset sp
          else to_gint (sp_offset sp + sp_size sp) in
        gtk_grid_view_update_adjustment_with_values s (orientation self)
          (d_to_int (d_sub (d_of_Z value) (d_mul (anchor_yalign s) (d_of_Z page_size))))
          (to_gint (aug_size aug)) page_size
      else None
    else
      i <- umod anchor_pos (n_columns self) ;;
      let width := d_of_Z (column_width self) in
      let value :=
        if anchor_xstart s then d_to_int (d_ceil (d_mul width (d_of_Z i)))
        else d_to_int (d_ceil (d_mul width (d_of_Z (to_guint (i + 1))))) in
      let total_size := d_to_int (d_round (d_mul (d_of_Z (n_columns self)) width)) in
      gtk_grid_view_update_adjustment_with_values s
        (OPPOSITE_ORIENTATION (orientation self))
        (d_to_int (d_sub (d_of_Z value) (d_mul (anchor_xalign s) (d_of_Z page_size))))
        total_size page_size.

(* ================================================================== *)
(** ** Column bounds *)

(** The properties the two setters notify. *)
Inductive GridViewProperty := PROP_MAX_COLUMNS | PROP_MIN_COLUMNS.

(** The widget with what the setters reach beyond the state of the
    controller: whether a resize is queued ([gtk_widget_queue_resize]) and
    the notifications emitted so far ([g_object_notify_by_pspec]). *)
Record GridViewObject {D : Double} := {
  gv_state : GridViewState;
  resize_queued : bool;
  notified : list GridViewProperty
}.

Definition with_max_columns (m : Z) (self : GtkGridView) : GtkGridView :=
  {| item_manager := item_manager self;
     scroll_policy := scroll_policy self;
     orientation := orientation self;
     min_columns := min_columns self;
     max_columns := m;
     n_columns := n_columns self;
     column_width := column_width self;
     unknown_row_height := unknown_row_height self |}.

Definition with_min_columns (m : Z) (self : GtkGridView) : GtkGridView :=
  {| item_manager := item_manager self;
     scroll_policy := scroll_policy self;
     orientation := orientation self;
     min_columns := m;
     max_columns := max_columns self;
     n_columns := n_columns self;
     column_width := column_width self;
     unknown_row_height := unknown_row_height self |}.

Definition with_view {D : Double} (s : GridViewState) (v : GtkGridView)
  : GridViewState :=
  {| view := v; adjustment := adjustment s; direction := direction s;
     gtk_widget_get_size := gtk_widget_get_size s;
     g_list_model_get_n_items := g_list_model_get_n_items s;
     anchor_position := anchor_position s; anchor_before := anchor_before s;
     anchor_after := anchor_after s;
     anchor_xalign := anchor_xalign s; anchor_yalign := anchor_yalign s;
     anchor_xstart := anchor_xstart s; anchor_ystart := anchor_ystart s;
     allocate_queued := allocate_queued s; events := events s |}.

(** [gtk_grid_view_set_max_columns]; the argument is a [guint].  A failed
    [g_return_if_fail] returns without any effect.  The anchor is set
    again, to where it is, so that the tracker is asked for the items of
    the new number of columns. *)
Definition gtk_grid_view_set_max_columns {D : Double} (o : GridViewObject)
    (max_columns' : Z) : GridViewObject :=
  if negb (max_columns' >? 0) then o
  else if max_columns (view (gv_state o)) =? max_columns' then o
  else
    let s := with_view (gv_state o)
               (with_max_columns max_columns' (view (gv_state o))) in
    let s := gtk_grid_view_set_anchor s (anchor_position s)
               (anchor_xalign s) (anchor_xstart s)
               (anchor_yalign s) (anchor_ystart s) in
    {| gv_state := s; resize_queued := true;
       notified := notified o ++ [PROP_MAX_COLUMNS] |}.

(** [gtk_grid_view_set_min_columns]; the argument is a [guint]. *)
Definition gtk_grid_view_set_min_columns {D : Double} (o : GridViewObject)
    (min_columns' : Z) : GridViewObject :=
  if negb (min_columns' >? 0) then o
  else if min_columns (view (gv_state o)) =? min_columns' then o
  else
    {| gv_state := with_view (gv_state o)
                     (with_min_columns min_columns' (view (gv_state o)));
       resize_queued := true;
       notified := notified o ++ [PROP_MIN_COLUMNS] |}.

(* ================================================================== *)
(** ** Placing the children *)

(** [GtkAllocation]: [x], [y], [width] and [height]. *)
Record GtkAllocation := {
  alloc_x : Z;
  alloc_y : Z;
  alloc_width : Z;
  alloc_height : Z
}.

(** [gtk_grid_view_size_allocate_child]: the allocation handed to
    [gtk_widget_size_allocate] for a child at [x] across and [y] along the
    grid.  [mirror_point] is the width of the grid view
    ([gtk_widget_get_width]). *)
Definition gtk_grid_view_size_allocate_child
    (self : GtkGridView) (dir : GtkTextDirection) (mirror_point : Z)
    (x y width height : Z) : GtkAllocation :=
  match orientation self with
  | GTK_ORIENTATION_VERTICAL =>
      {| alloc_x := x; alloc_y := y; alloc_width := width; alloc_height := height |}
  | GTK_ORIENTATION_HORIZONTAL =>
      match dir with
      | GTK_TEXT_DIR_LTR =>
          {| alloc_x := y; alloc_y := x; alloc_width := height; alloc_height := width |}
      | GTK_TEXT_DIR_RTL =>
          {| alloc_x := to_gint (to_gint (mirror_point - y) - height);
             alloc_y := x; alloc_width := height; alloc_height := width |}
      end
  end.

(** The loop variables of step 4 of [gtk_grid_view_size_allocate]: [i],
    [row_height], [y], and the children allocated so far, each with its
    allocation. *)
Record Step4 := {
  s4_i : Z;
  s4_row_height : Z;
  s4_y : Z;
  s4_children : list (GtkWidget * GtkAllocation)
}.

(** Body of the loop of step 4.  [column_width] holds an integer, so
    [ceil (self->column_width * i)] is the product; the sums are passed as
    [int]s. *)
Definition size_allocate_step4_body
    (self : GtkGridView) (dir : GtkTextDirection) (mirror_point x : Z)
    (s : Step4) (c : Cell) : option Step4 :=
  match widget c with
  | Some w =>
      let '(y, row_height) :=
        if s4_i s =? 0
        then (to_gint (s4_y s + s4_row_height s), to_gint (size c))
        else (s4_y s, s4_row_height s) in
      let child :=
        gtk_grid_view_size_allocate_child self dir mirror_point
          (to_gint (x + column_width self * s4_i s))
          y
          (to_gint (column_width self * to_guint (s4_i s + 1)
                    - column_width self * s4_i s))
          row_height in
      i <- umod (to_guint (s4_i s + 1)) (n_columns self) ;;
      Some {| s4_i := i; s4_row_height := row_height; s4_y := y;
              s4_children := s4_children s ++ [(w, child)] |}
  | None =>
      let i := to_guint (s4_i s + n_items c) in
      if i >? n_columns self then
        let i := to_guint (i - n_columns self) in
        let y := to_gint (s4_y s + s4_row_height s) in
        let row_height := to_gint (size c) in
        if i >? n_columns self then
          unknown_rows <- udiv (to_guint (i - 1)) (n_columns self) ;;
          let unknown_height :=
            to_gint (unknown_rows * to_guint (unknown_row_height self)) in
          i' <- umod i (n_columns self) ;;
          Some {| s4_i := i';
                  s4_row_height := to_gint (row_height - unknown_height);
                  s4_y := to_gint (y + unknown_height);
                  s4_children := s4_children s |}
        else
          Some {| s4_i := i; s4_row_height := row_height; s4_y := y;
                  s4_children := s4_children s |}
      else
        Some {| s4_i := i; s4_row_height := s4_row_height s; s4_y := s4_y s;
                s4_children := s4_children s |}
  end.

(** The loop of step 4 of [gtk_grid_view_size_allocate]: the realized
    children in order, each with the allocation it is given.  [x] and [y]
    are the negated values that the two calls of
    [gtk_grid_view_update_adjustment] returned. *)
Definition gtk_grid_view_size_allocate_children
    (self : GtkGridView) (dir : GtkTextDirection) (mirror_point x y : Z)
  : option (list (GtkWidget * GtkAllocation)) :=
  s <- for_each_cell_read (size_allocate_step4_body self dir mirror_point x)
         (cells (item_manager self))
         {| s4_i := 0; s4_row_height := 0; s4_y := y; s4_children := [] |} ;;
  Some (s4_children s).

(* ================================================================== *)
(** * Vocabulary of the properties *)

(* ================================================================== *)
(** ** Column solver: the contract *)

(** The contract of the column solver, in the words of the
    specification:
    [n_columns = clamp (available_size / (size_policy == MINIMIZE
       ? max (1, measured_min) : max (1, measured_nat)), min_columns, max_columns)].
    [clamp] limits its argument to the upper bound, and otherwise to the
    lower bound; between ordered bounds that is the usual
    [max (low, min (x, high))] (see [clamp_ordered]). *)
Definition clamp (x low high : Z) : Z :=
  if high <? x then high else if x <? low then low else x.

Definition compute_columns
    (available_size measured_min measured_nat : Z)
    (size_policy : GtkScrollablePolicy) (min_cols max_cols : Z) : Z :=
  clamp (available_size
         / (match size_policy with
            | GTK_SCROLL_MINIMUM => Z.max 1 measured_min
            | GTK_SCROLL_NATURAL => Z.max 1 measured_nat
            end))
        min_cols max_cols.

Definition compute_column_width (available_size n_cols measured_min : Z) : Z :=
  Z.max (available_size / n_cols) measured_min.

(** The bounds as the specification states them: the result of the column
    solver lies between [min_columns] and [max_columns]. *)
Definition n_columns_within_bounds (self : GtkGridView) (for_size min nat : Z)
  : Prop :=
  exists n : Z,
    gtk_grid_view_compute_n_columns self for_size min nat = Some n /\
    min_columns self <= n <= max_columns self.

(* ================================================================== *)
(** ** Row heights *)

(** Measured heights: non-negative [int]s. *)
Definition measured (h : Z) : Prop := 0 <= h < gint_half.

(* ================================================================== *)
(** ** Summaries *)

(** The sum of the pixel sizes, and of the item counts, of all runs. *)
Definition total_size (t : GtkRbTree) : Z :=
  fold_right Z.add 0 (map size (cells t)).
Definition total_items (t : GtkRbTree) : Z :=
  fold_right Z.add 0 (map n_items (cells t)).

(** The summary read at a node, with 0 for an absent child. *)
Definition summary_size (t : GtkRbTree) : Z :=
  match gtk_rb_tree_get_augment t with
  | Some a => aug_size a
  | None => 0
  end.
Definition summary_items (t : GtkRbTree) : Z :=
  match gtk_rb_tree_get_augment t with
  | Some a => aug_n_items a
  | None => 0
  end.

(** At every node of the tree the summary is the node's own fields combined
    with the summaries of both children. *)
Fixpoint summaries_combine (t : GtkRbTree) : Prop :=
  match t with
  | Leaf => True
  | Node l c _ _ r =>
      summaries_combine l /\ summaries_combine r /\
      summary_size t = to_guint (size c + summary_size l + summary_size r) /\
      summary_items t = to_guint (n_items c + summary_items l + summary_items r)
  end.

(** The invariant of the cache: a cached summary that is not marked dirty
    is the one the augment function computes. *)
Fixpoint cache_valid (t : GtkRbTree) : Prop :=
  match t with
  | Leaf => True
  | Node l c a d r =>
      cache_valid l /\ cache_valid r /\
      (d = false ->
       a = cell_augment c (gtk_rb_tree_get_augment l) (gtk_rb_tree_get_augment r))
  end.

(** The fields of every cell are [guint]s. *)
Definition cell_ok (c : Cell) : Prop := is_guint (n_items c) /\ is_guint (size c).
Definition cells_ok (t : GtkRbTree) : Prop := Forall cell_ok (cells t).

(** A run-size mutation: [cell_set_size] on some cell, after which the
    tree recomputes the summaries that were marked dirty. *)
Definition set_run_size (t : GtkRbTree) (m : Handle * Z) : GtkRbTree :=
  gtk_rb_tree_reaugment (cell_set_size t (fst m) (snd m)).

(* ================================================================== *)
(** ** Runs, rows and positions *)

(** The number of items, and the pixels, in front of the cell at [h]. *)
Fixpoint items_before (t : GtkRbTree) (h : Handle) : Z :=
  match t, h with
  | Leaf, _ => 0
  | Node l _ _ _ _, [] => total_items l
  | Node l _ _ _ _, L :: h' => items_before l h'
  | Node l c _ _ r, R :: h' => total_items l + n_items c + items_before r h'
  end.

Fixpoint size_before (t : GtkRbTree) (h : Handle) : Z :=
  match t, h with
  | Leaf, _ => 0
  | Node l _ _ _ _, [] => total_size l
  | Node l _ _ _ _, L :: h' => size_before l h'
  | Node l c _ _ r, R :: h' => total_size l + size c + size_before r h'
  end.

(** The run at [h] covers item [q]. *)
Definition covers (t : GtkRbTree) (h : Handle) (q : Z) : Prop :=
  exists c, gtk_rb_tree_node t h = Some c /\
            items_before t h <= q < items_before t h + n_items c.

(** The runs of the index in order, each with the position of its first
    item. *)
Fixpoint runs_from (start : Z) (cs : list Cell) : list (Z * Cell) :=
  match cs with
  | [] => []
  | c :: cs' => (start, c) :: runs_from (start + n_items c) cs'
  end.

Definition runs (t : GtkRbTree) : list (Z * Cell) := runs_from 0 (cells t).

(** Rows have positive sizes.  Of the rows that begin inside a run all but
    the last are [unknown_row_height] high and the last takes the rest of
    the run's size.  [lead] is the number of items at the front of the run
    that finish a row begun before it. *)
Definition run_rows_positive (self : GtkGridView) (run : Z * Cell) : Prop :=
  let lead := (- fst run) mod n_columns self in
  lead < n_items (snd run) ->
  (n_items (snd run) - lead - 1) / n_columns self * unknown_row_height self
  < size (snd run).

Definition positive_row_sizes (self : GtkGridView) : Prop :=
  0 < unknown_row_height self /\
  Forall (run_rows_positive self) (runs (item_manager self)).

(** The round trip as the specification states it: the offset computed
    for [p], handed to [gtk_grid_view_get_cell_at_y], returns a run
    covering [p], and the reported position lies in the row of [p]. *)
Definition round_trip_as_stated (self : GtkGridView) (p : Z) : Prop :=
  exists (sp : SizeAtPosition) (cy : CellAtY) (h : Handle),
    gtk_grid_view_get_size_at_position self p = Some sp /\
    gtk_grid_view_get_cell_at_y self (sp_offset sp) = Some cy /\
    cy_cell cy = Some h /\
    covers (item_manager self) h p /\
    cy_position cy / n_columns self = p / n_columns self.

Definition cell_not_found : CellAtY :=
  {| cy_cell := None; cy_position := 0; cy_offset := 0; cy_size := 0 |}.

Definition size_not_found : SizeAtPosition :=
  {| sp_found := false; sp_offset := 0; sp_size := 0 |}.

(* ================================================================== *)
(** ** What a layout pass keeps *)

(** Two trees of the same shape whose runs agree on item count and widget:
    they differ in the sizes, and in the cached summaries, at most. *)
Fixpoint same_items (t t' : GtkRbTree) : Prop :=
  match t, t' with
  | Leaf, Leaf => True
  | Node l c _ _ r, Node l' c' _ _ r' =>
      same_items l l' /\ n_items c' = n_items c /\ widget c' = widget c /\
      same_items r r'
  | _, _ => False
  end.

(** The loop invariants of steps 2 and 3 of [gtk_grid_view_size_allocate],
    relative to the tree [t0] the pass began with and to a property
    [keeps] of trees: the tree still has the items of [t0] and the
    property, and [start] points to a cell whenever a row is open. *)
Definition step2_invariant (keeps : GtkRbTree -> Prop) (t0 : GtkRbTree) (s : Step2)
  : Prop :=
  same_items t0 (s2_tree s) /\ keeps (s2_tree s) /\
  (s2_i s <> 0 ->
   exists st c, s2_start s = Some st /\ gtk_rb_tree_node t0 st = Some c).

Definition step3_invariant (keeps : GtkRbTree -> Prop) (t0 : GtkRbTree) (s : Step3)
  : Prop :=
  same_items t0 (s3_tree s) /\ keeps (s3_tree s) /\
  (s3_i s <> 0 ->
   exists st c, s3_start s = Some st /\ gtk_rb_tree_node t0 st = Some c).

(** The heights step 2 of the layout pass measures, in order: for every
    realized cell the minimum or the natural size, as the scroll policy
    along the grid says, of its widget for the column width. *)
Definition realized_heights (self : GtkGridView) (cs : list Cell) : list Z :=
  flat_map
    (fun c =>
       match widget c with
       | Some w =>
           let '(min, nat) :=
             gtk_widget_measure w (orientation self) (column_width self) in
           [if is_minimum (scroll_policy self (orientation self)) then min else nat]
       | None => []
       end) cs.

(* ================================================================== *)
(** ** Measuring a grid of equal items *)



(* ================================================================== *)
(** ** Calls of the column setters *)

Inductive ColumnsCall :=
| SetMinColumns (min_columns : Z)
| SetMaxColumns (max_columns : Z).

Definition columns_call {D : Double} (o : GridViewObject) (c : ColumnsCall)
  : GridViewObject :=
  match c with
  | SetMinColumns m => gtk_grid_view_set_min_columns o m
  | SetMaxColumns m => gtk_grid_view_set_max_columns o m
  end.

(* ================================================================== *)
(** ** Allocations *)

(** Two allocations share a pixel. *)
Definition overlap (a b : GtkAllocation) : Prop :=
  alloc_x a < alloc_x b + alloc_width b /\
  alloc_x b < alloc_x a + alloc_width a /\
  alloc_y a < alloc_y b + alloc_height b /\
  alloc_y b < alloc_y a + alloc_height a.

(** The rectangle of an allocation in the coordinates of the grid, [x]
    across and [y] along it: what [gtk_grid_view_size_allocate_child] was
    called with. *)
Definition grid_coordinates (self : GtkGridView) (dir : GtkTextDirection)
    (mirror_point : Z) (a : GtkAllocation) : GtkAllocation :=
  match orientation self with
  | GTK_ORIENTATION_VERTICAL => a
  | GTK_ORIENTATION_HORIZONTAL =>
      match dir with
      | GTK_TEXT_DIR_LTR =>
          {| alloc_x := alloc_y a; alloc_y := alloc_x a;
             alloc_width := alloc_height a; alloc_height := alloc_width a |}
      | GTK_TEXT_DIR_RTL =>
          {| alloc_x := alloc_y a;
             alloc_y := mirror_point - alloc_x a - alloc_width a;
             alloc_width := alloc_height a; alloc_height := alloc_width a |}
      end
  end.

(** The invariant of the loop of step 4 on a grid all of whose cells are
    realized, placed at [x], [y0] with [n] columns of width [cw], after
    cells whose sizes add up to [done]; [coords] gives the rectangle of an
    allocation in the coordinates of the grid.  Every child allocated so
    far lies in a column, and either in a row that ended at or above the
    current [y], or in the current row, in a column in front of [i]; no
    two of them overlap. *)
Definition step4_invariant (coords : GtkAllocation -> GtkAllocation)
    (n cw x y0 done : Z) (s : Step4) : Prop :=
  0 <= s4_i s < n /\
  0 <= s4_row_height s /\
  y0 <= s4_y s /\ s4_y s + s4_row_height s <= y0 + done /\
  Forall
    (fun wa : GtkWidget * GtkAllocation =>
       let a := coords (snd wa) in
       alloc_width a = cw /\ y0 <= alloc_y a /\ 0 <= alloc_height a /\
       exists col : Z,
         0 <= col < n /\ alloc_x a = x + cw * col /\
         (alloc_y a + alloc_height a <= s4_y s \/
          alloc_y a = s4_y s /\ alloc_height a = s4_row_height s /\
          (s4_i s = 0 \/ col < s4_i s)))
    (s4_children s) /\
  ForallOrdPairs (fun a b => ~ overlap a b)
    (map (fun wa : GtkWidget * GtkAllocation => coords (snd wa)) (s4_children s)).

(* ================================================================== *)
(** ** Rows of realized cells *)

(** The sizes step 2 of the layout pass leaves in the cells of one row,
    given their heights: the first cell of the row carries the height of
    the row, the largest of them, and the others carry 0. *)
Definition row_sizes (row : list Z) : list Z :=
  match row with
  | [] => []
  | _ :: rest => fold_left Z.max row 0 :: map (fun _ => 0) rest
  end.

(** The loop variables of step 2 on a grid of realized single items, in
    [n] columns, after the cells with the heights [done], in front of
    cells with the sizes [rest]: the heights split in complete rows and an
    open row; the cells of the complete rows have their sizes, those of
    the open row have size 0, and [start] is the first cell of the open
    row. *)
Definition step2_rows (t0 : GtkRbTree) (n : Z) (done rest : list Z) (s : Step2)
  : Prop :=
  same_items t0 (s2_tree s) /\
  exists (rows : list (list Z)) (open : list Z),
    done = concat rows ++ open /\
    Forall (fun row => Z.of_nat (length row) = n) rows /\
    Z.of_nat (length open) < n /\
    Forall measured done /\
    map size (cells (s2_tree s))
    = concat (map row_sizes rows) ++ map (fun _ => 0) open ++ rest /\
    s2_i s = Z.of_nat (length open) /\
    s2_row_height s = fold_left Z.max open 0 /\
    s2_heights s = done /\
    (open <> [] ->
     exists st, s2_start s = Some st /\
                nth_error (gtk_rb_tree_handles t0) (length (concat rows)) = Some st).

(* ================================================================== *)
(** ** Two layout passes side by side *)

(** Two views with the same settings: orientation, scroll policies and
    column bounds. *)
Definition same_settings (self self' : GtkGridView) : Prop :=
  orientation self = orientation self' /\
  (forall o, scroll_policy self o = scroll_policy self' o) /\
  min_columns self = min_columns self' /\
  max_columns self = max_columns self'.

(** Two views with the same layout: column count, column width, unknown
    row height and the sizes of the cells. *)
Definition same_layout (self self' : GtkGridView) : Prop :=
  n_columns self = n_columns self' /\
  column_width self = column_width self' /\
  unknown_row_height self = unknown_row_height self' /\
  map size (cells (item_manager self)) = map size (cells (item_manager self')).

(** The loop variables of step 2 in two passes over trees with the items
    of [t0], after [k] cells: they agree but for the trees, the trees
    agree on the sizes of the first [k] cells, and [start] is one of
    these whenever a row is open. *)
Definition step2_agree (t0 : GtkRbTree) (k : nat) (s s' : Step2) : Prop :=
  same_items t0 (s2_tree s) /\ same_items t0 (s2_tree s') /\
  s2_i s = s2_i s' /\ s2_row_height s = s2_row_height s' /\
  s2_start s = s2_start s' /\ s2_heights s = s2_heights s' /\
  (forall j, (j < k)%nat ->
             nth_error (map size (cells (s2_tree s))) j
             = nth_error (map size (cells (s2_tree s'))) j) /\
  (s2_i s <> 0 ->
   exists st p, s2_start s = Some st /\ (p < k)%nat /\
                nth_error (gtk_rb_tree_handles t0) p = Some st).

(** The loop variables of step 3 in two such passes: they agree but for
    the trees, the trees agree on all sizes, and [start] is a cell
    whenever a row is open. *)
Definition step3_agree (t0 : GtkRbTree) (s s' : Step3) : Prop :=
  same_items t0 (s3_tree s) /\ same_items t0 (s3_tree s') /\
  s3_i s = s3_i s' /\ s3_known s = s3_known s' /\ s3_start s = s3_start s' /\
  map size (cells (s3_tree s)) = map size (cells (s3_tree s')) /\
  (s3_i s <> 0 ->
   exists st p, s3_start s = Some st /\
                nth_error (gtk_rb_tree_handles t0) p = Some st).

(* ================================================================== *)
(** ** Pushes to an adjustment *)

(** The events of a push: block, configure, unblock. *)
Definition push_events (o : GtkOrientation) : list SignalEvent :=
  [HandlerBlocked o; AdjustmentConfigured o; HandlerUnblocked o].

(* ================================================================== *)
(** * Example data *)

(* ================================================================== *)
(** ** Column configurations *)

(** The configuration of the worked example of the specification:
    [minColumns = 1], [maxColumns = 7], natural size policy. *)
Definition example_columns_view : GtkGridView :=
  {| item_manager := Leaf;
     scroll_policy := fun _ => GTK_SCROLL_NATURAL;
     orientation := GTK_ORIENTATION_VERTICAL;
     min_columns := 1;
     max_columns := 7;
     n_columns := 0;
     column_width := 0;
     unknown_row_height := 0 |}.

(** A configuration the property setters accept: [min-columns] set to 5,
    then [max-columns] set to 3. *)
Definition crossed_columns_view : GtkGridView :=
  {| item_manager := Leaf;
     scroll_policy := fun _ => GTK_SCROLL_NATURAL;
     orientation := GTK_ORIENTATION_VERTICAL;
     min_columns := 5;
     max_columns := 3;
     n_columns := 0;
     column_width := 0;
     unknown_row_height := 0 |}.

(* ================================================================== *)
(** ** A grid without realized rows *)

(** A grid of five items none of which is realized, laid out before with
    an unknown row height of 17. *)
Definition unrealized_cell : Cell := {| n_items := 5; widget := None; size := 34 |}.

Definition unrealized_view : GtkGridView :=
  {| item_manager :=
       Node Leaf unrealized_cell (cell_augment unrealized_cell None None) false Leaf;
     scroll_policy := fun _ => GTK_SCROLL_NATURAL;
     orientation := GTK_ORIENTATION_VERTICAL;
     min_columns := 1;
     max_columns := 7;
     n_columns := 3;
     column_width := 20;
     unknown_row_height := 17 |}.

(* ================================================================== *)
(** ** A tree of three runs *)

(** Three runs with valid summaries, and three mutations of them. *)
Definition summary_example_tree : GtkRbTree :=
  let a := {| n_items := 1; widget := None; size := 10 |} in
  let b := {| n_items := 3; widget := None; size := 12 |} in
  let c := {| n_items := 1; widget := None; size := 0 |} in
  let l := Node Leaf a (cell_augment a None None) false Leaf in
  let r := Node Leaf c (cell_augment c None None) false Leaf in
  Node l b (cell_augment b (gtk_rb_tree_get_augment l) (gtk_rb_tree_get_augment r))
       false r.

Definition summary_example_mutations : list (Handle * Z) :=
  [([L], 7); ([], 40); ([R], 5)].

Definition summary_example_result : GtkRbTree :=
  fold_left set_run_size summary_example_mutations summary_example_tree.

(* ================================================================== *)
(** ** A laid-out grid whose unrealized run begins in the middle of a row *)

(** A realized item: a widget measuring [height] along a vertical grid
    and 20 across it. *)
Definition realized (height : Z) : Cell :=
  {| n_items := 1;
     widget := Some {| gtk_widget_measure := fun o _ =>
                         match o with
                         | GTK_ORIENTATION_VERTICAL => (height, height)
                         | GTK_ORIENTATION_HORIZONTAL => (20, 20)
                         end |};
     size := 0 |}.

Definition unrealized (n : Z) : Cell :=
  {| n_items := n; widget := None; size := 0 |}.

Definition new_node (l : GtkRbTree) (c : Cell) (r : GtkRbTree) : GtkRbTree :=
  Node l c (cell_augment c (gtk_rb_tree_get_augment l) (gtk_rb_tree_get_augment r))
       false r.

(** Ten items, the first four realized (the anchor, item 0, and the three
    items after it), at most three columns, not yet laid out. *)
Definition staggered_start : GtkGridView :=
  {| item_manager :=
       new_node (new_node (new_node Leaf (realized 10) Leaf) (realized 10) Leaf)
                (realized 10)
                (new_node Leaf (realized 10) (new_node Leaf (unrealized 6) Leaf));
     scroll_policy := fun _ => GTK_SCROLL_NATURAL;
     orientation := GTK_ORIENTATION_VERTICAL;
     min_columns := 1;
     max_columns := 3;
     n_columns := 0;
     column_width := 0;
     unknown_row_height := 0 |}.

(** The same grid after a layout pass for a width of 60. *)
Definition staggered_view : GtkGridView :=
  match gtk_grid_view_size_allocate staggered_start 60 with
  | Some v => v
  | None => staggered_start
  end.

(* ================================================================== *)
(** ** A laid-out grid whose median row height is zero *)

(** Three realized items of heights 0, 0 and 5 in a single column, not yet
    laid out. *)
Definition zero_median_start : GtkGridView :=
  {| item_manager :=
       new_node (new_node Leaf (realized 0) Leaf) (realized 0)
                (new_node Leaf (realized 5) Leaf);
     scroll_policy := fun _ => GTK_SCROLL_NATURAL;
     orientation := GTK_ORIENTATION_VERTICAL;
     min_columns := 1;
     max_columns := 1;
     n_columns := 0;
     column_width := 0;
     unknown_row_height := 0 |}.

(** The same grid after a layout pass for a width of 60. *)
Definition zero_median_view : GtkGridView :=
  match gtk_grid_view_size_allocate zero_median_start 60 with
  | Some v => v
  | None => zero_median_start
  end.

(* ================================================================== *)
(** ** A grid of equal items *)

(** Five realized items of height 10, at most three columns. *)
Definition uniform_view : GtkGridView :=
  {| item_manager :=
       new_node (new_node (new_node Leaf (realized 10) Leaf) (realized 10) Leaf)
                (realized 10)
                (new_node Leaf (realized 10) (new_node Leaf (realized 10) Leaf));
     scroll_policy := fun _ => GTK_SCROLL_NATURAL;
     orientation := GTK_ORIENTATION_VERTICAL;
     min_columns := 1;
     max_columns := 3;
     n_columns := 0;
     column_width := 0;
     unknown_row_height := 0 |}.

(* ================================================================== *)
(** ** The controller on exact rationals *)

(** An instance of the arithmetic on exact rationals: conversion to an
    integer truncates, [round] rounds halves away from zero. *)
Definition Q_truncate (q : Q) : Z := Z.quot (Qnum q) (Z.pos (Qden q)).

Definition Q_round (q : Q) : Q :=
  inject_Z (if Qle_bool 0 q then Qfloor (q + (1 # 2)) else Qceiling (q - (1 # 2))).

Definition Q_double : Double :=
  {| double := Q;
     d_of_Z := inject_Z;
     d_to_int := Q_truncate;
     d_to_guint := Q_truncate;
     d_add := Qplus;
     d_sub := Qminus;
     d_mul := Qmult;
     d_div := Qdiv;
     d_round := Q_round;
     d_ceil := fun q => inject_Z (Qceiling q);
     d_floor := fun q => inject_Z (Qfloor q);
     d_eqb := Qeq_bool;
     d_tenth := 1 # 10;
     d_nine_tenths := 9 # 10 |}.

(** An adjustment with the view's handler connected and not blocked. *)
Definition store (value upper page_size : Q) : @GtkAdjustment Q_double :=
  @Build_GtkAdjustment Q_double
    value 0%Q upper (page_size * (1 # 10))%Q (page_size * (9 # 10))%Q page_size
    true 0%nat.

(** The grid [staggered_view], 40 pixels of content in a viewport 60 wide
    and 20 high, scrolled down to the end, with item 2 as the anchor. *)
Definition scrolled_to_end : @GridViewState Q_double :=
  @Build_GridViewState Q_double
    staggered_view
    (fun o =>
       match o with
       | GTK_ORIENTATION_VERTICAL => store (20 # 1) (40 # 1) (20 # 1)
       | GTK_ORIENTATION_HORIZONTAL => store (0 # 1) (60 # 1) (60 # 1)
       end)
    GTK_TEXT_DIR_LTR
    (fun o =>
       match o with
       | GTK_ORIENTATION_VERTICAL => 20
       | GTK_ORIENTATION_HORIZONTAL => 60
       end)
    10 2 3 93 0%Q 0%Q true true false [].

(** The anchor derived there: the last row, item 9, kept in the column of
    the old anchor gives position 11 of 10 items. *)
Definition scrolled_to_end_anchor : @DerivedAnchor Q_double :=
  @Build_DerivedAnchor Q_double 11 0%Q true 1%Q false.

(** The same arithmetic with a conversion to [guint] that wraps around. *)
Definition Q_guint_double : Double :=
  {| double := Q;
     d_of_Z := inject_Z;
     d_to_int := Q_truncate;
     d_to_guint := fun q => to_guint (Q_truncate q);
     d_add := Qplus;
     d_sub := Qminus;
     d_mul := Qmult;
     d_div := Qdiv;
     d_round := Q_round;
     d_ceil := fun q => inject_Z (Qceiling q);
     d_floor := fun q => inject_Z (Qfloor q);
     d_eqb := Qeq_bool;
     d_tenth := 1 # 10;
     d_nine_tenths := 9 # 10 |}.

(** The grid [staggered_view], three columns of width 20, in a viewport 30
    wide and 20 high, scrolled 25 pixels to the right, with item 4 as the
    anchor. *)
Definition scrolled_across : @GridViewState Q_guint_double :=
  @Build_GridViewState Q_guint_double
    staggered_view
    (fun o =>
       match o with
       | GTK_ORIENTATION_VERTICAL =>
           @Build_GtkAdjustment Q_guint_double
             (0 # 1) (0 # 1) (40 # 1) (2 # 1) (18 # 1) (20 # 1) true 0%nat
       | GTK_ORIENTATION_HORIZONTAL =>
           @Build_GtkAdjustment Q_guint_double
             (25 # 1) (0 # 1) (60 # 1) (3 # 1) (27 # 1) (30 # 1) true 0%nat
       end)
    GTK_TEXT_DIR_LTR
    (fun o =>
       match o with
       | GTK_ORIENTATION_VERTICAL => 20
       | GTK_ORIENTATION_HORIZONTAL => 30
       end)
    10 4 3 93 0%Q 0%Q true true false [].

(** The grid [scrolled_to_end] without an anchor. *)
Definition without_anchor : @GridViewState Q_double :=
  @with_anchor Q_double scrolled_to_end GTK_INVALID_LIST_POSITION 0 0.

(** The widget of [scrolled_to_end], and three calls of the column
    setters: one rejected, two that cross the bounds. *)
Definition columns_example : @GridViewObject Q_double :=
  @Build_GridViewObject Q_double scrolled_to_end false [].

Definition columns_example_calls : list ColumnsCall :=
  [SetMaxColumns 0; SetMinColumns 5; SetMaxColumns 2].

(* ================================================================== *)
(** ** Grids to place children in *)

(** The grid [uniform_view] after a layout pass for a width of 60. *)
Definition uniform_laid_out : GtkGridView :=
  match gtk_grid_view_size_allocate uniform_view 60 with
  | Some v => v
  | None => uniform_view
  end.

(** The same grid laid out, turned to scroll horizontally. *)
Definition uniform_sideways : GtkGridView :=
  {| item_manager := item_manager uniform_laid_out;
     scroll_policy := scroll_policy uniform_laid_out;
     orientation := GTK_ORIENTATION_HORIZONTAL;
     min_columns := min_columns uniform_laid_out;
     max_columns := max_columns uniform_laid_out;
     n_columns := n_columns uniform_laid_out;
     column_width := column_width uniform_laid_out;
     unknown_row_height := unknown_row_height uniform_laid_out |}.

(** One unrealized item followed by two realized items of height 10, laid
    out in three columns for a width of 60. *)
Definition leading_run_view : GtkGridView :=
  let start :=
    {| item_manager :=
         new_node (new_node Leaf (unrealized 1) Leaf) (realized 10)
                  (new_node Leaf (realized 10) Leaf);
       scroll_policy := fun _ => GTK_SCROLL_NATURAL;
       orientation := GTK_ORIENTATION_VERTICAL;
       min_columns := 1;
       max_columns := 3;
       n_columns := 0;
       column_width := 0;
       unknown_row_height := 0 |} in
  match gtk_grid_view_size_allocate start 60 with
  | Some v => v
  | None => start
  end.

(** Its first cell after the pass, and the widget of the two others. *)
Definition leading_run : Cell := {| n_items := 1; widget := None; size := 10 |}.

Definition leading_run_child : GtkWidget :=
  {| gtk_widget_measure := fun o _ =>
       match o with
       | GTK_ORIENTATION_VERTICAL => (10, 10)
       | GTK_ORIENTATION_HORIZONTAL => (20, 20)
       end |}.

(* ================================================================== *)
(** ** A grid of items of different heights *)

(** Five realized items of heights 10, 30, 20, 5 and 7, at most three
    columns. *)
Definition ragged_view : GtkGridView :=
  {| item_manager :=
       new_node (new_node (new_node Leaf (realized 10) Leaf) (realized 30) Leaf)
                (realized 20)
                (new_node Leaf (realized 5) (new_node Leaf (realized 7) Leaf));
     scroll_policy := fun _ => GTK_SCROLL_NATURAL;
     orientation := GTK_ORIENTATION_VERTICAL;
     min_columns := 1;
     max_columns := 3;
     n_columns := 0;
     column_width := 0;
     unknown_row_height := 0 |}.

(* ================================================================== *)
(** * Properties *)

(* ================================================================== *)
(** ** Machine integers *)

Lemma guint_modulus_eq : guint_modulus = 4294967296.
Proof. reflexivity. Qed.

Lemma gint_half_eq : gint_half = 2147483648.
Proof. reflexivity. Qed.

Lemma to_guint_small (x : Z) : is_guint x -> to_guint x = x.
Proof. intros H. apply Z.mod_small. exact H. Qed.

Lemma to_gint_small (x : Z) : is_gint x -> to_gint x = x.
Proof.
  unfold is_gint, to_gint. rewrite guint_modulus_eq, gint_half_eq. intros H.
  rewrite Z.mod_small; lia.
Qed.

Lemma to_guint_is_guint (x : Z) : is_guint (to_guint x).
Proof.
  unfold is_guint, to_guint. rewrite guint_modulus_eq.
  apply Z.mod_pos_bound. lia.
Qed.

Lemma to_gint_is_gint (x : Z) : is_gint (to_gint x).
Proof.
  unfold is_gint, to_gint. rewrite guint_modulus_eq, gint_half_eq.
  pose proof (Z.mod_pos_bound (x + 2147483648) 4294967296). lia.
Qed.

Lemma MAX_spec (a b : Z) : MAX a b = Z.max a b.
Proof. unfold MAX. destruct (Z.gtb_spec a b); lia. Qed.

Lemma MIN_spec (a b : Z) : MIN a b = Z.min a b.
Proof. unfold MIN. destruct (Z.ltb_spec a b); lia. Qed.

Lemma CLAMP_ordered (x low high : Z) :
  low <= high -> CLAMP x low high = Z.max low (Z.min x high).
Proof.
  intros H. unfold CLAMP.
  destruct (Z.gtb_spec x high); [lia|].
  destruct (Z.ltb_spec x low); lia.
Qed.

(** Whatever the bounds, [CLAMP] returns one of its three arguments, and
    never more than [high] unless [low] is. *)
Lemma CLAMP_cases (x low high : Z) :
  CLAMP x low high = high \/ CLAMP x low high = low \/
  (CLAMP x low high = x /\ low <= x <= high).
Proof.
  unfold CLAMP.
  destruct (Z.gtb_spec x high); [now left|].
  destruct (Z.ltb_spec x low); [right; now left|].
  right; right. lia.
Qed.

(* ================================================================== *)
(** ** Column solver *)

(** The divisor of the column solver is never zero: the function is total. *)
Lemma gtk_grid_view_compute_n_columns_total
    (self : GtkGridView) (for_size min nat : Z) :
  is_gint min -> is_gint nat ->
  exists n, gtk_grid_view_compute_n_columns self for_size min nat = Some n.
Proof.
  unfold is_gint. rewrite gint_half_eq. intros Hmin Hnat.
  unfold gtk_grid_view_compute_n_columns, udiv.
  rewrite !MAX_spec.
  rewrite (to_guint_small (Z.max 1 min)), (to_guint_small (Z.max 1 nat))
    by (unfold is_guint; rewrite guint_modulus_eq; lia).
  destruct (is_minimum _).
  - destruct (Z.eqb_spec (Z.max 1 min) 0); [lia|]. simpl. eauto.
  - destruct (Z.eqb_spec (Z.max 1 nat) 0); [lia|]. simpl. eauto.
Qed.

(** With ordered bounds the result lies between them. *)
Lemma gtk_grid_view_compute_n_columns_bounds
    (self : GtkGridView) (for_size min nat n : Z) :
  min_columns self <= max_columns self ->
  gtk_grid_view_compute_n_columns self for_size min nat = Some n ->
  min_columns self <= n <= max_columns self.
Proof.
  intros Hord. unfold gtk_grid_view_compute_n_columns.
  destruct (if is_minimum _ then _ else _) as [q|]; simpl; [|discriminate].
  intros [= <-]. rewrite CLAMP_ordered by assumption. lia.
Qed.

Lemma CLAMP_clamp (x low high : Z) : CLAMP x low high = clamp x low high.
Proof.
  unfold CLAMP, clamp.
  destruct (Z.gtb_spec x high), (Z.ltb_spec high x); lia || reflexivity.
Qed.

Lemma clamp_ordered (x low high : Z) :
  low <= high -> clamp x low high = Z.max low (Z.min x high).
Proof. intros H. rewrite <- CLAMP_clamp. now apply CLAMP_ordered. Qed.

Lemma compute_n_columns_contract
    (self : GtkGridView) (for_size min nat : Z) :
  is_gint min -> is_gint nat ->
  gtk_grid_view_compute_n_columns self for_size min nat
  = Some (compute_columns for_size min nat
            (scroll_policy self (OPPOSITE_ORIENTATION (orientation self)))
            (min_columns self) (max_columns self)).
Proof.
  unfold is_gint. rewrite gint_half_eq. intros Hmin Hnat.
  unfold gtk_grid_view_compute_n_columns, compute_columns, udiv.
  rewrite !MAX_spec.
  rewrite (to_guint_small (Z.max 1 min)), (to_guint_small (Z.max 1 nat))
    by (unfold is_guint; rewrite guint_modulus_eq; lia).
  destruct (scroll_policy self _); simpl.
  - destruct (Z.eqb_spec (Z.max 1 min) 0); [lia|]. simpl.
    now rewrite CLAMP_clamp.
  - destruct (Z.eqb_spec (Z.max 1 nat) 0); [lia|]. simpl.
    now rewrite CLAMP_clamp.
Qed.

(** C3.  For every available size and every measured minimum and natural
    size, with both column bounds at least 1 as the properties require,
    the column solver returns
    [n_columns = clamp (available / max (1, measured), min_columns, max_columns)]
    with [measured] the minimum under the MINIMUM policy and the natural
    size otherwise, which between ordered bounds is
    [max (min_columns, min (available / max (1, measured), max_columns))],
    and [column_width = max (available / n_columns, measured_min)]. *)
Theorem column_solver_contract
    (self : GtkGridView) (available_size measured_min measured_nat : Z) :
  0 <= available_size < gint_half ->
  is_gint measured_min -> is_gint measured_nat ->
  1 <= min_columns self -> 1 <= max_columns self ->
  let policy := scroll_policy self (OPPOSITE_ORIENTATION (orientation self)) in
  let measured := match policy with
                  | GTK_SCROLL_MINIMUM => measured_min
                  | GTK_SCROLL_NATURAL => measured_nat
                  end in
  let n := compute_columns available_size measured_min measured_nat policy
             (min_columns self) (max_columns self) in
  gtk_grid_view_size_allocate_columns self available_size measured_min measured_nat
  = Some (n, compute_column_width available_size n measured_min) /\
  (min_columns self <= max_columns self ->
   n = Z.max (min_columns self)
             (Z.min (available_size / Z.max 1 measured) (max_columns self))).
Proof.
  intros Hav Hmin Hnat Hlo Hhi policy measured n.
  split.
  - unfold gtk_grid_view_size_allocate_columns.
    rewrite to_guint_small
      by (unfold is_guint; rewrite guint_modulus_eq; rewrite gint_half_eq in Hav; lia).
    rewrite compute_n_columns_contract by assumption.
    fold policy. fold n. simpl.
    assert (Hn : 1 <= n).
    { unfold n, compute_columns, clamp.
      match goal with
      | |- 1 <= (if _ <? ?q then _ else _) =>
          destruct (Z.ltb_spec (max_columns self) q); [lia|];
          destruct (Z.ltb_spec q (min_columns self)); lia
      end. }
    unfold udiv. destruct (Z.eqb_spec n 0); [lia|]. simpl.
    unfold compute_column_width. now rewrite MAX_spec.
  - intros Hord. unfold n, compute_columns. rewrite clamp_ordered by assumption.
    unfold measured. destruct policy; reflexivity.
Qed.

(** The worked example: available = 100, min = 20, nat = 34 gives two
    columns of width 50. *)
Lemma column_solver_contract_witness :
  (0 <= 100 < gint_half) /\ is_gint 20 /\ is_gint 34 /\
  1 <= min_columns example_columns_view /\ 1 <= max_columns example_columns_view /\
  gtk_grid_view_size_allocate_columns example_columns_view 100 20 34 = Some (2, 50) /\
  (min_columns example_columns_view <= max_columns example_columns_view ->
   2 = Z.max (min_columns example_columns_view)
             (Z.min (100 / Z.max 1 34) (max_columns example_columns_view))).
Proof.
  assert (H1 : 0 <= 100 < gint_half) by (rewrite gint_half_eq; lia).
  assert (H2 : is_gint 20) by (unfold is_gint; rewrite gint_half_eq; lia).
  assert (H3 : is_gint 34) by (unfold is_gint; rewrite gint_half_eq; lia).
  assert (H4 : 1 <= min_columns example_columns_view) by (simpl; lia).
  assert (H5 : 1 <= max_columns example_columns_view) by (simpl; lia).
  split; [exact H1|]. split; [exact H2|]. split; [exact H3|]. split; [exact H4|].
  split; [exact H5|].
  exact (column_solver_contract example_columns_view 100 20 34 H1 H2 H3 H4 H5).
Defined.

(** With [min_columns = 5] and [max_columns = 3], a configuration the
    property setters accept, no result can lie between the bounds: for an
    available size of 100 and a measured size of 10 the solver returns 3,
    below [min_columns]; for an available size of 20 it returns 5, above
    [max_columns]. *)
Lemma compute_n_columns_crossed_bounds :
  gtk_grid_view_compute_n_columns crossed_columns_view 100 10 10 = Some 3 /\
  gtk_grid_view_compute_n_columns crossed_columns_view 20 10 10 = Some 5 /\
  ~ n_columns_within_bounds crossed_columns_view 100 10 10 /\
  ~ n_columns_within_bounds crossed_columns_view 20 10 10.
Proof.
  split; [reflexivity|]. split; [reflexivity|].
  split; intros (n & E & Hn); vm_compute in E; injection E as <-;
    simpl in Hn; lia.
Qed.

(** C10, as the code has it.  The column solver is total: for every
    [for_size] and all measured sizes the divisor is [MAX (1, measured)],
    never zero; and whenever [min_columns <= max_columns] the result lies
    between the two. *)
Theorem compute_n_columns_total_and_bounded
    (self : GtkGridView) (for_size min nat : Z) :
  is_gint min -> is_gint nat ->
  exists n : Z,
    gtk_grid_view_compute_n_columns self for_size min nat = Some n /\
    (min_columns self <= max_columns self ->
     min_columns self <= n <= max_columns self).
Proof.
  intros Hmin Hnat.
  destruct (gtk_grid_view_compute_n_columns_total self for_size min nat Hmin Hnat)
    as [n E].
  exists n. split; [exact E|].
  intros Hord. now apply (gtk_grid_view_compute_n_columns_bounds self for_size min nat).
Qed.

Lemma compute_n_columns_total_and_bounded_witness :
  is_gint 0 /\ is_gint 0 /\
  exists n : Z,
    gtk_grid_view_compute_n_columns example_columns_view 0 0 0 = Some n /\
    (min_columns example_columns_view <= max_columns example_columns_view ->
     min_columns example_columns_view <= n <= max_columns example_columns_view).
Proof.
  assert (H0 : is_gint 0) by (unfold is_gint; rewrite gint_half_eq; lia).
  split; [exact H0|]. split; [exact H0|].
  exact (compute_n_columns_total_and_bounded example_columns_view 0 0 0 H0 H0).
Defined.

(* ================================================================== *)
(** ** Row-height estimator *)

Lemma compare_ints_le (x y : Z) :
  measured x -> measured y -> (compare_ints x y <=? 0) = (x <=? y).
Proof.
  unfold measured. rewrite gint_half_eq. intros Hx Hy.
  unfold compare_ints. rewrite to_gint_small
    by (unfold is_gint; rewrite gint_half_eq; lia).
  destruct (Z.leb_spec (x - y) 0), (Z.leb_spec x y); lia || reflexivity.
Qed.

Lemma g_array_insert_perm (compare : Z -> Z -> Z) (x : Z) (l : list Z) :
  Permutation (x :: l) (g_array_insert compare x l).
Proof.
  induction l as [|y l IH]; simpl.
  - apply Permutation_refl.
  - destruct (compare x y <=? 0).
    + apply Permutation_refl.
    + eapply perm_trans; [apply perm_swap|]. now apply perm_skip.
Qed.

Lemma g_array_sort_perm (compare : Z -> Z -> Z) (l : list Z) :
  Permutation l (g_array_sort compare l).
Proof.
  induction l as [|x l IH]; simpl.
  - apply perm_nil.
  - eapply perm_trans; [apply perm_skip, IH|]. apply g_array_insert_perm.
Qed.

Lemma g_array_insert_sorted (x : Z) (l : list Z) :
  measured x -> Forall measured l -> Sorted Z.le l ->
  Sorted Z.le (g_array_insert compare_ints x l).
Proof.
  intros Hx Hl Hs. induction l as [|y l IH]; simpl.
  - repeat constructor.
  - inversion Hl as [|? ? Hy Hl']; subst.
    inversion Hs as [|? ? Hs' Hhd]; subst.
    rewrite compare_ints_le by assumption.
    destruct (Z.leb_spec x y).
    + constructor; [assumption|]. now constructor.
    + constructor; [now apply IH|].
      destruct l as [|z l]; simpl.
      * constructor. lia.
      * inversion Hl' as [|? ? Hz _]; subst.
        rewrite compare_ints_le by assumption.
        destruct (Z.leb_spec x z); constructor; [lia|].
        now inversion Hhd.
Qed.

Lemma g_array_sort_sorted (l : list Z) :
  Forall measured l -> Sorted Z.le (g_array_sort compare_ints l).
Proof.
  induction l as [|x l IH]; simpl; intros Hl.
  - constructor.
  - inversion Hl as [|? ? Hx Hl']; subst.
    apply g_array_insert_sorted; [assumption| |now apply IH].
    apply (Permutation_Forall (g_array_sort_perm compare_ints l)). assumption.
Qed.

(** C4.  For every non-empty collection of measured row heights the
    estimator returns the element at index [len / 2] of the heights
    arranged in ascending order; it returns 4 for [4,4,4,10] and 5 for
    [5]. *)
Theorem unknown_row_size_is_median :
  (forall heights : list Z,
      heights <> [] -> Forall measured heights ->
      exists sorted : list Z,
        Permutation heights sorted /\ Sorted Z.le sorted /\
        gtk_grid_view_get_unknown_row_size heights
        = nth (Nat.div (length heights) 2) sorted 0) /\
  gtk_grid_view_get_unknown_row_size [4; 4; 4; 10] = 4 /\
  gtk_grid_view_get_unknown_row_size [5] = 5.
Proof.
  split; [|split; reflexivity].
  intros heights Hne Hm.
  exists (g_array_sort compare_ints heights).
  split; [apply g_array_sort_perm|].
  split; [now apply g_array_sort_sorted|].
  destruct heights; [contradiction|reflexivity].
Qed.

Lemma unknown_row_size_is_median_witness :
  [4; 4; 4; 10] <> [] /\ Forall measured [4; 4; 4; 10] /\
  exists sorted : list Z,
    Permutation [4; 4; 4; 10] sorted /\ Sorted Z.le sorted /\
    gtk_grid_view_get_unknown_row_size [4; 4; 4; 10]
    = nth (Nat.div (length [4; 4; 4; 10]) 2) sorted 0.
Proof.
  assert (Hne : [4; 4; 4; 10] <> @nil Z) by discriminate.
  assert (Hm : Forall measured [4; 4; 4; 10])
    by (repeat (apply Forall_cons; [unfold measured; rewrite gint_half_eq; lia|]);
        apply Forall_nil).
  split; [exact Hne|]. split; [exact Hm|].
  exact (proj1 unknown_row_size_is_median [4; 4; 4; 10] Hne Hm).
Defined.

(* ================================================================== *)
(** ** Layout pass without realized rows *)

(** C5.  Laying out a non-empty grid in which no row is realized stores
    0 as the unknown row height: the height of 17 found by the previous
    pass is lost, and every run is sized 0. *)
Theorem size_allocate_without_realized_rows :
  gtk_grid_view_measure_column_size unrealized_view = (0, 0) /\
  exists self' : GtkGridView,
    gtk_grid_view_size_allocate unrealized_view 60 = Some self' /\
    unknown_row_height unrealized_view = 17 /\
    unknown_row_height self' = 0 /\
    map size (cells (item_manager self')) = [0].
Proof.
  split; [reflexivity|].
  eexists. split; [reflexivity|]. repeat split.
Qed.

(* ================================================================== *)
(** ** Augmented summaries *)

Lemma to_guint_add_l (a b : Z) : to_guint (to_guint a + b) = to_guint (a + b).
Proof. unfold to_guint. apply Z.add_mod_idemp_l. rewrite guint_modulus_eq. lia. Qed.

Lemma to_guint_add_r (a b : Z) : to_guint (a + to_guint b) = to_guint (a + b).
Proof. unfold to_guint. apply Z.add_mod_idemp_r. rewrite guint_modulus_eq. lia. Qed.

Lemma total_size_node l c a d r :
  total_size (Node l c a d r) = total_size l + size c + total_size r.
Proof.
  unfold total_size. simpl. rewrite map_app, fold_right_app. simpl.
  generalize (fold_right Z.add 0 (map size (cells r))). intros z.
  induction (map size (cells l)) as [|x xs IH]; simpl; lia.
Qed.

Lemma total_items_node l c a d r :
  total_items (Node l c a d r) = total_items l + n_items c + total_items r.
Proof.
  unfold total_items. simpl. rewrite map_app, fold_right_app. simpl.
  generalize (fold_right Z.add 0 (map n_items (cells r))). intros z.
  induction (map n_items (cells l)) as [|x xs IH]; simpl; lia.
Qed.

Lemma cells_ok_node l c a d r :
  cells_ok (Node l c a d r) <-> cells_ok l /\ cell_ok c /\ cells_ok r.
Proof.
  unfold cells_ok. simpl. rewrite Forall_app. split.
  - intros [Hl Hr]. inversion Hr; subst. auto.
  - intros (Hl & Hc & Hr). split; [assumption|]. now constructor.
Qed.

(** Reading the summary of a node of a valid tree always yields what the
    augment function computes from the node and its children. *)
Lemma get_augment_node l c a d r :
  cache_valid (Node l c a d r) ->
  gtk_rb_tree_get_augment (Node l c a d r)
  = Some (cell_augment c (gtk_rb_tree_get_augment l) (gtk_rb_tree_get_augment r)).
Proof.
  simpl. intros (_ & _ & Hd). destruct d; [reflexivity|].
  now rewrite Hd.
Qed.

Lemma get_augment_none (t : GtkRbTree) :
  gtk_rb_tree_get_augment t = None -> t = Leaf.
Proof. destruct t as [|l c a [|] r]; simpl; congruence. Qed.

Lemma cell_augment_size (c : Cell) (l r : GtkRbTree) :
  is_guint (size c) ->
  aug_size (cell_augment c (gtk_rb_tree_get_augment l) (gtk_rb_tree_get_augment r))
  = to_guint (size c + summary_size l + summary_size r).
Proof.
  intros Hc. unfold cell_augment, summary_size. simpl.
  destruct (gtk_rb_tree_get_augment l) as [la|],
           (gtk_rb_tree_get_augment r) as [ra|].
  - rewrite to_guint_add_l. reflexivity.
  - f_equal. lia.
  - f_equal. lia.
  - rewrite Z.add_0_r, Z.add_0_r. symmetry. now apply to_guint_small.
Qed.

Lemma cell_augment_items (c : Cell) (l r : GtkRbTree) :
  is_guint (n_items c) ->
  aug_n_items (cell_augment c (gtk_rb_tree_get_augment l) (gtk_rb_tree_get_augment r))
  = to_guint (n_items c + summary_items l + summary_items r).
Proof.
  intros Hc. unfold cell_augment, gtk_list_item_manager_augment_node, summary_items.
  simpl.
  destruct (gtk_rb_tree_get_augment l) as [la|],
           (gtk_rb_tree_get_augment r) as [ra|].
  - rewrite to_guint_add_l. reflexivity.
  - f_equal. lia.
  - f_equal. lia.
  - rewrite Z.add_0_r, Z.add_0_r. symmetry. now apply to_guint_small.
Qed.

Lemma cache_valid_summaries_combine (t : GtkRbTree) :
  cache_valid t -> cells_ok t -> summaries_combine t.
Proof.
  induction t as [|l IHl c a d r IHr]; [constructor|].
  intros Hv Hok. apply cells_ok_node in Hok. destruct Hok as (Hl & Hc & Hr).
  pose proof (get_augment_node _ _ _ _ _ Hv) as Hget.
  destruct Hv as (Hvl & Hvr & _).
  cbn [summaries_combine]. split; [auto|]. split; [auto|].
  unfold summary_size at 1, summary_items at 1. rewrite Hget.
  destruct Hc as [Hn Hs].
  split; [now apply cell_augment_size | now apply cell_augment_items].
Qed.

Lemma summaries_combine_total (t : GtkRbTree) :
  summaries_combine t ->
  summary_size t = to_guint (total_size t) /\
  summary_items t = to_guint (total_items t).
Proof.
  induction t as [|l IHl c a d r IHr]; [intros _; split; reflexivity|].
  intros (Hl & Hr & Hs & Hn).
  destruct (IHl Hl) as [IHls IHln]. destruct (IHr Hr) as [IHrs IHrn].
  rewrite Hs, Hn, IHls, IHln, IHrs, IHrn, total_size_node, total_items_node.
  split.
  - rewrite to_guint_add_r, (Z.add_comm (size c)), <- Z.add_assoc, to_guint_add_l.
    f_equal. lia.
  - rewrite to_guint_add_r, (Z.add_comm (n_items c)), <- Z.add_assoc, to_guint_add_l.
    f_equal. lia.
Qed.

Lemma cache_valid_update (upd : Cell -> Cell) (t : GtkRbTree) (h : Handle) :
  cache_valid t -> cache_valid (gtk_rb_tree_update upd t h).
Proof.
  revert h. induction t as [|l IHl c a d r IHr]; intros h Hv; [exact I|].
  destruct Hv as (Hl & Hr & _).
  destruct h as [|[|] h]; simpl; repeat split; auto; discriminate.
Qed.

Lemma cells_ok_update (upd : Cell -> Cell) (t : GtkRbTree) (h : Handle) :
  (forall c, cell_ok c -> cell_ok (upd c)) ->
  cells_ok t -> cells_ok (gtk_rb_tree_update upd t h).
Proof.
  intros Hupd. revert h. induction t as [|l IHl c a d r IHr]; intros h Hok; [exact Hok|].
  apply cells_ok_node in Hok. destruct Hok as (Hl & Hc & Hr).
  destruct h as [|[|] h]; simpl; apply cells_ok_node; auto.
Qed.

Lemma cache_valid_set_size (t : GtkRbTree) (h : Handle) (s : Z) :
  cache_valid t -> cache_valid (cell_set_size t h s).
Proof.
  intros Hv. unfold cell_set_size.
  destruct (gtk_rb_tree_node t h); [|assumption].
  destruct (size c =? s); [assumption|]. now apply cache_valid_update.
Qed.

Lemma cells_ok_set_size (t : GtkRbTree) (h : Handle) (s : Z) :
  is_guint s -> cells_ok t -> cells_ok (cell_set_size t h s).
Proof.
  intros Hs Hok. unfold cell_set_size.
  destruct (gtk_rb_tree_node t h); [|assumption].
  destruct (size c =? s); [assumption|]. apply cells_ok_update; [|assumption].
  intros c' [Hn _]. split; assumption.
Qed.

Lemma cache_valid_reaugment (t : GtkRbTree) :
  cache_valid t -> cache_valid (gtk_rb_tree_reaugment t).
Proof.
  induction t as [|l IHl c a d r IHr]; [trivial|].
  intros Hv. simpl. destruct d; [|exact Hv].
  destruct Hv as (Hl & Hr & _). simpl. auto.
Qed.

Lemma cells_reaugment (t : GtkRbTree) : cells (gtk_rb_tree_reaugment t) = cells t.
Proof.
  induction t as [|l IHl c a d r IHr]; [reflexivity|].
  simpl. destruct d; [|reflexivity]. simpl. now rewrite IHl, IHr.
Qed.

(** Recomputing the dirty summaries leaves no dirty flag at the root and
    does not change what a read returns. *)
Lemma get_augment_reaugment (t : GtkRbTree) :
  gtk_rb_tree_get_augment (gtk_rb_tree_reaugment t) = gtk_rb_tree_get_augment t.
Proof.
  induction t as [|l IHl c a d r IHr]; [reflexivity|].
  simpl. destruct d; [|reflexivity]. simpl. now rewrite IHl, IHr.
Qed.

Lemma set_run_size_invariant (t : GtkRbTree) (m : Handle * Z) :
  is_guint (snd m) -> cache_valid t /\ cells_ok t ->
  cache_valid (set_run_size t m) /\ cells_ok (set_run_size t m).
Proof.
  intros Hm [Hv Hok]. unfold set_run_size. split.
  - now apply cache_valid_reaugment, cache_valid_set_size.
  - unfold cells_ok. rewrite cells_reaugment. now apply cells_ok_set_size.
Qed.

Lemma total_size_nonneg (t : GtkRbTree) : cells_ok t -> 0 <= total_size t.
Proof.
  unfold cells_ok, total_size. induction (cells t) as [|c cs IH]; simpl; [lia|].
  intros Hok. inversion Hok as [|? ? [_ Hc] Hcs]; subst.
  unfold is_guint in Hc. specialize (IH Hcs). lia.
Qed.

(** C1.  From a tree whose cached summaries are valid, after every sequence
    of run-size mutations (each a [cell_set_size] followed by the
    recomputation of the dirty summaries): at every node the summary is the
    node's own size combined with the summaries of both children, and the
    root summary's size is the sum of all runs' sizes, a sum of [guint]s
    like every summary, so the sum itself whenever that fits a [guint]. *)
Theorem root_summary_is_total_size (t : GtkRbTree) (mutations : list (Handle * Z)) :
  cache_valid t -> cells_ok t ->
  Forall (fun m => is_guint (snd m)) mutations ->
  let t' := fold_left set_run_size mutations t in
  summaries_combine t' /\
  summary_size t' = to_guint (total_size t') /\
  (total_size t' < guint_modulus -> summary_size t' = total_size t').
Proof.
  intros Hv Hok Hm t'.
  assert (Hinv : cache_valid t' /\ cells_ok t').
  { subst t'. revert t Hv Hok. induction Hm as [|m ms Hm1 _ IH]; intros t Hv Hok.
    - simpl. auto.
    - simpl. destruct (set_run_size_invariant t m Hm1 (conj Hv Hok)) as [Hv' Hok'].
      now apply IH. }
  destruct Hinv as [Hv' Hok'].
  pose proof (cache_valid_summaries_combine t' Hv' Hok') as Hc.
  destruct (summaries_combine_total t' Hc) as [Hs _].
  split; [exact Hc|]. split; [exact Hs|].
  intros Hlt. rewrite Hs. apply to_guint_small.
  split; [now apply total_size_nonneg | exact Hlt].
Qed.

Lemma root_summary_is_total_size_witness :
  cache_valid summary_example_tree /\ cells_ok summary_example_tree /\
  Forall (fun m => is_guint (snd m)) summary_example_mutations /\
  summaries_combine summary_example_result /\
  summary_size summary_example_result
  = to_guint (total_size summary_example_result) /\
  (total_size summary_example_result < guint_modulus ->
   summary_size summary_example_result = total_size summary_example_result).
Proof.
  assert (Hv : cache_valid summary_example_tree)
    by (simpl; repeat split; reflexivity).
  assert (Hok : cells_ok summary_example_tree)
    by (repeat (apply Forall_cons;
                [split; unfold is_guint; rewrite guint_modulus_eq; simpl; lia|]);
        apply Forall_nil).
  assert (Hm : Forall (fun m => is_guint (snd m)) summary_example_mutations)
    by (repeat (apply Forall_cons;
                [unfold is_guint; rewrite guint_modulus_eq; simpl; lia|]);
        apply Forall_nil).
  split; [exact Hv|]. split; [exact Hok|]. split; [exact Hm|].
  exact (root_summary_is_total_size summary_example_tree summary_example_mutations
           Hv Hok Hm).
Defined.

(* ================================================================== *)
(** ** Geometry queries: the descent *)

Lemma total_items_nonneg (t : GtkRbTree) : cells_ok t -> 0 <= total_items t.
Proof.
  unfold cells_ok, total_items. induction (cells t) as [|c cs IH]; simpl; [lia|].
  intros Hok. inversion Hok as [|? ? [Hc _] Hcs]; subst.
  unfold is_guint in Hc. specialize (IH Hcs). lia.
Qed.

Lemma summary_size_total (t : GtkRbTree) :
  cache_valid t -> cells_ok t -> total_size t < guint_modulus ->
  summary_size t = total_size t.
Proof.
  intros Hv Hok Hlt.
  destruct (summaries_combine_total t (cache_valid_summaries_combine t Hv Hok)) as [-> _].
  apply to_guint_small. split; [now apply total_size_nonneg | assumption].
Qed.

Lemma summary_items_total (t : GtkRbTree) :
  cache_valid t -> cells_ok t -> total_items t < guint_modulus ->
  summary_items t = total_items t.
Proof.
  intros Hv Hok Hlt.
  destruct (summaries_combine_total t (cache_valid_summaries_combine t Hv Hok)) as [_ ->].
  apply to_guint_small. split; [now apply total_items_nonneg | assumption].
Qed.

(** What the descents read at the left child. *)
Lemma get_augment_left (l : GtkRbTree) :
  cache_valid l -> cells_ok l ->
  total_size l < guint_modulus -> total_items l < guint_modulus ->
  match gtk_rb_tree_get_augment l with
  | Some la => aug_size la = total_size l /\ aug_n_items la = total_items l
  | None => total_size l = 0 /\ total_items l = 0
  end.
Proof.
  intros Hv Hok Hs Hn.
  pose proof (summary_size_total l Hv Hok Hs) as Es.
  pose proof (summary_items_total l Hv Hok Hn) as En.
  unfold summary_size in Es. unfold summary_items in En.
  destruct (gtk_rb_tree_get_augment l) eqn:E; [auto|].
  apply get_augment_none in E. subst l. split; reflexivity.
Qed.

Lemma node_bounds (t : GtkRbTree) (h : Handle) (c : Cell) :
  cells_ok t -> gtk_rb_tree_node t h = Some c ->
  cell_ok c /\
  0 <= size_before t h /\ size_before t h + size c <= total_size t /\
  0 <= items_before t h /\ items_before t h + n_items c <= total_items t.
Proof.
  revert h. induction t as [|l IHl c0 a d r IHr]; intros h Hok Hn; [discriminate|].
  apply cells_ok_node in Hok. destruct Hok as (Hl & Hc & Hr).
  pose proof (total_size_nonneg l Hl). pose proof (total_size_nonneg r Hr).
  pose proof (total_items_nonneg l Hl). pose proof (total_items_nonneg r Hr).
  rewrite total_size_node, total_items_node.
  assert (Hc' := Hc). destruct Hc' as [Hcn Hcs]. unfold is_guint in Hcn, Hcs.
  destruct h as [|[|] h]; simpl in Hn |- *.
  - injection Hn as <-. split; [exact Hc|]. lia.
  - destruct (IHl h Hl Hn) as (? & ? & ? & ? & ?). split; [assumption|]. lia.
  - destruct (IHr h Hr Hn) as (? & ? & ? & ? & ?). split; [assumption|]. lia.
Qed.

(** Closes range side conditions of the integer conversions. *)
Ltac range_solve :=
  unfold is_guint, is_gint in *;
  rewrite ?guint_modulus_eq, ?gint_half_eq in *; lia.

Lemma cell_at_y_loop_finds (t : GtkRbTree) :
  forall (h : Handle) (c : Cell) (delta pos0 : Z),
    cache_valid t -> cells_ok t ->
    total_size t < gint_half -> 0 <= pos0 -> pos0 + total_items t < guint_modulus ->
    gtk_rb_tree_node t h = Some c -> 0 <= delta < size c ->
    cell_at_y_loop t (size_before t h + delta) pos0
    = (Some (h, c), delta, pos0 + items_before t h).
Proof.
  induction t as [|l IHl c0 a d r IHr]; intros h c delta pos0 Hv Hok Hs Hp0 Hn Hnode Hd;
    [discriminate|].
  pose proof (node_bounds _ _ _ Hok Hnode) as (Hc & Hsb0 & Hsb1 & Hib0 & Hib1).
  apply cells_ok_node in Hok. destruct Hok as (Hl & Hc0 & Hr).
  destruct Hv as (Hvl & Hvr & _).
  pose proof (total_size_nonneg l Hl) as HTl. pose proof (total_size_nonneg r Hr) as HTr.
  pose proof (total_items_nonneg l Hl) as HNl. pose proof (total_items_nonneg r Hr) as HNr.
  rewrite total_size_node in Hs, Hsb1. rewrite total_items_node in Hn, Hib1.
  assert (Hc0' := Hc0). destruct Hc0' as [Hc0n Hc0s].
  assert (HLs : total_size l < guint_modulus) by range_solve.
  assert (HLn : total_items l < guint_modulus) by range_solve.
  pose proof (get_augment_left l Hvl Hl HLs HLn) as Hla.
  cbn [cell_at_y_loop].
  destruct h as [|[|] h]; cbn [size_before items_before gtk_rb_tree_node] in *.
  - injection Hnode as <-.
    destruct (gtk_rb_tree_get_augment l) as [la|]; destruct Hla as [Es En].
    + rewrite Es, En.
      rewrite (to_guint_small (total_size l + delta)) by range_solve.
      destruct (Z.ltb_spec (total_size l + delta) (total_size l)); [range_solve|].
      replace (total_size l + delta - total_size l) with delta by lia.
      rewrite (to_gint_small delta) by range_solve.
      rewrite (to_guint_small delta) by range_solve.
      destruct (Z.ltb_spec delta (size c0)); [|range_solve].
      rewrite to_guint_small by range_solve. reflexivity.
    + rewrite Es, En, Z.add_0_l, Z.add_0_r.
      rewrite (to_guint_small delta) by range_solve.
      destruct (Z.ltb_spec delta (size c0)); [|range_solve]. reflexivity.
  - assert (Hnl : exists la, gtk_rb_tree_get_augment l = Some la).
    { destruct (gtk_rb_tree_get_augment l) eqn:E; [eauto|].
      apply get_augment_none in E. subst l. discriminate. }
    destruct Hnl as [la Ela]. rewrite Ela in Hla |- *. destruct Hla as [Es En].
    pose proof (node_bounds _ _ _ Hl Hnode) as (_ & ? & ? & ? & ?).
    rewrite Es.
    rewrite (to_guint_small (size_before l h + delta)) by range_solve.
    destruct (Z.ltb_spec (size_before l h + delta) (total_size l)); [|range_solve].
    rewrite (IHl h c delta pos0) by (assumption || range_solve).
    reflexivity.
  - pose proof (node_bounds _ _ _ Hr Hnode) as (_ & ? & ? & ? & ?).
    assert (E1 : forall y1 pos1,
               y1 = size c0 + size_before r h + delta ->
               pos1 = pos0 + total_items l ->
               (if to_guint y1 <? size c0
                then (Some ([] : Handle, c0), y1, pos1)
                else
                  let '(res, y', pos') :=
                    cell_at_y_loop r (to_gint (to_guint y1 - size c0))
                                   (to_guint (pos1 + n_items c0)) in
                  (option_map (fun hc => (R :: fst hc, snd hc)) res, y', pos'))
               = (Some (R :: h, c), delta,
                  pos0 + (total_items l + n_items c0 + items_before r h))).
    { intros y1 pos1 -> ->.
      rewrite (to_guint_small (size c0 + size_before r h + delta)) by range_solve.
      destruct (Z.ltb_spec (size c0 + size_before r h + delta) (size c0)); [range_solve|].
      replace (size c0 + size_before r h + delta - size c0)
        with (size_before r h + delta) by lia.
      rewrite (to_gint_small (size_before r h + delta)) by range_solve.
      rewrite (to_guint_small (pos0 + total_items l + n_items c0)) by range_solve.
      rewrite (IHr h c delta) by (assumption || range_solve).
      simpl. f_equal. lia. }
    destruct (gtk_rb_tree_get_augment l) as [la|]; destruct Hla as [Es En].
    + rewrite Es, En.
      rewrite (to_guint_small (total_size l + size c0 + size_before r h + delta))
        by range_solve.
      destruct (Z.ltb_spec (total_size l + size c0 + size_before r h + delta)
                           (total_size l)); [range_solve|].
      apply E1.
      * rewrite to_gint_small by range_solve. range_solve.
      * rewrite to_guint_small by range_solve. range_solve.
    + apply E1; range_solve.
Qed.

Lemma size_at_position_loop_finds (t : GtkRbTree) :
  forall q y0 : Z,
    cache_valid t -> cells_ok t ->
    0 <= q < total_items t -> total_items t < guint_modulus ->
    0 <= y0 -> y0 + total_size t < gint_half ->
    exists (h : Handle) (c : Cell),
      size_at_position_loop t q y0
      = (Some (h, c), q - items_before t h, y0 + size_before t h) /\
      gtk_rb_tree_node t h = Some c /\
      items_before t h <= q < items_before t h + n_items c.
Proof.
  induction t as [|l IHl c0 a d r IHr]; intros q y0 Hv Hok Hq Hn Hy0 Hs.
  { unfold total_items in Hq. simpl in Hq. lia. }
  apply cells_ok_node in Hok. destruct Hok as (Hl & Hc0 & Hr).
  destruct Hv as (Hvl & Hvr & _).
  pose proof (total_size_nonneg l Hl) as HTl. pose proof (total_size_nonneg r Hr) as HTr.
  pose proof (total_items_nonneg l Hl) as HNl. pose proof (total_items_nonneg r Hr) as HNr.
  rewrite total_size_node in Hs. rewrite total_items_node in Hn, Hq.
  assert (Hc0' := Hc0). destruct Hc0' as [Hc0n Hc0s].
  assert (HLs : total_size l < guint_modulus) by range_solve.
  assert (HLn : total_items l < guint_modulus) by range_solve.
  pose proof (get_augment_left l Hvl Hl HLs HLn) as Hla.
  cbn [size_at_position_loop].
  assert (E1 : forall q1 y1,
             total_items l <= q ->
             q1 = q - total_items l -> y1 = y0 + total_size l ->
             exists (h : Handle) (c : Cell),
               (if q1 <? n_items c0
                then (Some ([] : Handle, c0), q1, y1)
                else
                  let '(res, position', y') :=
                    size_at_position_loop r (to_guint (q1 - n_items c0))
                                          (to_gint (to_guint y1 + size c0)) in
                  (option_map (fun hc => (R :: fst hc, snd hc)) res, position', y'))
               = (Some (h, c), q - items_before (Node l c0 a d r) h,
                  y0 + size_before (Node l c0 a d r) h) /\
               gtk_rb_tree_node (Node l c0 a d r) h = Some c /\
               items_before (Node l c0 a d r) h <= q
               < items_before (Node l c0 a d r) h + n_items c).
  { intros q1 y1 Hge -> ->.
    destruct (Z.ltb_spec (q - total_items l) (n_items c0)).
    - exists [], c0. simpl. repeat split; lia.
    - rewrite (to_guint_small (q - total_items l - n_items c0)) by range_solve.
      rewrite (to_guint_small (y0 + total_size l)) by range_solve.
      rewrite (to_gint_small (y0 + total_size l + size c0)) by range_solve.
      destruct (IHr (q - total_items l - n_items c0) (y0 + total_size l + size c0))
        as (h & c & Eloop & Hnode & Hcov); try assumption; try range_solve.
      exists (R :: h), c. rewrite Eloop. simpl.
      split; [f_equal; [f_equal|]; lia|]. split; [assumption|lia]. }
  destruct (gtk_rb_tree_get_augment l) as [la|]; destruct Hla as [Es En].
  - rewrite Es, En.
    destruct (Z.ltb_spec q (total_items l)).
    + destruct (IHl q y0) as (h & c & Eloop & Hnode & Hcov);
        try assumption; try range_solve.
      exists (L :: h), c. rewrite Eloop. simpl. auto.
    + apply E1; [assumption| |].
      * rewrite to_guint_small by range_solve. reflexivity.
      * rewrite (to_guint_small y0) by range_solve.
        rewrite to_gint_small by range_solve. reflexivity.
  - apply E1; lia.
Qed.

Lemma size_at_position_loop_misses (t : GtkRbTree) :
  forall q y0 : Z,
    cache_valid t -> cells_ok t ->
    total_items t <= q < guint_modulus ->
    0 <= y0 -> y0 + total_size t < gint_half ->
    size_at_position_loop t q y0 = (None, q - total_items t, y0 + total_size t).
Proof.
  induction t as [|l IHl c0 a d r IHr]; intros q y0 Hv Hok Hq Hy0 Hs.
  { simpl. unfold total_items, total_size. simpl. f_equal; [f_equal|]; lia. }
  apply cells_ok_node in Hok. destruct Hok as (Hl & Hc0 & Hr).
  destruct Hv as (Hvl & Hvr & _).
  pose proof (total_size_nonneg l Hl) as HTl. pose proof (total_size_nonneg r Hr) as HTr.
  pose proof (total_items_nonneg l Hl) as HNl. pose proof (total_items_nonneg r Hr) as HNr.
  rewrite total_size_node in Hs |- *. rewrite total_items_node in Hq |- *.
  assert (Hc0' := Hc0). destruct Hc0' as [Hc0n Hc0s].
  assert (HLs : total_size l < guint_modulus) by range_solve.
  assert (HLn : total_items l < guint_modulus) by range_solve.
  pose proof (get_augment_left l Hvl Hl HLs HLn) as Hla.
  cbn [size_at_position_loop].
  assert (E1 : forall q1 y1,
             q1 = q - total_items l -> y1 = y0 + total_size l ->
             (if q1 <? n_items c0
              then (Some ([] : Handle, c0), q1, y1)
              else
                let '(res, position', y') :=
                  size_at_position_loop r (to_guint (q1 - n_items c0))
                                        (to_gint (to_guint y1 + size c0)) in
                (option_map (fun hc => (R :: fst hc, snd hc)) res, position', y'))
             = (None, q - (total_items l + n_items c0 + total_items r),
                y0 + (total_size l + size c0 + total_size r))).
  { intros q1 y1 -> ->.
    destruct (Z.ltb_spec (q - total_items l) (n_items c0)); [range_solve|].
    rewrite (to_guint_small (q - total_items l - n_items c0)) by range_solve.
    rewrite (to_guint_small (y0 + total_size l)) by range_solve.
    rewrite (to_gint_small (y0 + total_size l + size c0)) by range_solve.
    rewrite IHr by (assumption || range_solve). simpl.
    f_equal; [f_equal|]; lia. }
  destruct (gtk_rb_tree_get_augment l) as [la|]; destruct Hla as [Es En].
  - rewrite Es, En.
    destruct (Z.ltb_spec q (total_items l)); [range_solve|].
    apply E1.
    + rewrite to_guint_small by range_solve. reflexivity.
    + rewrite (to_guint_small y0) by range_solve.
      rewrite to_gint_small by range_solve. reflexivity.
  - apply E1; lia.
Qed.

Lemma cell_at_y_loop_misses (t : GtkRbTree) :
  forall y pos0 : Z,
    cache_valid t -> cells_ok t ->
    total_size t <= y < gint_half ->
    0 <= pos0 -> pos0 + total_items t < guint_modulus ->
    cell_at_y_loop t y pos0 = (None, y - total_size t, pos0 + total_items t).
Proof.
  induction t as [|l IHl c0 a d r IHr]; intros y pos0 Hv Hok Hy Hp0 Hn.
  { simpl. unfold total_items, total_size. simpl. f_equal; [f_equal|]; lia. }
  apply cells_ok_node in Hok. destruct Hok as (Hl & Hc0 & Hr).
  destruct Hv as (Hvl & Hvr & _).
  pose proof (total_size_nonneg l Hl) as HTl. pose proof (total_size_nonneg r Hr) as HTr.
  pose proof (total_items_nonneg l Hl) as HNl. pose proof (total_items_nonneg r Hr) as HNr.
  rewrite total_size_node in Hy |- *. rewrite total_items_node in Hn |- *.
  assert (Hc0' := Hc0). destruct Hc0' as [Hc0n Hc0s].
  assert (HLs : total_size l < guint_modulus) by range_solve.
  assert (HLn : total_items l < guint_modulus) by range_solve.
  pose proof (get_augment_left l Hvl Hl HLs HLn) as Hla.
  cbn [cell_at_y_loop].
  assert (E1 : forall y1 pos1,
             y1 = y - total_size l -> pos1 = pos0 + total_items l ->
             (if to_guint y1 <? size c0
              then (Some ([] : Handle, c0), y1, pos1)
              else
                let '(res, y', pos') :=
                  cell_at_y_loop r (to_gint (to_guint y1 - size c0))
                                 (to_guint (pos1 + n_items c0)) in
                (option_map (fun hc => (R :: fst hc, snd hc)) res, y', pos'))
             = (None, y - (total_size l + size c0 + total_size r),
                pos0 + (total_items l + n_items c0 + total_items r))).
  { intros y1 pos1 -> ->.
    rewrite (to_guint_small (y - total_size l)) by range_solve.
    destruct (Z.ltb_spec (y - total_size l) (size c0)); [range_solve|].
    rewrite (to_gint_small (y - total_size l - size c0)) by range_solve.
    rewrite (to_guint_small (pos0 + total_items l + n_items c0)) by range_solve.
    rewrite IHr by (assumption || range_solve). simpl.
    f_equal; [f_equal|]; lia. }
  destruct (gtk_rb_tree_get_augment l) as [la|]; destruct Hla as [Es En].
  - rewrite Es, En.
    rewrite (to_guint_small y) by range_solve.
    destruct (Z.ltb_spec y (total_size l)); [range_solve|].
    apply E1.
    + rewrite to_gint_small by range_solve. reflexivity.
    + rewrite to_guint_small by range_solve. reflexivity.
  - apply E1; lia.
Qed.

(* ================================================================== *)
(** ** Geometry queries: offset of a position and back *)

Lemma runs_from_app (s : Z) (l1 l2 : list Cell) :
  runs_from s (l1 ++ l2)
  = runs_from s l1 ++ runs_from (s + fold_right Z.add 0 (map n_items l1)) l2.
Proof.
  revert s. induction l1 as [|c l1 IH]; intros s; simpl.
  - now rewrite Z.add_0_r.
  - rewrite IH. do 3 f_equal. lia.
Qed.

Lemma runs_from_node (t : GtkRbTree) :
  forall (s : Z) (h : Handle) (c : Cell),
    gtk_rb_tree_node t h = Some c ->
    In (s + items_before t h, c) (runs_from s (cells t)).
Proof.
  induction t as [|l IHl c0 a d r IHr]; intros s h c Hn; [discriminate|].
  cbn [cells]. rewrite runs_from_app. apply in_or_app.
  destruct h as [|[|] h]; cbn [gtk_rb_tree_node items_before] in *.
  - injection Hn as <-. right. left. reflexivity.
  - left. now apply IHl.
  - right. right. fold (total_items l).
    replace (s + (total_items l + n_items c0 + items_before r h))
      with (s + total_items l + n_items c0 + items_before r h) by lia.
    now apply IHr.
Qed.

Lemma runs_node (t : GtkRbTree) (h : Handle) (c : Cell) :
  gtk_rb_tree_node t h = Some c -> In (items_before t h, c) (runs t).
Proof. intros Hn. apply (runs_from_node t 0 h c Hn). Qed.

Lemma to_guint_mul_r (a b : Z) : to_guint (a * to_guint b) = to_guint (a * b).
Proof. unfold to_guint. apply Z.mul_mod_idemp_r. rewrite guint_modulus_eq. lia. Qed.

(** Arithmetic of rows inside a run: [q] is the first item of a row and
    lies [q - ib] items into a run of [nc] items. *)
Lemma row_in_run (n ib q nc urh sz : Z) :
  1 <= n -> q mod n = 0 -> ib <= q < ib + nc -> 0 < urh ->
  ((- ib) mod n < nc -> (nc - (- ib) mod n - 1) / n * urh < sz) ->
  (q - ib) mod n = (- ib) mod n /\
  ((q - ib) - (q - ib) mod n) / n = (q - ib) / n /\
  0 <= (q - ib) / n /\
  (q - ib) / n <= (nc - (- ib) mod n - 1) / n /\
  0 <= (q - ib) / n * urh < sz.
Proof.
  intros Hn Hq Hcov Hurh Hrow.
  assert (Erem : (q - ib) mod n = (- ib) mod n).
  { rewrite (Z.div_mod q n) at 1 by lia. rewrite Hq, Z.add_0_r.
    replace (n * (q / n) - ib) with (- ib + (q / n) * n) by lia.
    apply Z.mod_add. lia. }
  assert (Hrem : 0 <= (q - ib) mod n < n) by (apply Z.mod_pos_bound; lia).
  assert (Hle : (q - ib) mod n <= q - ib) by (apply Z.mod_le; lia).
  assert (Ediv : ((q - ib) - (q - ib) mod n) / n = (q - ib) / n).
  { pose proof (Z.div_mod (q - ib) n) as E.
    replace (q - ib - (q - ib) mod n) with ((q - ib) / n * n) by lia.
    apply Z.div_mul. lia. }
  assert (Hpos : 0 <= (q - ib) / n) by (apply Z.div_pos; lia).
  assert (Hmono : (q - ib) / n <= (nc - (- ib) mod n - 1) / n).
  { rewrite <- Ediv, Erem. apply Z.div_le_mono; lia. }
  repeat split; try assumption.
  - apply Z.mul_nonneg_nonneg; lia.
  - eapply Z.le_lt_trans; [|apply Hrow; lia].
    apply Z.mul_le_mono_nonneg_r; lia.
Qed.

Section RoundTrip.

Variable self : GtkGridView.

Hypothesis Hvalid : cache_valid (item_manager self).
Hypothesis Hcells : cells_ok (item_manager self).
Hypothesis Hitems : total_items (item_manager self) < guint_modulus.
Hypothesis Hsize : total_size (item_manager self) < gint_half.
Hypothesis Hcols : 1 <= n_columns self.
Hypothesis Hrows : positive_row_sizes self.

(** The position query at [p] stops on the run covering the first item
    [q] of the row of [p], and reports the pixels in front of that run
    plus one unknown row height for each row of the run in front of [q]. *)
Lemma get_size_at_position_found (p : Z) :
  0 <= p < total_items (item_manager self) ->
  let q := p - p mod n_columns self in
  exists (h : Handle) (c : Cell) (sp : SizeAtPosition),
    gtk_rb_tree_node (item_manager self) h = Some c /\
    items_before (item_manager self) h <= q
    < items_before (item_manager self) h + n_items c /\
    gtk_grid_view_get_size_at_position self p = Some sp /\
    sp_found sp = true /\
    sp_offset sp
    = size_before (item_manager self) h
      + (q - items_before (item_manager self) h) / n_columns self
        * unknown_row_height self /\
    0 <= (q - items_before (item_manager self) h) / n_columns self
         * unknown_row_height self < size c.
Proof.
  intros Hp q.
  assert (Hmod : 0 <= p mod n_columns self < n_columns self)
    by (apply Z.mod_pos_bound; lia).
  assert (Hmodle : p mod n_columns self <= p) by (apply Z.mod_le; lia).
  assert (Hq : 0 <= q < total_items (item_manager self)) by (unfold q; lia).
  assert (Hq0 : q mod n_columns self = 0).
  { unfold q. rewrite Zminus_mod, Z.mod_mod, Z.sub_diag by lia. apply Z.mod_0_l. lia. }
  destruct (size_at_position_loop_finds (item_manager self) q 0)
    as (h & c & Eloop & Hnode & Hcov); try assumption; try lia.
  pose proof (node_bounds _ _ _ Hcells Hnode) as (Hc & Hsb0 & Hsb1 & Hib0 & Hib1).
  destruct Hrows as [Hurh Hall].
  pose proof (proj1 (Forall_forall _ _) Hall _ (runs_node _ _ _ Hnode)) as Hrun.
  unfold run_rows_positive in Hrun. cbn [fst snd] in Hrun.
  destruct (row_in_run _ _ _ _ _ _ Hcols Hq0 Hcov Hurh Hrun)
    as (Erem & Ediv & Hskip0 & Hskip1 & Hoff).
  exists h, c.
  unfold gtk_grid_view_get_size_at_position, umod, udiv.
  destruct (Z.eqb_spec (n_columns self) 0) as [|_]; [lia|].
  cbn [bind]. fold q.
  rewrite (to_guint_small q) by range_solve.
  rewrite Eloop. cbn [bind].
  set (loc := q - items_before (item_manager self) h) in *.
  assert (Hloc : 0 <= loc < n_items c) by (unfold loc; lia).
  assert (Hrem : 0 <= loc mod n_columns self <= loc)
    by (split; [apply Z.mod_pos_bound; lia | apply Z.mod_le; lia]).
  assert (Epos : (if negb (loc mod n_columns self =? 0)
                  then (to_guint (n_items c - loc mod n_columns self),
                        to_guint (loc - loc mod n_columns self))
                  else (n_items c, loc))
                 = (n_items c - loc mod n_columns self, loc - loc mod n_columns self)).
  { destruct Hc as [Hcn _].
    destruct (Z.eqb_spec (loc mod n_columns self) 0) as [E|E]; cbn [negb].
    - rewrite E, !Z.sub_0_r. reflexivity.
    - rewrite !to_guint_small by range_solve. reflexivity. }
  rewrite Epos, Ediv.
  eexists. split; [exact Hnode|]. split; [exact Hcov|].
  split; [reflexivity|]. cbn [sp_found sp_offset].
  split; [reflexivity|]. split; [|exact Hoff].
  rewrite Z.add_0_l.
  rewrite to_guint_mul_r.
  rewrite (to_guint_small (size_before _ _)) by range_solve.
  rewrite (to_guint_small (_ * _)) by range_solve.
  apply to_gint_small. range_solve.
Qed.

(** The offset query at [delta] pixels into the run at [h] returns that
    run.  When the run begins on a row boundary, the reported position is
    the first item of the row [delta] falls into and the reported offset
    is the distance to the top of that row. *)
Lemma get_cell_at_y_found (h : Handle) (c : Cell) (delta : Z) :
  gtk_rb_tree_node (item_manager self) h = Some c ->
  0 <= delta < size c ->
  exists cy : CellAtY,
    gtk_grid_view_get_cell_at_y self (size_before (item_manager self) h + delta)
    = Some cy /\
    cy_cell cy = Some h /\
    (items_before (item_manager self) h mod n_columns self = 0 ->
     1 <= n_items c ->
     let rows := Z.min (delta / unknown_row_height self)
                       ((n_items c - 1) / n_columns self) in
     cy_position cy = items_before (item_manager self) h + n_columns self * rows /\
     cy_offset cy = delta - rows * unknown_row_height self).
Proof.
  intros Hnode Hdelta.
  pose proof (node_bounds _ _ _ Hcells Hnode) as (Hc & Hsb0 & Hsb1 & Hib0 & Hib1).
  destruct Hrows as [Hurh _].
  unfold gtk_grid_view_get_cell_at_y.
  rewrite (cell_at_y_loop_finds (item_manager self) h c delta 0)
    by (assumption || range_solve).
  rewrite Z.add_0_l. unfold umod, udiv, sdiv.
  destruct (Z.eqb_spec (n_columns self) 0) as [|_]; [lia|].
  destruct (Z.eqb_spec (unknown_row_height self) 0) as [|_]; [lia|].
  destruct (Z.eqb_spec delta (- gint_half)) as [|_]; [range_solve|].
  cbn [bind andb].
  destruct (Z.eqb_spec (items_before (item_manager self) h mod n_columns self) 0)
    as [E|E]; cbn [negb bind].
  - eexists. split; [reflexivity|]. split; [reflexivity|].
    intros _ Hn1. cbn [cy_position cy_offset].
    rewrite Z.quot_div_nonneg by lia.
    set (rows := Z.min (delta / unknown_row_height self)
                       ((n_items c - 1) / n_columns self)).
    assert (Hd : 0 <= delta / unknown_row_height self <= delta).
    { split; [apply Z.div_pos; lia|]. apply Z.div_le_upper_bound; nia. }
    assert (Hr : 0 <= (n_items c - 1) / n_columns self <= n_items c - 1).
    { split; [apply Z.div_pos; lia|]. apply Z.div_le_upper_bound; nia. }
    rewrite (to_guint_small (n_items c - 1)) by range_solve.
    rewrite (to_guint_small (delta / _)) by range_solve.
    rewrite MIN_spec. fold rows.
    assert (Hrows0 : 0 <= rows <= delta / unknown_row_height self) by (unfold rows; lia).
    assert (Hrows1 : rows <= (n_items c - 1) / n_columns self) by (unfold rows; lia).
    assert (Hmul : rows * unknown_row_height self <= delta).
    { pose proof (Z.mul_div_le delta (unknown_row_height self)). nia. }
    assert (Hcol : n_columns self * rows <= n_items c - 1).
    { pose proof (Z.mul_div_le (n_items c - 1) (n_columns self)). nia. }
    rewrite to_guint_mul_r.
    rewrite (to_guint_small (rows * _)) by (split; [nia | range_solve]).
    rewrite (to_guint_small delta) by range_solve.
    rewrite (to_guint_small (n_columns self * rows)) by (split; [nia | range_solve]).
    split; [apply to_guint_small | apply to_gint_small].
    + split; [nia | range_solve].
    + split; [range_solve | range_solve].
  - eexists. split; [reflexivity|]. split; [reflexivity|].
    intros E0. contradiction.
Qed.

(** C2, as the code has it.  For every valid item position [p], with at
    least one column and positive row sizes, the offset computed for [p]
    by [gtk_grid_view_get_size_at_position], handed to
    [gtk_grid_view_get_cell_at_y], returns the run covering the first item
    of the row of [p], [p - p mod n_columns]; when that run begins on a row
    boundary the reported position is that first item and the reported
    offset is 0. *)
Theorem offset_of_position_round_trip (p : Z) :
  0 <= p < total_items (item_manager self) ->
  let q := p - p mod n_columns self in
  exists (sp : SizeAtPosition) (cy : CellAtY) (h : Handle),
    gtk_grid_view_get_size_at_position self p = Some sp /\
    sp_found sp = true /\
    gtk_grid_view_get_cell_at_y self (sp_offset sp) = Some cy /\
    cy_cell cy = Some h /\
    covers (item_manager self) h q /\
    (items_before (item_manager self) h mod n_columns self = 0 ->
     cy_position cy = q /\ cy_offset cy = 0).
Proof.
  intros Hp q.
  destruct (get_size_at_position_found p Hp)
    as (h & c & sp & Hnode & Hcov & Esp & Hfound & Eoff & Hdelta).
  fold q in Hcov, Eoff, Hdelta.
  destruct (get_cell_at_y_found h c _ Hnode Hdelta) as (cy & Ecy & Ecell & Hpos).
  exists sp, cy, h.
  split; [exact Esp|]. split; [exact Hfound|].
  rewrite Eoff. split; [exact Ecy|]. split; [exact Ecell|].
  split; [exists c; split; assumption|].
  intros Hib. destruct (Hpos Hib) as [Ep Eo]; [lia|].
  destruct Hrows as [Hurh _].
  set (loc := q - items_before (item_manager self) h) in *.
  assert (Hloc : 0 <= loc < n_items c) by (unfold loc; lia).
  assert (Hlocmod : loc mod n_columns self = 0).
  { unfold loc, q.
    rewrite Zminus_mod, (Zminus_mod p), Z.mod_mod, Z.sub_diag, Hib by lia.
    rewrite Z.mod_0_l by lia. reflexivity. }
  assert (Erows : Z.min (loc / n_columns self * unknown_row_height self
                         / unknown_row_height self)
                        ((n_items c - 1) / n_columns self)
                  = loc / n_columns self).
  { rewrite Z.div_mul by lia.
    apply Z.min_l. apply Z.div_le_mono; lia. }
  rewrite Erows in Ep, Eo.
  split.
  - rewrite Ep. pose proof (Z.div_mod loc (n_columns self)). unfold loc in *. lia.
  - rewrite Eo. lia.
Qed.

End RoundTrip.

(* ================================================================== *)
(** ** A laid-out grid whose unrealized run begins in the middle of a row *)

(** The pass yields three columns and rows of height 10: items 0-2, 3-5,
    6-8 and 9.  The rows beginning at items 0 and 3 are sized in the
    realized cells of these items; the rows beginning at items 6 and 9 are
    sized in the unrealized run, which begins at item 4. *)
Lemma staggered_view_layout :
  gtk_grid_view_size_allocate staggered_start 60 = Some staggered_view /\
  n_columns staggered_view = 3 /\
  unknown_row_height staggered_view = 10 /\
  map (fun run => (fst run, n_items (snd run), size (snd run)))
      (runs (item_manager staggered_view))
  = [(0, 1, 10); (1, 1, 0); (2, 1, 0); (3, 1, 10); (4, 6, 20)] /\
  gtk_rb_tree_handles (item_manager staggered_view)
  = [[L; L]; [L]; []; [R]; [R; R]] /\
  total_items (item_manager staggered_view) = 10 /\
  total_size (item_manager staggered_view) = 40.
Proof. repeat split. Qed.

Lemma staggered_view_valid :
  cache_valid (item_manager staggered_view) /\ cells_ok (item_manager staggered_view).
Proof.
  split.
  - vm_compute. repeat split; reflexivity || discriminate.
  - unfold cells_ok.
    let cs := eval vm_compute in (cells (item_manager staggered_view)) in
    change (cells (item_manager staggered_view)) with cs.
    repeat (apply Forall_cons;
            [split; unfold is_guint; rewrite guint_modulus_eq; simpl; lia|]).
    apply Forall_nil.
Qed.

Lemma staggered_view_rows : positive_row_sizes staggered_view.
Proof.
  split; [reflexivity|].
  let rs := eval vm_compute in (runs (item_manager staggered_view)) in
  change (runs (item_manager staggered_view)) with rs.
  repeat (apply Forall_cons;
          [unfold run_rows_positive; vm_compute;
           first [intros _; reflexivity | intros H; discriminate H]|]).
  apply Forall_nil.
Qed.

(** In [staggered_view], for item 1 the run returned is the cell of item 0,
    the first cell of the row, which does not cover item 1; for item 9 the
    position reported is 7, an item of the row before. *)
Lemma round_trip_counterexample :
  1 <= n_columns staggered_view /\
  positive_row_sizes staggered_view /\
  total_items (item_manager staggered_view) = 10 /\
  ~ round_trip_as_stated staggered_view 1 /\
  ~ round_trip_as_stated staggered_view 9.
Proof.
  split; [vm_compute; discriminate|].
  split; [exact staggered_view_rows|].
  split; [reflexivity|].
  split.
  - intros (sp & cy & h & Esp & Ecy & Eh & (c & Hc & Hcov) & _).
    vm_compute in Esp. injection Esp as <-.
    vm_compute in Ecy. injection Ecy as <-.
    vm_compute in Eh. injection Eh as <-.
    vm_compute in Hc. injection Hc as <-.
    vm_compute in Hcov. destruct Hcov as [_ Hlt]. discriminate Hlt.
  - intros (sp & cy & h & Esp & Ecy & _ & _ & Hrow).
    vm_compute in Esp. injection Esp as <-.
    vm_compute in Ecy. injection Ecy as <-.
    vm_compute in Hrow. discriminate Hrow.
Qed.

Lemma offset_of_position_round_trip_witness :
  cache_valid (item_manager staggered_view) /\
  cells_ok (item_manager staggered_view) /\
  total_items (item_manager staggered_view) < guint_modulus /\
  total_size (item_manager staggered_view) < gint_half /\
  1 <= n_columns staggered_view /\
  positive_row_sizes staggered_view /\
  0 <= 5 < total_items (item_manager staggered_view) /\
  exists (sp : SizeAtPosition) (cy : CellAtY) (h : Handle),
    gtk_grid_view_get_size_at_position staggered_view 5 = Some sp /\
    sp_found sp = true /\
    gtk_grid_view_get_cell_at_y staggered_view (sp_offset sp) = Some cy /\
    cy_cell cy = Some h /\
    covers (item_manager staggered_view) h (5 - 5 mod n_columns staggered_view) /\
    (items_before (item_manager staggered_view) h mod n_columns staggered_view = 0 ->
     cy_position cy = 5 - 5 mod n_columns staggered_view /\ cy_offset cy = 0).
Proof.
  assert (H1 := proj1 staggered_view_valid).
  assert (H2 := proj2 staggered_view_valid).
  assert (H3 : total_items (item_manager staggered_view) < guint_modulus)
    by reflexivity.
  assert (H4 : total_size (item_manager staggered_view) < gint_half)
    by reflexivity.
  assert (H5 : 1 <= n_columns staggered_view) by (vm_compute; discriminate).
  assert (H6 := staggered_view_rows).
  assert (H7 : 0 <= 5 < total_items (item_manager staggered_view))
    by (split; [vm_compute; discriminate | reflexivity]).
  split; [exact H1|]. split; [exact H2|]. split; [exact H3|]. split; [exact H4|].
  split; [exact H5|]. split; [exact H6|]. split; [exact H7|].
  exact (offset_of_position_round_trip staggered_view H1 H2 H3 H4 H5 H6 5 H7).
Defined.

(** C7.  In [staggered_view] the rows begin at items 0, 3, 6 and 9, at
    offsets 0, 10, 20 and 30.  Queried at offsets 20 and 30,
    [gtk_grid_view_get_cell_at_y] reports position 7 both times: not a
    multiple of [n_columns], and not the first item of the row at the
    offset. *)
Theorem cell_at_y_reports_mid_row_position :
  n_columns staggered_view = 3 /\
  option_map sp_offset (gtk_grid_view_get_size_at_position staggered_view 6) = Some 20 /\
  option_map sp_offset (gtk_grid_view_get_size_at_position staggered_view 9) = Some 30 /\
  gtk_grid_view_get_cell_at_y staggered_view 20
  = Some {| cy_cell := Some [R; R]; cy_position := 7; cy_offset := 0; cy_size := 20 |} /\
  gtk_grid_view_get_cell_at_y staggered_view 30
  = Some {| cy_cell := Some [R; R]; cy_position := 7; cy_offset := 10; cy_size := 20 |} /\
  7 mod 3 <> 0.
Proof. repeat split. discriminate. Qed.

(** The position query works on whole rows: it answers for [position] as
    for the first item of its row. *)
Lemma get_size_at_position_snaps (self : GtkGridView) (position : Z) :
  gtk_grid_view_get_size_at_position self position
  = gtk_grid_view_get_size_at_position self
      (position - position mod n_columns self).
Proof.
  unfold gtk_grid_view_get_size_at_position, umod.
  destruct (Z.eqb_spec (n_columns self) 0) as [|Hn]; [reflexivity|].
  cbn [bind].
  assert (E : (position - position mod n_columns self) mod n_columns self = 0).
  { rewrite Zminus_mod, Z.mod_mod, Z.sub_diag by assumption. now apply Z.mod_0_l. }
  rewrite E, Z.sub_0_r. reflexivity.
Qed.

(** C6.  [staggered_view] has ten items, at positions 0 to 9.  Queried at
    position 11, [gtk_grid_view_get_size_at_position] returns [TRUE] with
    the offset and size of the last row. *)
Theorem size_at_position_beyond_last_item :
  total_items (item_manager staggered_view) = 10 /\
  gtk_grid_view_get_size_at_position staggered_view 11
  = Some {| sp_found := true; sp_offset := 30; sp_size := 10 |}.
Proof. split; reflexivity. Qed.

(* ================================================================== *)
(** ** Scroll-anchor controller *)

Lemma orientation_eqb_refl (o : GtkOrientation) : orientation_eqb o o = true.
Proof. destruct o; reflexivity. Qed.

Section ScrollAnchor.

Context {D : Double}.

(** The events play no part in the derivation of the anchor. *)
Lemma derive_anchor_log_event (s : GridViewState) (e : SignalEvent)
    (which : GtkOrientation) :
  derive_anchor (log_event s e) which = derive_anchor s which.
Proof. reflexivity. Qed.

(** The handler does not trap on a zero column count only because it never
    gets as far as deriving a position. *)
Lemma derive_anchor_columns (s : GridViewState) (which : GtkOrientation)
    (d : DerivedAnchor) :
  derive_anchor s which = Some d -> n_columns (view s) <> 0.
Proof.
  intros Hd Hz. unfold derive_anchor in Hd. rewrite Hz in Hd.
  destruct (orientation_eqb which (orientation (view s))).
  - destruct (gtk_grid_view_get_cell_at_y _ _) as [cy|]; [|discriminate].
    cbn [bind] in Hd.
    destruct (cy_cell cy); cbn [bind umod Z.eqb] in Hd.
    + discriminate.
    + discriminate.
  - destruct (_ >=? 0); cbn [bind umod Z.eqb] in Hd; discriminate.
Qed.

(** C8.  Whenever the position derived from the scroll position lies
    beyond the last item ([pos >= n_items]), the handler sets the anchor
    to [n_items - 1] (a [guint]: the last item as soon as there is an
    item), anchored at its end edge across the grid ([xstart = FALSE]),
    with the cross-axis alignment computed from the value and the page
    size of the adjustment of the opposite orientation; the alignment
    along the grid is the derived one. *)
Theorem anchor_clamped_to_last_item
    (s : GridViewState) (which : GtkOrientation) (d : DerivedAnchor) :
  derive_anchor s which = Some d ->
  g_list_model_get_n_items s <= da_pos d ->
  let last := to_guint (g_list_model_get_n_items s - 1) in
  let opposite := adjustment s (OPPOSITE_ORIENTATION (orientation (view s))) in
  let xalign :=
    d_div (d_sub (d_ceil (d_mul (d_of_Z (column_width (view s)))
                                (d_of_Z (to_guint (last mod n_columns (view s) + 1)))))
                 (gtk_adjustment_get_value opposite))
          (gtk_adjustment_get_page_size opposite) in
  exists s' : GridViewState,
    gtk_grid_view_adjustment_value_changed_cb s which = Some s' /\
    s' = gtk_widget_queue_allocate
           (gtk_grid_view_set_anchor (log_event s (HandlerRun which))
              last xalign false (da_yalign d) (da_ystart d)) /\
    anchor_position s' = last /\
    (1 <= g_list_model_get_n_items s < guint_modulus ->
     anchor_position s' = g_list_model_get_n_items s - 1) /\
    anchor_xstart s' = false /\
    (anchor_xalign s' = xalign \/ d_eqb (anchor_xalign s') xalign = true).
Proof.
  intros Hd Hpos last opposite xalign.
  pose proof (derive_anchor_columns s which d Hd) as Hcols.
  assert (Hlast : 1 <= g_list_model_get_n_items s < guint_modulus ->
                  last = g_list_model_get_n_items s - 1).
  { intros Hn. apply to_guint_small. unfold is_guint. lia. }
  eexists. split.
  - unfold gtk_grid_view_adjustment_value_changed_cb.
    rewrite derive_anchor_log_event, Hd. cbn [bind log_event g_list_model_get_n_items view].
    destruct (Z.geb_spec (da_pos d) (g_list_model_get_n_items s)) as [_|]; [|lia].
    unfold umod. destruct (Z.eqb_spec (n_columns (view s)) 0) as [|_]; [contradiction|].
    cbn [bind]. reflexivity.
  - split; [reflexivity|].
    unfold gtk_grid_view_set_anchor.
    cbn [with_anchor log_event anchor_xalign anchor_xstart anchor_yalign anchor_ystart
         view adjustment].
    fold last. fold opposite. fold xalign.
    destruct (d_eqb (anchor_xalign s) xalign) eqn:Ex;
      destruct (anchor_xstart s) eqn:Exs;
      destruct (d_eqb (anchor_yalign s) (da_yalign d));
      destruct (Bool.eqb (anchor_ystart s) (da_ystart d));
      cbn [negb orb Bool.eqb];
      cbn [gtk_widget_queue_allocate with_align with_anchor anchor_position
           anchor_xstart anchor_xalign];
      repeat split; auto.
Qed.

(** A push through [gtk_grid_view_update_adjustment_with_values] always
    returns; it blocks the handler, configures the adjustment and unblocks
    the handler, and the handler does not run. *)
Lemma update_adjustment_with_values_events
    (s : GridViewState) (o : GtkOrientation) (value upper page_size : Z) :
  exists (s' : GridViewState) (v : Z),
    gtk_grid_view_update_adjustment_with_values s o value upper page_size
    = Some (s', v) /\
    events s' = events s ++ push_events o /\
    (forall which, ~ In (HandlerRun which) (push_events o)) /\
    handler_blocked (adjustment s' o) = handler_blocked (adjustment s o) /\
    handler_connected (adjustment s' o) = handler_connected (adjustment s o) /\
    anchor_position s' = anchor_position s /\
    anchor_xalign s' = anchor_xalign s /\ anchor_yalign s' = anchor_yalign s /\
    anchor_xstart s' = anchor_xstart s /\ anchor_ystart s' = anchor_ystart s.
Proof.
  unfold gtk_grid_view_update_adjustment_with_values, gtk_adjustment_configure.
  cbn [g_signal_handlers_block_by_func with_adjustment adjustment].
  rewrite !orientation_eqb_refl.
  cbn [handler_connected handler_blocked gtk_adjustment_get_value].
  assert (Hoff : forall b,
             b && handler_connected (adjustment s o)
             && Nat.eqb (if handler_connected (adjustment s o)
                         then S (handler_blocked (adjustment s o))
                         else handler_blocked (adjustment s o)) 0 = false).
  { intros b. destruct (handler_connected (adjustment s o)).
    - cbn [Nat.eqb]. now rewrite andb_false_r.
    - now rewrite andb_false_r. }
  rewrite Hoff. cbn [bind].
  eexists. eexists. split; [reflexivity|].
  cbn [g_signal_handlers_unblock_by_func g_signal_handlers_block_by_func
       with_adjustment adjustment events
       anchor_position anchor_xalign anchor_yalign anchor_xstart anchor_ystart].
  rewrite !orientation_eqb_refl. cbn [handler_connected handler_blocked].
  split; [now rewrite <- !app_assoc|].
  split.
  { intros which [H|[H|[H|[]]]]; discriminate H. }
  split; [destruct (handler_connected (adjustment s o)); reflexivity|].
  repeat split.
Qed.

(** Without the block the same push re-enters the handler: configuring an
    adjustment whose handler is connected and not blocked, with a value
    that differs from the stored one, runs the handler before returning. *)
Lemma configure_unblocked_runs_handler
    (s : GridViewState) (o : GtkOrientation)
    (value lower upper step_increment page_increment page_size : double) :
  handler_connected (adjustment s o) = true ->
  handler_blocked (adjustment s o) = 0%nat ->
  d_eqb value (gtk_adjustment_get_value (adjustment s o)) = false ->
  exists s1 : GridViewState,
    events s1 = events s ++ [AdjustmentConfigured o] /\
    gtk_adjustment_configure s o value lower upper step_increment page_increment
                             page_size
    = gtk_grid_view_adjustment_value_changed_cb s1 o.
Proof.
  intros Hc Hb Hv. unfold gtk_adjustment_configure.
  rewrite Hc, Hb, Hv. cbn [negb andb Nat.eqb].
  eexists. split; [|reflexivity]. reflexivity.
Qed.

(** C9.  Every write of an adjustment by the view itself goes through
    [gtk_grid_view_update_adjustment_with_values], which always returns
    and does, at the adjustment, exactly this: block the view's handler,
    configure the adjustment, unblock the handler.  The handler
    [gtk_grid_view_adjustment_value_changed_cb] does not run, the block
    count of the handler and the anchor are as before; and whichever path
    [gtk_grid_view_update_adjustment] takes, if it returns, it has made
    one such push and nothing else. *)
Theorem update_adjustment_suppresses_handler
    (s : GridViewState) (o : GtkOrientation) (value upper page_size : Z) :
  (exists (s' : GridViewState) (v : Z),
      gtk_grid_view_update_adjustment_with_values s o value upper page_size
      = Some (s', v) /\
      events s' = events s ++ push_events o /\
      (forall which, ~ In (HandlerRun which) (push_events o)) /\
      handler_blocked (adjustment s' o) = handler_blocked (adjustment s o) /\
      anchor_position s' = anchor_position s /\
      anchor_xalign s' = anchor_xalign s /\ anchor_yalign s' = anchor_yalign s /\
      anchor_xstart s' = anchor_xstart s /\ anchor_ystart s' = anchor_ystart s) /\
  match gtk_grid_view_update_adjustment s o with
  | Some (s', _) =>
      exists o' : GtkOrientation,
        events s' = events s ++ push_events o' /\
        handler_blocked (adjustment s' o') = handler_blocked (adjustment s o')
  | None => True
  end.
Proof.
  split.
  - destruct (update_adjustment_with_values_events s o value upper page_size)
      as (s' & v & E & Hev & Hrun & Hb & _ & Hanchor).
    exists s', v. repeat split; try assumption; apply Hanchor.
  - unfold gtk_grid_view_update_adjustment.
    destruct (anchor_position s =? GTK_INVALID_LIST_POSITION).
    { destruct (update_adjustment_with_values_events s o 0 0 0)
        as (s' & v & E & Hev & _ & Hb & _).
      rewrite E. cbn [bind]. exists o. split; assumption. }
    destruct (orientation_eqb (orientation (view s)) o).
    + destruct (gtk_rb_tree_get_augment _) as [aug|]; [|exact I]. cbn [bind].
      destruct (gtk_grid_view_get_size_at_position _ _) as [sp|]; [|exact I].
      cbn [bind]. destruct (sp_found sp); [|exact I].
      match goal with
      | |- match gtk_grid_view_update_adjustment_with_values s ?o' ?a ?b ?c with _ => _ end =>
          destruct (update_adjustment_with_values_events s o' a b c)
            as (s' & v & E & Hev & _ & Hb & _); rewrite E; exists o'
      end.
      split; assumption.
    + destruct (umod _ _) as [i|]; [|exact I]. cbn [bind].
      match goal with
      | |- match gtk_grid_view_update_adjustment_with_values s ?o' ?a ?b ?c with _ => _ end =>
          destruct (update_adjustment_with_values_events s o' a b c)
            as (s' & v & E & Hev & _ & Hb & _); rewrite E; exists o'
      end.
      split; assumption.
Qed.

End ScrollAnchor.

(* ================================================================== *)
(** ** The controller on exact rationals *)

Lemma anchor_clamped_to_last_item_witness :
  @derive_anchor Q_double scrolled_to_end GTK_ORIENTATION_VERTICAL
  = Some scrolled_to_end_anchor /\
  10 <= 11 /\
  exists s' : @GridViewState Q_double,
    @gtk_grid_view_adjustment_value_changed_cb Q_double scrolled_to_end
      GTK_ORIENTATION_VERTICAL = Some s' /\
    s' = gtk_widget_queue_allocate
           (gtk_grid_view_set_anchor
              (log_event scrolled_to_end (HandlerRun GTK_ORIENTATION_VERTICAL))
              9 (20 # 60) false 1%Q false) /\
    anchor_position s' = 9 /\
    (1 <= 10 < guint_modulus -> anchor_position s' = 10 - 1) /\
    anchor_xstart s' = false /\
    (anchor_xalign s' = (20 # 60) \/ Qeq_bool (anchor_xalign s') (20 # 60) = true).
Proof.
  assert (H1 : @derive_anchor Q_double scrolled_to_end GTK_ORIENTATION_VERTICAL
               = Some scrolled_to_end_anchor) by reflexivity.
  assert (H2 : 10 <= 11) by lia.
  split; [exact H1|]. split; [exact H2|].
  exact (@anchor_clamped_to_last_item Q_double scrolled_to_end
           GTK_ORIENTATION_VERTICAL scrolled_to_end_anchor H1 H2).
Defined.

(** Configuring the vertical adjustment of [scrolled_to_end] without blocking the
    handler runs the handler, which moves the anchor. *)
Lemma configure_unblocked_example :
  option_map (fun s => (events s, anchor_position s))
    (@gtk_adjustment_configure Q_double scrolled_to_end GTK_ORIENTATION_VERTICAL
       (10 # 1) 0%Q (40 # 1) (2 # 1) (18 # 1) (20 # 1))
  = Some ([AdjustmentConfigured GTK_ORIENTATION_VERTICAL;
           HandlerRun GTK_ORIENTATION_VERTICAL], 9).
Proof. reflexivity. Qed.

(* ================================================================== *)
(** ** Queries out of range *)

(** On an empty index the offset query reports nothing for every offset,
    and so does the position query for every position once the column
    count is set. *)
Lemma get_cell_at_y_empty (self : GtkGridView) (y : Z) :
  item_manager self = Leaf ->
  gtk_grid_view_get_cell_at_y self y = Some cell_not_found.
Proof. intros E. unfold gtk_grid_view_get_cell_at_y. rewrite E. reflexivity. Qed.

Lemma get_size_at_position_empty (self : GtkGridView) (position : Z) :
  item_manager self = Leaf -> n_columns self <> 0 ->
  gtk_grid_view_get_size_at_position self position = Some size_not_found.
Proof.
  intros E Hn. unfold gtk_grid_view_get_size_at_position, umod. rewrite E.
  destruct (Z.eqb_spec (n_columns self) 0); [contradiction|]. reflexivity.
Qed.

(** An offset at or beyond the total size reports nothing. *)
Lemma get_cell_at_y_beyond (self : GtkGridView) (y : Z) :
  cache_valid (item_manager self) -> cells_ok (item_manager self) ->
  total_items (item_manager self) < guint_modulus ->
  total_size (item_manager self) <= y < gint_half ->
  gtk_grid_view_get_cell_at_y self y = Some cell_not_found.
Proof.
  intros Hv Hok Hn Hy. unfold gtk_grid_view_get_cell_at_y.
  rewrite cell_at_y_loop_misses by (assumption || lia). reflexivity.
Qed.

(** A position whose row begins at or beyond the item count reports
    nothing. *)
Lemma get_size_at_position_beyond (self : GtkGridView) (position : Z) :
  cache_valid (item_manager self) -> cells_ok (item_manager self) ->
  total_size (item_manager self) < gint_half ->
  1 <= n_columns self ->
  position < guint_modulus ->
  total_items (item_manager self) <= position - position mod n_columns self ->
  gtk_grid_view_get_size_at_position self position = Some size_not_found.
Proof.
  intros Hv Hok Hs Hc Hp Hq. unfold gtk_grid_view_get_size_at_position, umod.
  destruct (Z.eqb_spec (n_columns self) 0); [lia|]. cbn [bind].
  pose proof (Z.mod_pos_bound position (n_columns self)).
  pose proof (total_items_nonneg _ Hok).
  rewrite to_guint_small by (unfold is_guint; lia).
  rewrite size_at_position_loop_misses by (assumption || lia). reflexivity.
Qed.

(* ================================================================== *)
(** * Further properties *)

(* ================================================================== *)
(** ** Offsets out of range and in range *)

Lemma to_guint_to_gint (x : Z) : to_guint (to_gint x) = to_guint x.
Proof.
  unfold to_guint, to_gint.
  rewrite Zminus_mod, Z.mod_mod by (rewrite guint_modulus_eq; lia).
  rewrite <- Zminus_mod.
  f_equal. lia.
Qed.

Lemma to_gint_to_guint (x : Z) : to_gint (to_guint x) = to_gint x.
Proof.
  unfold to_guint, to_gint. f_equal.
  rewrite Zplus_mod, Z.mod_mod by (rewrite guint_modulus_eq; lia).
  now rewrite <- Zplus_mod.
Qed.

Lemma to_gint_sub_guint (x a : Z) : to_gint (to_guint x - a) = to_gint (x - a).
Proof.
  unfold to_guint, to_gint. f_equal.
  replace (x mod guint_modulus - a + gint_half)
    with (x mod guint_modulus + (gint_half - a)) by lia.
  rewrite Z.add_mod_idemp_l by (rewrite guint_modulus_eq; lia).
  f_equal. lia.
Qed.

Lemma to_guint_negative (y : Z) :
  - guint_modulus <= y < 0 -> to_guint y = y + guint_modulus.
Proof.
  intros Hy. unfold to_guint.
  rewrite <- (Z.mod_add y 1) by (rewrite guint_modulus_eq; lia).
  apply Z.mod_small. lia.
Qed.

Lemma to_guint_sub (y a : Z) :
  0 <= a <= to_guint y -> to_guint (y - a) = to_guint y - a.
Proof.
  intros Ha. pose proof (to_guint_is_guint y) as Hy. unfold is_guint in Hy.
  unfold to_guint in *.
  rewrite Zminus_mod, (Z.mod_small a) by (rewrite guint_modulus_eq in *; lia).
  apply Z.mod_small. lia.
Qed.

Lemma to_gint_sub_gint (x a : Z) : to_gint (to_gint x - a) = to_gint (x - a).
Proof.
  unfold to_gint.
  replace ((x + gint_half) mod guint_modulus - gint_half - a + gint_half)
    with ((x + gint_half) mod guint_modulus + (- a)) by lia.
  rewrite Z.add_mod_idemp_l by (rewrite guint_modulus_eq; lia).
  do 2 f_equal. lia.
Qed.

(** The descent compares offsets as [guint]s: an offset whose unsigned
    reading is not below the total size runs off the tree. *)
Lemma cell_at_y_loop_runs_off (t : GtkRbTree) :
  forall y pos0 : Z,
    cache_valid t -> cells_ok t -> is_gint y ->
    total_size t <= to_guint y ->
    0 <= pos0 -> pos0 + total_items t < guint_modulus ->
    cell_at_y_loop t y pos0
    = (None, to_gint (y - total_size t), pos0 + total_items t).
Proof.
  induction t as [|l IHl c0 a d r IHr]; intros y pos0 Hv Hok Hgy Hy Hp0 Hn.
  { simpl. unfold total_items, total_size. simpl.
    rewrite Z.sub_0_r, Z.add_0_r, to_gint_small by assumption. reflexivity. }
  apply cells_ok_node in Hok. destruct Hok as (Hl & Hc0 & Hr).
  destruct Hv as (Hvl & Hvr & _).
  pose proof (total_size_nonneg l Hl) as HTl. pose proof (total_size_nonneg r Hr) as HTr.
  pose proof (total_items_nonneg l Hl) as HNl. pose proof (total_items_nonneg r Hr) as HNr.
  pose proof (to_guint_is_guint y) as Huy.
  rewrite total_size_node in Hy |- *. rewrite total_items_node in Hn |- *.
  assert (Hc0' := Hc0). destruct Hc0' as [Hc0n Hc0s].
  assert (HLs : total_size l < guint_modulus) by range_solve.
  assert (HLn : total_items l < guint_modulus) by range_solve.
  pose proof (get_augment_left l Hvl Hl HLs HLn) as Hla.
  cbn [cell_at_y_loop].
  assert (E1 : forall y1 pos1,
             y1 = to_gint (y - total_size l) -> pos1 = pos0 + total_items l ->
             (if to_guint y1 <? size c0
              then (Some ([] : Handle, c0), y1, pos1)
              else
                let '(res, y', pos') :=
                  cell_at_y_loop r (to_gint (to_guint y1 - size c0))
                                 (to_guint (pos1 + n_items c0)) in
                (option_map (fun hc => (R :: fst hc, snd hc)) res, y', pos'))
             = (None, to_gint (y - (total_size l + size c0 + total_size r)),
                pos0 + (total_items l + n_items c0 + total_items r))).
  { intros y1 pos1 -> ->.
    rewrite to_guint_to_gint, to_guint_sub by range_solve.
    destruct (Z.ltb_spec (to_guint y - total_size l) (size c0)); [range_solve|].
    rewrite (to_guint_small (pos0 + total_items l + n_items c0)) by range_solve.
    set (y' := to_gint (to_guint y - total_size l - size c0)).
    assert (Ey' : to_guint y' = to_guint y - total_size l - size c0).
    { unfold y'. rewrite to_guint_to_gint. apply to_guint_small. range_solve. }
    rewrite (IHr y'); try assumption; try range_solve.
    - simpl. f_equal; [|lia]. f_equal. unfold y'.
      rewrite to_gint_sub_gint.
      replace (to_guint y - total_size l - size c0 - total_size r)
        with (to_guint y - (total_size l + size c0 + total_size r)) by lia.
      apply to_gint_sub_guint.
    - apply to_gint_is_gint. }
  destruct (gtk_rb_tree_get_augment l) as [la|]; destruct Hla as [Es En].
  - rewrite Es, En.
    destruct (Z.ltb_spec (to_guint y) (total_size l)); [range_solve|].
    apply E1.
    + apply to_gint_sub_guint.
    + rewrite to_guint_small by range_solve. reflexivity.
  - apply E1.
    + rewrite Es, Z.sub_0_r. symmetry. now apply to_gint_small.
    + lia.
Qed.

(** Every offset inside the content lies in the extent of some run. *)
Lemma run_at_offset (t : GtkRbTree) :
  forall y : Z,
    cells_ok t -> 0 <= y < total_size t ->
    exists (h : Handle) (c : Cell),
      gtk_rb_tree_node t h = Some c /\
      size_before t h <= y < size_before t h + size c.
Proof.
  induction t as [|l IHl c0 a d r IHr]; intros y Hok Hy.
  { unfold total_size in Hy. simpl in Hy. lia. }
  apply cells_ok_node in Hok. destruct Hok as (Hl & Hc0 & Hr).
  rewrite total_size_node in Hy.
  pose proof (total_size_nonneg l Hl) as HTl.
  destruct (Z.lt_ge_cases y (total_size l)) as [H1|H1].
  - destruct (IHl y Hl) as (h & c & Hn & Hext); [lia|].
    exists (L :: h), c. simpl. auto.
  - destruct (Z.lt_ge_cases y (total_size l + size c0)) as [H2|H2].
    + exists [], c0. simpl. split; [reflexivity|lia].
    + destruct (IHr (y - total_size l - size c0) Hr) as (h & c & Hn & Hext); [lia|].
      exists (R :: h), c. simpl. split; [assumption|lia].
Qed.

Section Offsets.

Variable self : GtkGridView.

Hypothesis Hvalid : cache_valid (item_manager self).
Hypothesis Hcells : cells_ok (item_manager self).
Hypothesis Hitems : total_items (item_manager self) < guint_modulus.
Hypothesis Hsize : total_size (item_manager self) < gint_half.

(** X1.  An offset below zero or not below the total size finds nothing:
    [gtk_grid_view_get_cell_at_y] returns [NULL] and zeroes the three
    out-parameters, whatever the column count and the unknown row height
    are. *)
Theorem get_cell_at_y_outside (y : Z) :
  is_gint y ->
  y < 0 \/ total_size (item_manager self) <= y ->
  gtk_grid_view_get_cell_at_y self y = Some cell_not_found.
Proof.
  intros Hy Hout. unfold gtk_grid_view_get_cell_at_y.
  rewrite cell_at_y_loop_runs_off; try assumption; try lia.
  - reflexivity.
  - destruct Hout as [Hneg|Hge].
    + rewrite to_guint_negative by range_solve. range_solve.
    + pose proof (total_size_nonneg _ Hcells).
      rewrite to_guint_small by range_solve. assumption.
Qed.

(** X2.  An offset inside the content, with a column count and a positive
    unknown row height, finds the run whose extent holds it; the offset
    reported lies between 0 and the distance of [y] from the start of that
    run, and inside the row reported: it is below the size reported. *)
Theorem get_cell_at_y_inside (y : Z) :
  1 <= n_columns self -> 0 < unknown_row_height self ->
  0 <= y < total_size (item_manager self) ->
  exists (cy : CellAtY) (h : Handle) (c : Cell),
    gtk_grid_view_get_cell_at_y self y = Some cy /\
    cy_cell cy = Some h /\
    gtk_rb_tree_node (item_manager self) h = Some c /\
    size_before (item_manager self) h <= y
    < size_before (item_manager self) h + size c /\
    0 <= cy_offset cy <= y - size_before (item_manager self) h /\
    cy_offset cy < cy_size cy.
Proof.
  intros Hcols Hurh Hy.
  destruct (run_at_offset (item_manager self) y Hcells Hy) as (h & c & Hn & Hext).
  pose proof (node_bounds _ _ _ Hcells Hn) as (Hc & Hsb0 & Hsb1 & Hib0 & Hib1).
  set (delta := y - size_before (item_manager self) h).
  assert (Hdelta : 0 <= delta < size c) by (unfold delta; lia).
  unfold gtk_grid_view_get_cell_at_y.
  replace y with (size_before (item_manager self) h + delta) by (unfold delta; lia).
  rewrite (cell_at_y_loop_finds (item_manager self) h c delta 0)
    by (assumption || range_solve).
  unfold umod, udiv, sdiv.
  destruct (Z.eqb_spec (n_columns self) 0) as [|_]; [lia|].
  destruct (Z.eqb_spec (unknown_row_height self) 0) as [|_]; [lia|].
  destruct (Z.eqb_spec delta (- gint_half)) as [|_]; [range_solve|].
  cbn [bind andb].
  destruct (if negb _ then _ else _) as [n pos].
  cbn [bind].
  eexists. exists h, c. split; [reflexivity|]. cbn [cy_cell cy_offset cy_size].
  split; [reflexivity|]. split; [exact Hn|].
  split; [lia|].
  rewrite Z.quot_div_nonneg by lia.
  assert (Hq : 0 <= delta / unknown_row_height self <= delta).
  { split; [apply Z.div_pos; lia|]. apply Z.div_le_upper_bound; nia. }
  rewrite (to_guint_small (delta / _)) by range_solve.
  pose proof (to_guint_is_guint (n - 1)) as Hn1. unfold is_guint in Hn1.
  assert (Hw : 0 <= to_guint (n - 1) / n_columns self) by (apply Z.div_pos; lia).
  rewrite MIN_spec.
  set (rows := to_guint (n - 1) / n_columns self) in *.
  set (skip := Z.min (delta / unknown_row_height self) rows).
  assert (Hskip : 0 <= skip <= delta / unknown_row_height self) by (unfold skip; lia).
  assert (Hmul : 0 <= skip * unknown_row_height self <= delta).
  { pose proof (Z.mul_div_le delta (unknown_row_height self)). nia. }
  rewrite !to_guint_mul_r.
  rewrite (to_guint_small (skip * _)) by range_solve.
  rewrite (to_guint_small delta) by range_solve.
  rewrite (to_gint_small (delta - _)) by range_solve.
  split; [lia|].
  destruct (Z.ltb_spec skip rows) as [Hlt|Hge].
  - assert (Eskip : skip = delta / unknown_row_height self) by (unfold skip; lia).
    rewrite Eskip.
    pose proof (Z.mod_pos_bound delta (unknown_row_height self) Hurh).
    pose proof (Z.div_mod delta (unknown_row_height self) ltac:(lia)). nia.
  - assert (Eskip : skip = rows) by (unfold skip; lia).
    rewrite <- Eskip.
    rewrite (to_guint_small (skip * _)) by range_solve.
    rewrite to_gint_small by range_solve. lia.
Qed.

(** X3.  With an unknown row height of 0, or without a column count, an
    offset inside the content makes [gtk_grid_view_get_cell_at_y] divide
    by zero. *)
Theorem get_cell_at_y_divides_by_zero (y : Z) :
  n_columns self = 0 \/ unknown_row_height self = 0 ->
  0 <= y < total_size (item_manager self) ->
  gtk_grid_view_get_cell_at_y self y = None.
Proof.
  intros Hzero Hy.
  destruct (run_at_offset (item_manager self) y Hcells Hy) as (h & c & Hn & Hext).
  pose proof (node_bounds _ _ _ Hcells Hn) as (Hc & Hsb0 & Hsb1 & Hib0 & Hib1).
  set (delta := y - size_before (item_manager self) h).
  assert (Hdelta : 0 <= delta < size c) by (unfold delta; lia).
  unfold gtk_grid_view_get_cell_at_y.
  replace y with (size_before (item_manager self) h + delta) by (unfold delta; lia).
  rewrite (cell_at_y_loop_finds (item_manager self) h c delta 0)
    by (assumption || range_solve).
  unfold umod, udiv, sdiv.
  destruct (Z.eqb_spec (n_columns self) 0) as [|Hc0]; [reflexivity|].
  destruct Hzero as [|Hu]; [contradiction|].
  rewrite Hu. cbn [bind Z.eqb].
  destruct (if negb _ then _ else _) as [n pos]. reflexivity.
Qed.

(** X4.  With a column count, [gtk_grid_view_get_size_at_position]
    returns [TRUE] exactly when the first item of the row of [position]
    exists, that is when [position - position % n_columns] is below the
    number of items. *)
Theorem get_size_at_position_found_iff (position : Z) :
  1 <= n_columns self -> is_guint position ->
  exists sp : SizeAtPosition,
    gtk_grid_view_get_size_at_position self position = Some sp /\
    sp_found sp
    = (position - position mod n_columns self <? total_items (item_manager self)).
Proof.
  intros Hcols Hp.
  pose proof (Z.mod_pos_bound position (n_columns self)) as Hmod.
  pose proof (Z.mod_le position (n_columns self)) as Hle.
  pose proof (total_size_nonneg _ Hcells) as HT.
  unfold is_guint in Hp.
  unfold gtk_grid_view_get_size_at_position, umod, udiv.
  destruct (Z.eqb_spec (n_columns self) 0) as [|_]; [lia|]. cbn [bind].
  rewrite to_guint_small by (unfold is_guint; lia).
  destruct (Z.ltb_spec (position - position mod n_columns self)
                       (total_items (item_manager self))) as [Hlt|Hge].
  - destruct (size_at_position_loop_finds (item_manager self)
                (position - position mod n_columns self) 0)
      as (h & c & Eloop & _); try assumption; try lia.
    rewrite Eloop. cbn [bind].
    destruct (if negb _ then _ else _) as [n pos]. cbn [bind].
    eexists. split; reflexivity.
  - rewrite size_at_position_loop_misses by (assumption || lia).
    eexists. split; reflexivity.
Qed.

Hypothesis Hcols : 1 <= n_columns self.
Hypothesis Hrows : positive_row_sizes self.

(** X5.  With positive row sizes, the row reported for an existing
    position lies inside the content: its offset is not negative, its
    size is positive, and it ends at or before the total size. *)
Theorem get_size_at_position_extent (position : Z) :
  0 <= position < total_items (item_manager self) ->
  exists sp : SizeAtPosition,
    gtk_grid_view_get_size_at_position self position = Some sp /\
    sp_found sp = true /\
    0 <= sp_offset sp /\ 0 < sp_size sp /\
    sp_offset sp + sp_size sp <= total_size (item_manager self).
Proof.
  intros Hp. set (q := position - position mod n_columns self).
  assert (Hmod : 0 <= position mod n_columns self < n_columns self)
    by (apply Z.mod_pos_bound; lia).
  assert (Hmodle : position mod n_columns self <= position) by (apply Z.mod_le; lia).
  assert (Hq : 0 <= q < total_items (item_manager self)) by (unfold q; lia).
  assert (Hq0 : q mod n_columns self = 0).
  { unfold q. rewrite Zminus_mod, Z.mod_mod, Z.sub_diag by lia. apply Z.mod_0_l. lia. }
  destruct (size_at_position_loop_finds (item_manager self) q 0)
    as (h & c & Eloop & Hnode & Hcov); try assumption; try lia.
  pose proof (node_bounds _ _ _ Hcells Hnode) as (Hc & Hsb0 & Hsb1 & Hib0 & Hib1).
  destruct Hrows as [Hurh Hall].
  pose proof (proj1 (Forall_forall _ _) Hall _ (runs_node _ _ _ Hnode)) as Hrun.
  unfold run_rows_positive in Hrun. cbn [fst snd] in Hrun.
  destruct (row_in_run _ _ _ _ _ _ Hcols Hq0 Hcov Hurh Hrun)
    as (Erem & Ediv & Hskip0 & Hskip1 & Hoff).
  unfold gtk_grid_view_get_size_at_position, umod, udiv.
  destruct (Z.eqb_spec (n_columns self) 0) as [|_]; [lia|].
  cbn [bind]. fold q.
  rewrite (to_guint_small q) by range_solve.
  rewrite Eloop. cbn [bind].
  set (loc := q - items_before (item_manager self) h) in *.
  assert (Hloc : 0 <= loc < n_items c) by (unfold loc; lia).
  assert (Hrem : 0 <= loc mod n_columns self <= loc)
    by (split; [apply Z.mod_pos_bound; lia | apply Z.mod_le; lia]).
  assert (Epos : (if negb (loc mod n_columns self =? 0)
                  then (to_guint (n_items c - loc mod n_columns self),
                        to_guint (loc - loc mod n_columns self))
                  else (n_items c, loc))
                 = (n_items c - loc mod n_columns self, loc - loc mod n_columns self)).
  { destruct Hc as [Hcn _].
    destruct (Z.eqb_spec (loc mod n_columns self) 0) as [E|E]; cbn [negb].
    - rewrite E, !Z.sub_0_r. reflexivity.
    - rewrite !to_guint_small by range_solve. reflexivity. }
  rewrite Epos, Ediv.
  set (skip := loc / n_columns self) in *.
  assert (Eskip : skip * n_columns self = loc - loc mod n_columns self).
  { pose proof (Z.div_mod loc (n_columns self)). unfold skip. lia. }
  eexists. split; [reflexivity|]. cbn [sp_found sp_offset sp_size].
  split; [reflexivity|].
  rewrite Z.add_0_l, to_guint_mul_r.
  rewrite (to_guint_small (size_before _ _)) by range_solve.
  rewrite (to_guint_small (skip * unknown_row_height self)) by range_solve.
  rewrite (to_gint_small (_ + _)) by range_solve.
  rewrite (to_guint_small (skip * n_columns self)) by (destruct Hc; range_solve).
  rewrite (to_guint_small (_ - _ - _)) by (destruct Hc; range_solve).
  split; [lia|].
  destruct (Z.gtb_spec (n_items c - loc mod n_columns self - skip * n_columns self)
                       (n_columns self)) as [Hmore|Hlast].
  - split; [lia|].
    assert (Hnext : skip + 1 <= (n_items c - (- items_before (item_manager self) h)
                                             mod n_columns self - 1) / n_columns self).
    { apply Z.div_le_lower_bound; [lia|]. rewrite <- Erem. lia. }
    assert (unknown_row_height self * (skip + 1)
            <= (n_items c - (- items_before (item_manager self) h)
                              mod n_columns self - 1) / n_columns self
               * unknown_row_height self) by nia.
    assert ((n_items c - (- items_before (item_manager self) h)
                              mod n_columns self - 1) / n_columns self
               * unknown_row_height self < size c).
    { apply Hrun. rewrite <- Erem. lia. }
    lia.
  - rewrite (to_gint_small (_ - _)) by (destruct Hc; range_solve). lia.
Qed.

End Offsets.

(** X6.  All positions of a row get the same answer from
    [gtk_grid_view_get_size_at_position]. *)
Theorem get_size_at_position_same_row (self : GtkGridView) (p p' : Z) :
  p / n_columns self = p' / n_columns self ->
  gtk_grid_view_get_size_at_position self p
  = gtk_grid_view_get_size_at_position self p'.
Proof.
  intros Hrow.
  destruct (Z.eq_dec (n_columns self) 0) as [Hz|Hnz].
  - unfold gtk_grid_view_get_size_at_position, umod. rewrite Hz. reflexivity.
  - rewrite (get_size_at_position_snaps self p), (get_size_at_position_snaps self p').
    f_equal.
    pose proof (Z.div_mod p (n_columns self) Hnz).
    pose proof (Z.div_mod p' (n_columns self) Hnz).
    rewrite Hrow in *. lia.
Qed.

(* ================================================================== *)
(** ** Row-height estimator: order and membership *)

Lemma sorted_permutation_unique (l1 l2 : list Z) :
  StronglySorted Z.le l1 -> StronglySorted Z.le l2 -> Permutation l1 l2 ->
  l1 = l2.
Proof.
  revert l2. induction l1 as [|a l1 IH]; intros l2 H1 H2 Hp.
  - apply Permutation_nil in Hp. now subst.
  - destruct l2 as [|b l2].
    { apply Permutation_sym, Permutation_nil in Hp. discriminate. }
    inversion H1 as [|? ? Hs1 Ha]; subst.
    inversion H2 as [|? ? Hs2 Hb]; subst.
    assert (Hab : a = b).
    { assert (Hin1 : In a (b :: l2))
        by (apply (Permutation_in _ Hp); now left).
      assert (Hin2 : In b (a :: l1))
        by (apply (Permutation_in _ (Permutation_sym Hp)); now left).
      rewrite Forall_forall in Ha, Hb.
      destruct Hin1 as [->|Hin1]; [reflexivity|].
      destruct Hin2 as [->|Hin2]; [reflexivity|].
      specialize (Ha _ Hin2). specialize (Hb _ Hin1). lia. }
    subst b. f_equal. apply IH; try assumption.
    now apply Permutation_cons_inv in Hp.
Qed.

Lemma g_array_sort_strongly_sorted (l : list Z) :
  Forall measured l -> StronglySorted Z.le (g_array_sort compare_ints l).
Proof.
  intros Hl. apply Sorted_StronglySorted.
  - intros x y z. apply Z.le_trans.
  - now apply g_array_sort_sorted.
Qed.

(** X7.  The estimate does not depend on the order in which the heights
    were collected. *)
Theorem unknown_row_size_order_independent (heights heights' : list Z) :
  Forall measured heights -> Permutation heights heights' ->
  gtk_grid_view_get_unknown_row_size heights
  = gtk_grid_view_get_unknown_row_size heights'.
Proof.
  intros Hm Hp.
  assert (Hm' : Forall measured heights') by (apply (Permutation_Forall Hp Hm)).
  assert (Es : g_array_sort compare_ints heights = g_array_sort compare_ints heights').
  { apply sorted_permutation_unique; try now apply g_array_sort_strongly_sorted.
    eapply perm_trans; [apply Permutation_sym, g_array_sort_perm|].
    eapply perm_trans; [exact Hp|]. apply g_array_sort_perm. }
  unfold gtk_grid_view_get_unknown_row_size.
  destruct heights as [|h hs], heights' as [|h' hs'].
  - reflexivity.
  - apply Permutation_nil in Hp. discriminate.
  - apply Permutation_sym, Permutation_nil in Hp. discriminate.
  - rewrite Es, (Permutation_length Hp). reflexivity.
Qed.


(* ================================================================== *)
(** ** Column solver: growth and fit *)

(** X9.  Between ordered bounds, a larger available size never gives fewer
    columns. *)
Theorem compute_n_columns_monotone
    (self : GtkGridView) (for_size for_size' min nat : Z) :
  is_gint min -> is_gint nat ->
  min_columns self <= max_columns self ->
  0 <= for_size <= for_size' ->
  exists n n' : Z,
    gtk_grid_view_compute_n_columns self for_size min nat = Some n /\
    gtk_grid_view_compute_n_columns self for_size' min nat = Some n' /\
    n <= n'.
Proof.
  intros Hmin Hnat Hord Hsz.
  rewrite !compute_n_columns_contract by assumption.
  eexists. eexists. split; [reflexivity|]. split; [reflexivity|].
  unfold compute_columns. rewrite !clamp_ordered by assumption.
  assert (Hdiv : forall m, 1 <= m -> for_size / m <= for_size' / m)
    by (intros m Hm; apply Z.div_le_mono; lia).
  destruct (scroll_policy self _).
  - specialize (Hdiv (Z.max 1 min)). lia.
  - specialize (Hdiv (Z.max 1 nat)). lia.
Qed.

(** X10.  With both column bounds at least 1, step 1 of the layout pass
    yields at least one column, a column width that is neither below the
    measured minimum nor below the share [available / n_columns], and
    columns that fit the available size unless the measured minimum
    forces them wider. *)
Theorem size_allocate_columns_fit
    (self : GtkGridView) (available_size measured_min measured_nat : Z) :
  0 <= available_size < gint_half ->
  is_gint measured_min -> is_gint measured_nat ->
  1 <= min_columns self -> 1 <= max_columns self ->
  exists n w : Z,
    gtk_grid_view_size_allocate_columns self available_size measured_min measured_nat
    = Some (n, w) /\
    1 <= n /\ measured_min <= w /\ available_size / n <= w /\
    (measured_min <= available_size / n -> n * w <= available_size).
Proof.
  intros Hav Hmin Hnat Hlo Hhi.
  unfold gtk_grid_view_size_allocate_columns.
  rewrite to_guint_small
    by (unfold is_guint; rewrite guint_modulus_eq; rewrite gint_half_eq in Hav; lia).
  rewrite compute_n_columns_contract by assumption. cbn [bind].
  set (n := compute_columns _ _ _ _ _ _).
  assert (Hn : 1 <= n).
  { unfold n, compute_columns, clamp.
    match goal with
    | |- 1 <= (if _ <? ?q then _ else _) =>
        destruct (Z.ltb_spec (max_columns self) q); [lia|];
        destruct (Z.ltb_spec q (min_columns self)); lia
    end. }
  unfold udiv. destruct (Z.eqb_spec n 0); [lia|]. cbn [bind].
  exists n, (MAX (available_size / n) measured_min).
  rewrite MAX_spec. split; [reflexivity|].
  pose proof (Z.mul_div_le available_size n).
  repeat split; lia.
Qed.

(* ================================================================== *)
(** ** Measuring the columns *)

Lemma measure_column_fold (opposite : GtkOrientation) (cs : list Cell) :
  forall acc : Z * Z,
    let res :=
      fold_left
        (fun (acc : Z * Z) (c : Cell) =>
           match widget c with
           | None => acc
           | Some w =>
               let '(child_min, child_nat) := gtk_widget_measure w opposite (-1) in
               (MAX (fst acc) child_min, MAX (snd acc) child_nat)
           end) cs acc in
    fst acc <= fst res /\ snd acc <= snd res /\
    (forall c w, In c cs -> widget c = Some w ->
                 fst (gtk_widget_measure w opposite (-1)) <= fst res /\
                 snd (gtk_widget_measure w opposite (-1)) <= snd res) /\
    (fst res = fst acc \/
     exists c w, In c cs /\ widget c = Some w /\
                 fst (gtk_widget_measure w opposite (-1)) = fst res) /\
    (snd res = snd acc \/
     exists c w, In c cs /\ widget c = Some w /\
                 snd (gtk_widget_measure w opposite (-1)) = snd res).
Proof.
  induction cs as [|c cs IH]; intros acc; cbn [fold_left].
  - split; [lia|]. split; [lia|]. split; [intros c w []|].
    split; now left.
  - set (acc' := match widget c with
                 | None => acc
                 | Some w =>
                     let '(child_min, child_nat) := gtk_widget_measure w opposite (-1) in
                     (MAX (fst acc) child_min, MAX (snd acc) child_nat)
                 end).
    specialize (IH acc'). cbv zeta in IH |- *.
    destruct IH as (IH1 & IH2 & IH3 & IH4 & IH5).
    assert (Hacc : fst acc <= fst acc' /\ snd acc <= snd acc' /\
                   (forall w, widget c = Some w ->
                      fst (gtk_widget_measure w opposite (-1)) <= fst acc' /\
                      snd (gtk_widget_measure w opposite (-1)) <= snd acc' /\
                      (fst acc' = fst acc \/
                       fst (gtk_widget_measure w opposite (-1)) = fst acc') /\
                      (snd acc' = snd acc \/
                       snd (gtk_widget_measure w opposite (-1)) = snd acc')) /\
                   (widget c = None -> acc' = acc)).
    { unfold acc'. destruct (widget c) as [w|].
      - destruct (gtk_widget_measure w opposite (-1)) as [cm cn] eqn:E.
        cbn [fst snd]. rewrite !MAX_spec.
        split; [lia|]. split; [lia|]. split; [|discriminate].
        intros w' [= <-]. rewrite E. cbn [fst snd]. lia.
      - split; [lia|]. split; [lia|]. split; [discriminate|reflexivity]. }
    destruct Hacc as (Ha1 & Ha2 & Ha3 & Ha4).
    split; [lia|]. split; [lia|]. split; [|split].
    + intros c' w [<-|Hin] Hw.
      * destruct (Ha3 w Hw) as (? & ? & _). lia.
      * apply (IH3 c' w Hin Hw).
    + destruct IH4 as [E|(c' & w & Hin & Hw & E)].
      * destruct (widget c) as [w|] eqn:Hw.
        -- destruct (Ha3 w eq_refl) as (_ & _ & [E'|E'] & _).
           ++ left. lia.
           ++ right. exists c, w. split; [now left|]. split; [assumption|lia].
        -- left. rewrite E, (Ha4 eq_refl). reflexivity.
      * right. exists c', w. split; [now right|]. auto.
    + destruct IH5 as [E|(c' & w & Hin & Hw & E)].
      * destruct (widget c) as [w|] eqn:Hw.
        -- destruct (Ha3 w eq_refl) as (_ & _ & _ & [E'|E']).
           ++ left. lia.
           ++ right. exists c, w. split; [now left|]. split; [assumption|lia].
        -- left. rewrite E, (Ha4 eq_refl). reflexivity.
      * right. exists c', w. split; [now right|]. auto.
Qed.

(** X11.  The measured column size is never negative, is at least what
    every realized cell reports across the grid, and is either 0 or what
    one of them reports: the largest report, or 0 when nothing is realized
    or all reports are negative. *)
Theorem measure_column_size_is_largest (self : GtkGridView) :
  let opposite := OPPOSITE_ORIENTATION (orientation self) in
  let col_min := fst (gtk_grid_view_measure_column_size self) in
  let col_nat := snd (gtk_grid_view_measure_column_size self) in
  0 <= col_min /\ 0 <= col_nat /\
  (forall c w, In c (cells (item_manager self)) -> widget c = Some w ->
               fst (gtk_widget_measure w opposite (-1)) <= col_min /\
               snd (gtk_widget_measure w opposite (-1)) <= col_nat) /\
  (col_min = 0 \/
   exists c w, In c (cells (item_manager self)) /\ widget c = Some w /\
               fst (gtk_widget_measure w opposite (-1)) = col_min) /\
  (col_nat = 0 \/
   exists c w, In c (cells (item_manager self)) /\ widget c = Some w /\
               snd (gtk_widget_measure w opposite (-1)) = col_nat).
Proof.
  intros opposite col_min col_nat.
  exact (measure_column_fold opposite (cells (item_manager self)) (0, 0)).
Qed.


(* ================================================================== *)
(** ** Instances on the example grids *)

Lemma zero_median_view_layout :
  gtk_grid_view_size_allocate zero_median_start 60 = Some zero_median_view /\
  n_columns zero_median_view = 1 /\
  unknown_row_height zero_median_view = 0 /\
  map size (cells (item_manager zero_median_view)) = [0; 0; 5].
Proof. repeat split. Qed.

Lemma zero_median_view_valid :
  cache_valid (item_manager zero_median_view) /\
  cells_ok (item_manager zero_median_view).
Proof.
  split.
  - vm_compute. repeat split; reflexivity || discriminate.
  - unfold cells_ok.
    let cs := eval vm_compute in (cells (item_manager zero_median_view)) in
    change (cells (item_manager zero_median_view)) with cs.
    repeat (apply Forall_cons;
            [split; unfold is_guint; rewrite guint_modulus_eq; simpl; lia|]).
    apply Forall_nil.
Qed.

Lemma get_cell_at_y_outside_witness :
  cache_valid (item_manager staggered_view) /\
  cells_ok (item_manager staggered_view) /\
  total_items (item_manager staggered_view) < guint_modulus /\
  total_size (item_manager staggered_view) < gint_half /\
  is_gint (-1) /\
  (-1 < 0 \/ total_size (item_manager staggered_view) <= -1) /\
  gtk_grid_view_get_cell_at_y staggered_view (-1) = Some cell_not_found.
Proof.
  assert (H1 := proj1 staggered_view_valid).
  assert (H2 := proj2 staggered_view_valid).
  assert (H3 : total_items (item_manager staggered_view) < guint_modulus)
    by reflexivity.
  assert (H4 : total_size (item_manager staggered_view) < gint_half)
    by reflexivity.
  assert (H5 : is_gint (-1)) by (unfold is_gint; rewrite gint_half_eq; lia).
  assert (H6 : -1 < 0 \/ total_size (item_manager staggered_view) <= -1)
    by (left; lia).
  split; [exact H1|]. split; [exact H2|]. split; [exact H3|]. split; [exact H4|].
  split; [exact H5|]. split; [exact H6|].
  exact (get_cell_at_y_outside staggered_view H1 H2 H3 H4 (-1) H5 H6).
Defined.

Lemma get_cell_at_y_inside_witness :
  cache_valid (item_manager staggered_view) /\
  cells_ok (item_manager staggered_view) /\
  total_items (item_manager staggered_view) < guint_modulus /\
  total_size (item_manager staggered_view) < gint_half /\
  1 <= n_columns staggered_view /\
  0 < unknown_row_height staggered_view /\
  0 <= 34 < total_size (item_manager staggered_view) /\
  exists (cy : CellAtY) (h : Handle) (c : Cell),
    gtk_grid_view_get_cell_at_y staggered_view 34 = Some cy /\
    cy_cell cy = Some h /\
    gtk_rb_tree_node (item_manager staggered_view) h = Some c /\
    size_before (item_manager staggered_view) h <= 34
    < size_before (item_manager staggered_view) h + size c /\
    0 <= cy_offset cy <= 34 - size_before (item_manager staggered_view) h /\
    cy_offset cy < cy_size cy.
Proof.
  assert (H1 := proj1 staggered_view_valid).
  assert (H2 := proj2 staggered_view_valid).
  assert (H3 : total_items (item_manager staggered_view) < guint_modulus)
    by reflexivity.
  assert (H4 : total_size (item_manager staggered_view) < gint_half)
    by reflexivity.
  assert (H5 : 1 <= n_columns staggered_view) by (vm_compute; discriminate).
  assert (H6 : 0 < unknown_row_height staggered_view) by reflexivity.
  assert (H7 : 0 <= 34 < total_size (item_manager staggered_view))
    by (split; [discriminate | reflexivity]).
  split; [exact H1|]. split; [exact H2|]. split; [exact H3|]. split; [exact H4|].
  split; [exact H5|]. split; [exact H6|]. split; [exact H7|].
  exact (get_cell_at_y_inside staggered_view H1 H2 H3 H4 34 H5 H6 H7).
Defined.

Lemma get_cell_at_y_divides_by_zero_witness :
  cache_valid (item_manager zero_median_view) /\
  cells_ok (item_manager zero_median_view) /\
  total_items (item_manager zero_median_view) < guint_modulus /\
  total_size (item_manager zero_median_view) < gint_half /\
  (n_columns zero_median_view = 0 \/ unknown_row_height zero_median_view = 0) /\
  0 <= 2 < total_size (item_manager zero_median_view) /\
  gtk_grid_view_get_cell_at_y zero_median_view 2 = None.
Proof.
  assert (H1 := proj1 zero_median_view_valid).
  assert (H2 := proj2 zero_median_view_valid).
  assert (H3 : total_items (item_manager zero_median_view) < guint_modulus)
    by reflexivity.
  assert (H4 : total_size (item_manager zero_median_view) < gint_half)
    by reflexivity.
  assert (H5 : n_columns zero_median_view = 0 \/ unknown_row_height zero_median_view = 0)
    by (right; reflexivity).
  assert (H6 : 0 <= 2 < total_size (item_manager zero_median_view))
    by (split; [discriminate | reflexivity]).
  split; [exact H1|]. split; [exact H2|]. split; [exact H3|]. split; [exact H4|].
  split; [exact H5|]. split; [exact H6|].
  exact (get_cell_at_y_divides_by_zero zero_median_view H1 H2 H3 H4 2 H5 H6).
Defined.

Lemma get_size_at_position_found_iff_witness :
  cache_valid (item_manager staggered_view) /\
  cells_ok (item_manager staggered_view) /\
  total_items (item_manager staggered_view) < guint_modulus /\
  total_size (item_manager staggered_view) < gint_half /\
  1 <= n_columns staggered_view /\
  is_guint 12 /\
  exists sp : SizeAtPosition,
    gtk_grid_view_get_size_at_position staggered_view 12 = Some sp /\
    sp_found sp
    = (12 - 12 mod n_columns staggered_view
       <? total_items (item_manager staggered_view)).
Proof.
  assert (H1 := proj1 staggered_view_valid).
  assert (H2 := proj2 staggered_view_valid).
  assert (H3 : total_items (item_manager staggered_view) < guint_modulus)
    by reflexivity.
  assert (H4 : total_size (item_manager staggered_view) < gint_half)
    by reflexivity.
  assert (H5 : 1 <= n_columns staggered_view) by (vm_compute; discriminate).
  assert (H6 : is_guint 12) by (unfold is_guint; rewrite guint_modulus_eq; lia).
  split; [exact H1|]. split; [exact H2|]. split; [exact H3|]. split; [exact H4|].
  split; [exact H5|]. split; [exact H6|].
  exact (get_size_at_position_found_iff staggered_view H1 H2 H3 H4 12 H5 H6).
Defined.

Lemma get_size_at_position_extent_witness :
  cache_valid (item_manager staggered_view) /\
  cells_ok (item_manager staggered_view) /\
  total_items (item_manager staggered_view) < guint_modulus /\
  total_size (item_manager staggered_view) < gint_half /\
  1 <= n_columns staggered_view /\
  positive_row_sizes staggered_view /\
  0 <= 7 < total_items (item_manager staggered_view) /\
  exists sp : SizeAtPosition,
    gtk_grid_view_get_size_at_position staggered_view 7 = Some sp /\
    sp_found sp = true /\
    0 <= sp_offset sp /\ 0 < sp_size sp /\
    sp_offset sp + sp_size sp <= total_size (item_manager staggered_view).
Proof.
  assert (H1 := proj1 staggered_view_valid).
  assert (H2 := proj2 staggered_view_valid).
  assert (H3 : total_items (item_manager staggered_view) < guint_modulus)
    by reflexivity.
  assert (H4 : total_size (item_manager staggered_view) < gint_half)
    by reflexivity.
  assert (H5 : 1 <= n_columns staggered_view) by (vm_compute; discriminate).
  assert (H6 := staggered_view_rows).
  assert (H7 : 0 <= 7 < total_items (item_manager staggered_view))
    by (split; [discriminate | reflexivity]).
  split; [exact H1|]. split; [exact H2|]. split; [exact H3|]. split; [exact H4|].
  split; [exact H5|]. split; [exact H6|]. split; [exact H7|].
  exact (get_size_at_position_extent staggered_view H1 H2 H3 H4 H5 H6 7 H7).
Defined.

Lemma get_size_at_position_same_row_witness :
  7 / n_columns staggered_view = 8 / n_columns staggered_view /\
  gtk_grid_view_get_size_at_position staggered_view 7
  = gtk_grid_view_get_size_at_position staggered_view 8.
Proof.
  assert (H1 : 7 / n_columns staggered_view = 8 / n_columns staggered_view)
    by reflexivity.
  split; [exact H1|].
  exact (get_size_at_position_same_row staggered_view 7 8 H1).
Defined.

Lemma unknown_row_size_order_independent_witness :
  Forall measured [10; 4; 4; 4] /\ Permutation [10; 4; 4; 4] [4; 10; 4; 4] /\
  gtk_grid_view_get_unknown_row_size [10; 4; 4; 4]
  = gtk_grid_view_get_unknown_row_size [4; 10; 4; 4].
Proof.
  assert (H1 : Forall measured [10; 4; 4; 4]).
  { repeat (apply Forall_cons; [unfold measured; rewrite gint_half_eq; lia|]).
    apply Forall_nil. }
  assert (H2 : Permutation [10; 4; 4; 4] [4; 10; 4; 4]) by apply perm_swap.
  split; [exact H1|]. split; [exact H2|].
  exact (unknown_row_size_order_independent [10; 4; 4; 4] [4; 10; 4; 4] H1 H2).
Defined.


Lemma compute_n_columns_monotone_witness :
  is_gint 20 /\ is_gint 34 /\
  min_columns example_columns_view <= max_columns example_columns_view /\
  0 <= 60 <= 100 /\
  exists n n' : Z,
    gtk_grid_view_compute_n_columns example_columns_view 60 20 34 = Some n /\
    gtk_grid_view_compute_n_columns example_columns_view 100 20 34 = Some n' /\
    n <= n'.
Proof.
  assert (H1 : is_gint 20) by (unfold is_gint; rewrite gint_half_eq; lia).
  assert (H2 : is_gint 34) by (unfold is_gint; rewrite gint_half_eq; lia).
  assert (H3 : min_columns example_columns_view <= max_columns example_columns_view)
    by (vm_compute; discriminate).
  assert (H4 : 0 <= 60 <= 100) by lia.
  split; [exact H1|]. split; [exact H2|]. split; [exact H3|]. split; [exact H4|].
  exact (compute_n_columns_monotone example_columns_view 60 100 20 34 H1 H2 H3 H4).
Defined.

Lemma size_allocate_columns_fit_witness :
  0 <= 100 < gint_half /\ is_gint 20 /\ is_gint 34 /\
  1 <= min_columns example_columns_view /\
  1 <= max_columns example_columns_view /\
  exists n w : Z,
    gtk_grid_view_size_allocate_columns example_columns_view 100 20 34
    = Some (n, w) /\
    1 <= n /\ 20 <= w /\ 100 / n <= w /\
    (20 <= 100 / n -> n * w <= 100).
Proof.
  assert (H0 : 0 <= 100 < gint_half) by (rewrite gint_half_eq; lia).
  assert (H1 : is_gint 20) by (unfold is_gint; rewrite gint_half_eq; lia).
  assert (H2 : is_gint 34) by (unfold is_gint; rewrite gint_half_eq; lia).
  assert (H3 : 1 <= min_columns example_columns_view) by (vm_compute; discriminate).
  assert (H4 : 1 <= max_columns example_columns_view) by (vm_compute; discriminate).
  split; [exact H0|]. split; [exact H1|]. split; [exact H2|].
  split; [exact H3|]. split; [exact H4|].
  exact (size_allocate_columns_fit example_columns_view 100 20 34 H0 H1 H2 H3 H4).
Defined.

(* ================================================================== *)
(** ** Layout pass: what it keeps *)

Lemma same_items_refl (t : GtkRbTree) : same_items t t.
Proof. induction t; simpl; auto. Qed.

Lemma same_items_trans (t1 t2 t3 : GtkRbTree) :
  same_items t1 t2 -> same_items t2 t3 -> same_items t1 t3.
Proof.
  revert t2 t3. induction t1 as [|l IHl c a d r IHr]; intros [|l2 c2 a2 d2 r2] [|l3 c3 a3 d3 r3];
    simpl; try tauto.
  intros (Hl & Hn & Hw & Hr) (Hl' & Hn' & Hw' & Hr').
  split; [eauto|]. split; [congruence|]. split; [congruence|eauto].
Qed.

Lemma same_items_update (upd : Cell -> Cell) (t : GtkRbTree) (h : Handle) :
  (forall c, n_items (upd c) = n_items c /\ widget (upd c) = widget c) ->
  same_items t (gtk_rb_tree_update upd t h).
Proof.
  intros Hupd. revert h. induction t as [|l IHl c a d r IHr]; intros h; [exact I|].
  destruct h as [|[|] h]; simpl.
  - destruct (Hupd c). auto using same_items_refl.
  - auto using same_items_refl.
  - auto using same_items_refl.
Qed.

Lemma same_items_set_size (t : GtkRbTree) (h : Handle) (s : Z) :
  same_items t (cell_set_size t h s).
Proof.
  unfold cell_set_size. destruct (gtk_rb_tree_node t h); [|apply same_items_refl].
  destruct (size c =? s); [apply same_items_refl|].
  apply same_items_update. intros c'. split; reflexivity.
Qed.

Lemma same_items_handles (t t' : GtkRbTree) :
  same_items t t' -> gtk_rb_tree_handles t' = gtk_rb_tree_handles t.
Proof.
  revert t'. induction t as [|l IHl c a d r IHr]; intros [|l' c' a' d' r']; simpl;
    try tauto.
  intros (Hl & _ & _ & Hr). now rewrite (IHl _ Hl), (IHr _ Hr).
Qed.

Lemma same_items_cells (t t' : GtkRbTree) :
  same_items t t' ->
  map n_items (cells t') = map n_items (cells t) /\
  map widget (cells t') = map widget (cells t).
Proof.
  revert t'. induction t as [|l IHl c a d r IHr]; intros [|l' c' a' d' r']; simpl;
    try tauto.
  intros (Hl & Hn & Hw & Hr).
  destruct (IHl _ Hl) as [El1 El2]. destruct (IHr _ Hr) as [Er1 Er2].
  rewrite !map_app. simpl. rewrite El1, El2, Er1, Er2, Hn, Hw. split; reflexivity.
Qed.

Lemma same_items_node (t t' : GtkRbTree) (h : Handle) (c : Cell) :
  same_items t t' -> gtk_rb_tree_node t h = Some c ->
  exists c', gtk_rb_tree_node t' h = Some c' /\
             n_items c' = n_items c /\ widget c' = widget c.
Proof.
  revert t' h. induction t as [|l IHl c0 a d r IHr]; intros [|l' c' a' d' r'] h; simpl;
    try tauto; try discriminate.
  intros (Hl & Hn & Hw & Hr). destruct h as [|[|] h]; simpl.
  - intros [= <-]. eauto.
  - apply IHl, Hl.
  - apply IHr, Hr.
Qed.

Lemma handles_node (t : GtkRbTree) (h : Handle) :
  In h (gtk_rb_tree_handles t) -> exists c, gtk_rb_tree_node t h = Some c.
Proof.
  revert h. induction t as [|l IHl c a d r IHr]; intros h; simpl; [tauto|].
  rewrite in_app_iff. intros [Hin|[<-|Hin]].
  - apply in_map_iff in Hin. destruct Hin as (h' & <- & Hin). now apply IHl.
  - eauto.
  - apply in_map_iff in Hin. destruct Hin as (h' & <- & Hin). now apply IHr.
Qed.

Lemma for_each_cell_invariant {S : Type} (body : S -> Handle -> option S)
    (P : S -> Prop) (hs : list Handle) :
  (forall s h, In h hs -> P s -> exists s', body s h = Some s' /\ P s') ->
  forall s, P s -> exists s', for_each_cell body hs s = Some s' /\ P s'.
Proof.
  induction hs as [|h hs IH]; intros Hbody s Hs; simpl.
  - eauto.
  - destruct (Hbody s h (or_introl eq_refl) Hs) as (s1 & -> & Hs1). simpl.
    apply IH; [|assumption]. intros s2 h2 Hin. apply Hbody. now right.
Qed.

Lemma handles_cells (t : GtkRbTree) :
  map (gtk_rb_tree_node t) (gtk_rb_tree_handles t) = map Some (cells t).
Proof.
  induction t as [|l IHl c a d r IHr]; [reflexivity|].
  cbn [gtk_rb_tree_handles cells]. rewrite !map_app. cbn [map].
  rewrite !map_map, <- IHl, <- IHr. reflexivity.
Qed.

Section LayoutPass.

Variable keeps : GtkRbTree -> Prop.
Hypothesis keeps_set_size :
  forall t h s, is_guint s -> keeps t -> keeps (cell_set_size t h s).

Variable t0 : GtkRbTree.

Lemma cell_add_size_keeps (t : GtkRbTree) (st : Handle) (c0 : Cell) (delta : Z) :
  same_items t0 t -> keeps t -> gtk_rb_tree_node t0 st = Some c0 ->
  exists t', cell_add_size t st delta = Some t' /\ same_items t0 t' /\ keeps t'.
Proof.
  intros Hsame Hk Hnode. unfold cell_add_size.
  destruct (same_items_node _ _ _ _ Hsame Hnode) as (c & -> & _). simpl.
  eexists. split; [reflexivity|]. split.
  - eapply same_items_trans; [exact Hsame|apply same_items_set_size].
  - apply keeps_set_size; [apply to_guint_is_guint|assumption].
Qed.

Lemma size_allocate_step2_body_keeps (self : GtkGridView) (s : Step2) (h : Handle) :
  n_columns self <> 0 ->
  In h (gtk_rb_tree_handles t0) -> step2_invariant keeps t0 s ->
  exists s', size_allocate_step2_body self s h = Some s' /\ step2_invariant keeps t0 s'.
Proof.
  intros Hn Hin (Hsame & Hk & Hstart).
  destruct (handles_node _ _ Hin) as (c0 & Hc0).
  destruct (same_items_node _ _ _ _ Hsame Hc0) as (c & Hc & _).
  unfold size_allocate_step2_body. rewrite Hc. cbn [bind].
  destruct (match widget c with Some _ => _ | None => _ end) as [heights row_height].
  set (start := if s2_i s =? 0 then Some h else s2_start s).
  assert (Hst : exists st c1, start = Some st /\ gtk_rb_tree_node t0 st = Some c1).
  { unfold start. destruct (Z.eqb_spec (s2_i s) 0); eauto. }
  destruct Hst as (st & c1 & Est & Hc1).
  assert (Hsame0 : same_items t0 (cell_set_size (s2_tree s) h 0)).
  { eapply same_items_trans; [exact Hsame|apply same_items_set_size]. }
  assert (Hk0 : keeps (cell_set_size (s2_tree s) h 0)).
  { apply keeps_set_size; [|assumption]. unfold is_guint. rewrite guint_modulus_eq. lia. }
  destruct (to_guint (s2_i s + n_items c) >=? n_columns self).
  - unfold umod. destruct (Z.eqb_spec (n_columns self) 0); [contradiction|].
    cbn [bind]. rewrite Est. cbn [bind].
    destruct (cell_add_size_keeps _ st c1 (to_guint row_height) Hsame0 Hk0 Hc1)
      as (t' & -> & Hsame' & Hk').
    cbn [bind]. eexists. split; [reflexivity|].
    split; [exact Hsame'|]. split; [exact Hk'|]. intros _. cbn. eauto.
  - eexists. split; [reflexivity|].
    split; [exact Hsame0|]. split; [exact Hk0|]. intros _. cbn. eauto.
Qed.

Lemma size_allocate_step2_body_heights
    (self : GtkGridView) (s s' : Step2) (h : Handle) (c0 : Cell) :
  same_items t0 (s2_tree s) -> gtk_rb_tree_node t0 h = Some c0 ->
  size_allocate_step2_body self s h = Some s' ->
  s2_heights s' = s2_heights s ++ realized_heights self [c0].
Proof.
  intros Hsame Hc0.
  destruct (same_items_node _ _ _ _ Hsame Hc0) as (c & Hc & _ & Hw).
  unfold size_allocate_step2_body, realized_heights. rewrite Hc. cbn [bind flat_map].
  rewrite Hw, app_nil_r.
  destruct (widget c0) as [w|].
  - destruct (gtk_widget_measure w (orientation self) (column_width self)) as [mn nt].
    destruct (_ >=? n_columns self).
    + destruct (umod _ _); cbn [bind]; [|discriminate].
      destruct (if s2_i s =? 0 then _ else _); cbn [bind]; [|discriminate].
      destruct (cell_add_size _ _ _); cbn [bind]; [|discriminate].
      intros [= <-]. reflexivity.
    + intros [= <-]. reflexivity.
  - rewrite app_nil_r.
    destruct (_ >=? n_columns self).
    + destruct (umod _ _); cbn [bind]; [|discriminate].
      destruct (if s2_i s =? 0 then _ else _); cbn [bind]; [|discriminate].
      destruct (cell_add_size _ _ _); cbn [bind]; [|discriminate].
      intros [= <-]. reflexivity.
    + intros [= <-]. reflexivity.
Qed.

Lemma size_allocate_step2_loop (self : GtkGridView) (hs : list Handle) :
  n_columns self <> 0 ->
  forall (cs : list Cell) (s : Step2),
    map (gtk_rb_tree_node t0) hs = map Some cs ->
    (forall h, In h hs -> In h (gtk_rb_tree_handles t0)) ->
    step2_invariant keeps t0 s ->
    exists s',
      for_each_cell (size_allocate_step2_body self) hs s = Some s' /\
      step2_invariant keeps t0 s' /\
      s2_heights s' = s2_heights s ++ realized_heights self cs.
Proof.
  intros Hn. induction hs as [|h hs IH]; intros cs s Hcs Hin Hs.
  - destruct cs; [|discriminate]. exists s. split; [reflexivity|].
    split; [exact Hs|]. cbn. now rewrite app_nil_r.
  - destruct cs as [|c0 cs]; [discriminate|]. cbn [map] in Hcs.
    injection Hcs as Hc0 Hcs.
    destruct (size_allocate_step2_body_keeps self s h Hn (Hin h (or_introl eq_refl)) Hs)
      as (s1 & E1 & Hs1).
    pose proof (size_allocate_step2_body_heights self s s1 h c0 (proj1 Hs) Hc0 E1) as Hh1.
    cbn [for_each_cell]. rewrite E1. cbn [bind].
    destruct (IH cs s1 Hcs (fun h' Hh' => Hin h' (or_intror Hh')) Hs1)
      as (s' & E' & Hs' & Hh').
    exists s'. split; [exact E'|]. split; [exact Hs'|].
    rewrite Hh', Hh1, <- app_assoc. unfold realized_heights. cbn [flat_map].
    now rewrite app_nil_r.
Qed.

Lemma size_allocate_step3_body_keeps (self : GtkGridView) (s : Step3) (h : Handle) :
  n_columns self <> 0 ->
  In h (gtk_rb_tree_handles t0) -> step3_invariant keeps t0 s ->
  exists s', size_allocate_step3_body self s h = Some s' /\ step3_invariant keeps t0 s'.
Proof.
  intros Hn Hin (Hsame & Hk & Hstart).
  destruct (handles_node _ _ Hin) as (c0 & Hc0).
  destruct (same_items_node _ _ _ _ Hsame Hc0) as (c & Hc & _).
  unfold size_allocate_step3_body. rewrite Hc. cbn [bind].
  set (start := if s3_i s =? 0 then Some h else s3_start s).
  assert (Hst : exists st c1, start = Some st /\ gtk_rb_tree_node t0 st = Some c1).
  { unfold start. destruct (Z.eqb_spec (s3_i s) 0); eauto. }
  destruct Hst as (st & c1 & Est & Hc1).
  destruct (to_guint (s3_i s + n_items c) >=? n_columns self).
  - assert (Ht : exists t,
               (if negb match widget c with Some _ => true | None => s3_known s end
                then st0 <- start ;;
                     cell_add_size (s3_tree s) st0 (to_guint (unknown_row_height self))
                else Some (s3_tree s)) = Some t /\
               same_items t0 t /\ keeps t).
    { destruct (negb _).
      - rewrite Est. cbn [bind]. now apply (cell_add_size_keeps _ st c1).
      - eauto. }
    destruct Ht as (t & -> & Hsame' & Hk'). cbn [bind].
    destruct (to_guint (to_guint (s3_i s + n_items c) - n_columns self) >=? n_columns self).
    + unfold udiv, umod. destruct (Z.eqb_spec (n_columns self) 0); [contradiction|].
      cbn [bind].
      destruct (cell_add_size_keeps t h c0
                  (to_guint (to_guint (unknown_row_height self)
                             * (to_guint (to_guint (s3_i s + n_items c) - n_columns self)
                                / n_columns self)))
                  Hsame' Hk' Hc0) as (t' & -> & Hsame'' & Hk'').
      cbn [bind]. eexists. split; [reflexivity|].
      split; [exact Hsame''|]. split; [exact Hk''|]. intros _. cbn. eauto.
    + eexists. split; [reflexivity|].
      split; [exact Hsame'|]. split; [exact Hk'|]. intros _. cbn. eauto.
  - eexists. split; [reflexivity|].
    split; [exact Hsame|]. split; [exact Hk|]. intros _. cbn. eauto.
Qed.

End LayoutPass.

Lemma size_allocate_columns_returns
    (self : GtkGridView) (for_size col_min col_nat : Z) :
  0 <= for_size < gint_half -> is_gint col_min -> is_gint col_nat ->
  1 <= min_columns self -> 1 <= max_columns self ->
  exists n w : Z,
    gtk_grid_view_size_allocate_columns self for_size col_min col_nat = Some (n, w) /\
    1 <= n.
Proof.
  intros Hav Hmin Hnat Hlo Hhi.
  unfold gtk_grid_view_size_allocate_columns.
  rewrite compute_n_columns_contract by assumption. cbn [bind].
  set (n := compute_columns _ _ _ _ _ _).
  assert (Hn : 1 <= n).
  { unfold n, compute_columns, clamp.
    match goal with
    | |- 1 <= (if _ <? ?q then _ else _) =>
        destruct (Z.ltb_spec (max_columns self) q); [lia|];
        destruct (Z.ltb_spec q (min_columns self)); lia
    end. }
  unfold udiv. destruct (Z.eqb_spec n 0); [lia|]. cbn [bind]. eauto.
Qed.

Lemma size_allocate_keeps (keeps : GtkRbTree -> Prop)
    (self : GtkGridView) (for_size : Z) :
  (forall t h s, is_guint s -> keeps t -> keeps (cell_set_size t h s)) ->
  0 <= for_size < gint_half ->
  is_gint (fst (gtk_grid_view_measure_column_size self)) ->
  is_gint (snd (gtk_grid_view_measure_column_size self)) ->
  1 <= min_columns self -> 1 <= max_columns self ->
  keeps (item_manager self) ->
  exists self' : GtkGridView,
    gtk_grid_view_size_allocate self for_size = Some self' /\
    same_items (item_manager self) (item_manager self') /\
    keeps (item_manager self') /\
    (item_manager self <> Leaf ->
     1 <= n_columns self' /\
     unknown_row_height self'
     = gtk_grid_view_get_unknown_row_size
         (realized_heights self' (cells (item_manager self)))).
Proof.
  intros Hkeeps Hav Hmin Hnat Hlo Hhi Hk.
  unfold gtk_grid_view_size_allocate.
  destruct (item_manager self) as [|l c a d r] eqn:Et.
  { exists self. rewrite Et. split; [reflexivity|]. split; [exact I|].
    split; [assumption|]. congruence. }
  destruct (gtk_grid_view_measure_column_size self) as [col_min col_nat].
  cbn [fst snd] in Hmin, Hnat.
  destruct (size_allocate_columns_returns self for_size col_min col_nat
              Hav Hmin Hnat Hlo Hhi) as (n & w & -> & Hn).
  cbn [bind]. cbv zeta.
  set (self1 := with_columns n w self).
  assert (Et1 : item_manager self1 = Node l c a d r) by exact Et.
  assert (Hn1 : n_columns self1 <> 0) by (cbn; lia).
  rewrite Et1.
  set (t0 := Node l c a d r) in *.
  destruct (size_allocate_step2_loop keeps Hkeeps t0 self1 (gtk_rb_tree_handles t0) Hn1
              (cells t0)
              {| s2_tree := t0; s2_i := 0; s2_row_height := 0;
                 s2_start := None; s2_heights := [] |}
              (handles_cells t0) (fun h Hh => Hh))
    as (s2 & -> & (Hsame2 & Hk2 & Hstart2) & Hheights).
  { split; [apply same_items_refl|]. split; [assumption|]. cbn. congruence. }
  cbn [s2_heights app] in Hheights.
  cbn [bind].
  assert (Ht : exists t,
             (if s2_i s2 >? 0
              then st <- s2_start s2 ;;
                   cell_add_size (s2_tree s2) st (to_guint (s2_row_height s2))
              else Some (s2_tree s2)) = Some t /\
             same_items t0 t /\ keeps t).
  { destruct (Z.gtb_spec (s2_i s2) 0) as [Hi|Hi]; [|eauto].
    destruct Hstart2 as (st & c1 & -> & Hc1); [lia|]. cbn [bind].
    now apply (cell_add_size_keeps keeps Hkeeps t0 _ st c1). }
  destruct Ht as (t & -> & Hsame & Hkt). cbn [bind].
  set (self2 := with_unknown_row_height _ (with_tree t self1)).
  assert (Hn2 : n_columns self2 <> 0) by (cbn; lia).
  destruct (for_each_cell_invariant (size_allocate_step3_body self2)
              (step3_invariant keeps t0) (gtk_rb_tree_handles t0)
              (fun s h => size_allocate_step3_body_keeps keeps Hkeeps t0 self2 s h Hn2)
              {| s3_tree := t; s3_i := 0; s3_known := false;
                 s3_start := hd_error (gtk_rb_tree_handles t0) |})
    as (s3 & -> & Hsame3 & Hk3 & Hstart3).
  { split; [assumption|]. split; [assumption|]. cbn. congruence. }
  cbn [bind].
  assert (Ht' : exists t',
             (if (s3_i s3 >? 0) && negb (s3_known s3)
              then st <- s3_start s3 ;;
                   cell_add_size (s3_tree s3) st (to_guint (unknown_row_height self2))
              else Some (s3_tree s3)) = Some t' /\
             same_items t0 t' /\ keeps t').
  { destruct (Z.gtb_spec (s3_i s3) 0) as [Hi|Hi]; cbn [andb]; [|eauto].
    destruct (negb (s3_known s3)); [|eauto].
    destruct Hstart3 as (st & c1 & -> & Hc1); [lia|]. cbn [bind].
    now apply (cell_add_size_keeps keeps Hkeeps t0 _ st c1). }
  destruct Ht' as (t' & -> & Hsame' & Hkt'). cbn [bind].
  eexists. split; [reflexivity|]. cbn.
  split; [assumption|]. split; [assumption|]. intros _. split; [lia|].
  rewrite Hheights. reflexivity.
Qed.

(** X12.  With both column bounds at least 1, a layout pass never traps
    (no division by zero, [start] is never [NULL] when dereferenced); it
    leaves at least one column on a non-empty grid and changes nothing but
    sizes in the tree: the cells, their item counts and their widgets stay
    as they were. *)
Theorem size_allocate_keeps_items (self : GtkGridView) (for_size : Z) :
  0 <= for_size < gint_half ->
  is_gint (fst (gtk_grid_view_measure_column_size self)) ->
  is_gint (snd (gtk_grid_view_measure_column_size self)) ->
  1 <= min_columns self -> 1 <= max_columns self ->
  exists self' : GtkGridView,
    gtk_grid_view_size_allocate self for_size = Some self' /\
    gtk_rb_tree_handles (item_manager self') = gtk_rb_tree_handles (item_manager self) /\
    map n_items (cells (item_manager self')) = map n_items (cells (item_manager self)) /\
    map widget (cells (item_manager self')) = map widget (cells (item_manager self)) /\
    (item_manager self <> Leaf -> 1 <= n_columns self').
Proof.
  intros Hav Hmin Hnat Hlo Hhi.
  destruct (size_allocate_keeps (fun _ => True) self for_size)
    as (self' & E & Hsame & _ & Hn); auto.
  exists self'. split; [exact E|].
  split; [now apply same_items_handles|].
  destruct (same_items_cells _ _ Hsame) as [En Ew].
  split; [exact En|]. split; [exact Ew|]. intros Hne. exact (proj1 (Hn Hne)).
Qed.

(** X13.  A layout pass keeps the cache of summaries valid and the fields
    of every cell in the range of a [guint]; the summary read at the root
    afterwards, which [gtk_grid_view_update_adjustment] hands to the
    adjustment as the upper bound, is the sum of the new sizes modulo
    2^32. *)
Theorem size_allocate_keeps_summaries (self : GtkGridView) (for_size : Z) :
  0 <= for_size < gint_half ->
  is_gint (fst (gtk_grid_view_measure_column_size self)) ->
  is_gint (snd (gtk_grid_view_measure_column_size self)) ->
  1 <= min_columns self -> 1 <= max_columns self ->
  cache_valid (item_manager self) -> cells_ok (item_manager self) ->
  exists self' : GtkGridView,
    gtk_grid_view_size_allocate self for_size = Some self' /\
    cache_valid (item_manager self') /\ cells_ok (item_manager self') /\
    summary_size (item_manager self') = to_guint (total_size (item_manager self')).
Proof.
  intros Hav Hmin Hnat Hlo Hhi Hv Hok.
  destruct (size_allocate_keeps (fun t => cache_valid t /\ cells_ok t) self for_size)
    as (self' & E & _ & [Hv' Hok'] & _); auto.
  { intros t h s Hs [Hvt Hokt]. split.
    - now apply cache_valid_set_size.
    - now apply cells_ok_set_size. }
  exists self'. split; [exact E|]. split; [exact Hv'|]. split; [exact Hok'|].
  apply summaries_combine_total. now apply cache_valid_summaries_combine.
Qed.

Lemma staggered_start_valid :
  cache_valid (item_manager staggered_start) /\ cells_ok (item_manager staggered_start).
Proof.
  split.
  - vm_compute. repeat split; reflexivity || discriminate.
  - unfold cells_ok.
    let cs := eval cbv [staggered_start item_manager cells new_node app] in
                (cells (item_manager staggered_start)) in
    change (cells (item_manager staggered_start)) with cs.
    repeat (apply Forall_cons;
            [split; unfold is_guint; rewrite guint_modulus_eq; simpl; lia|]).
    apply Forall_nil.
Qed.

Lemma size_allocate_keeps_items_witness :
  0 <= 60 < gint_half /\
  is_gint (fst (gtk_grid_view_measure_column_size staggered_start)) /\
  is_gint (snd (gtk_grid_view_measure_column_size staggered_start)) /\
  1 <= min_columns staggered_start /\ 1 <= max_columns staggered_start /\
  exists self' : GtkGridView,
    gtk_grid_view_size_allocate staggered_start 60 = Some self' /\
    gtk_rb_tree_handles (item_manager self')
    = gtk_rb_tree_handles (item_manager staggered_start) /\
    map n_items (cells (item_manager self'))
    = map n_items (cells (item_manager staggered_start)) /\
    map widget (cells (item_manager self'))
    = map widget (cells (item_manager staggered_start)) /\
    (item_manager staggered_start <> Leaf -> 1 <= n_columns self').
Proof.
  assert (H0 : 0 <= 60 < gint_half) by (rewrite gint_half_eq; lia).
  assert (H1 : is_gint (fst (gtk_grid_view_measure_column_size staggered_start)))
    by (unfold is_gint; rewrite gint_half_eq; vm_compute; split; [discriminate|reflexivity]).
  assert (H2 : is_gint (snd (gtk_grid_view_measure_column_size staggered_start)))
    by (unfold is_gint; rewrite gint_half_eq; vm_compute; split; [discriminate|reflexivity]).
  assert (H3 : 1 <= min_columns staggered_start) by (vm_compute; discriminate).
  assert (H4 : 1 <= max_columns staggered_start) by (vm_compute; discriminate).
  split; [exact H0|]. split; [exact H1|]. split; [exact H2|].
  split; [exact H3|]. split; [exact H4|].
  exact (size_allocate_keeps_items staggered_start 60 H0 H1 H2 H3 H4).
Defined.

Lemma size_allocate_keeps_summaries_witness :
  0 <= 60 < gint_half /\
  is_gint (fst (gtk_grid_view_measure_column_size staggered_start)) /\
  is_gint (snd (gtk_grid_view_measure_column_size staggered_start)) /\
  1 <= min_columns staggered_start /\ 1 <= max_columns staggered_start /\
  cache_valid (item_manager staggered_start) /\
  cells_ok (item_manager staggered_start) /\
  exists self' : GtkGridView,
    gtk_grid_view_size_allocate staggered_start 60 = Some self' /\
    cache_valid (item_manager self') /\ cells_ok (item_manager self') /\
    summary_size (item_manager self') = to_guint (total_size (item_manager self')).
Proof.
  assert (H0 : 0 <= 60 < gint_half) by (rewrite gint_half_eq; lia).
  assert (H1 : is_gint (fst (gtk_grid_view_measure_column_size staggered_start)))
    by (unfold is_gint; rewrite gint_half_eq; vm_compute; split; [discriminate|reflexivity]).
  assert (H2 : is_gint (snd (gtk_grid_view_measure_column_size staggered_start)))
    by (unfold is_gint; rewrite gint_half_eq; vm_compute; split; [discriminate|reflexivity]).
  assert (H3 : 1 <= min_columns staggered_start) by (vm_compute; discriminate).
  assert (H4 : 1 <= max_columns staggered_start) by (vm_compute; discriminate).
  assert (H5 := proj1 staggered_start_valid).
  assert (H6 := proj2 staggered_start_valid).
  split; [exact H0|]. split; [exact H1|]. split; [exact H2|].
  split; [exact H3|]. split; [exact H4|]. split; [exact H5|]. split; [exact H6|].
  exact (size_allocate_keeps_summaries staggered_start 60 H0 H1 H2 H3 H4 H5 H6).
Defined.

(** X25.  After a layout pass of a non-empty grid the unknown row height
    is the estimate from the heights of all realized cells, each measured
    for the column width of this pass under the scroll policy along the
    grid: their median, and 0 when no cell is realized. *)
Theorem size_allocate_unknown_row_height (self : GtkGridView) (for_size : Z) :
  0 <= for_size < gint_half ->
  is_gint (fst (gtk_grid_view_measure_column_size self)) ->
  is_gint (snd (gtk_grid_view_measure_column_size self)) ->
  1 <= min_columns self -> 1 <= max_columns self ->
  item_manager self <> Leaf ->
  exists self' : GtkGridView,
    gtk_grid_view_size_allocate self for_size = Some self' /\
    unknown_row_height self'
    = gtk_grid_view_get_unknown_row_size
        (realized_heights self' (cells (item_manager self))).
Proof.
  intros Hav Hmin Hnat Hlo Hhi Hne.
  destruct (size_allocate_keeps (fun _ => True) self for_size)
    as (self' & E & _ & _ & Hn); auto.
  exists self'. split; [exact E|]. exact (proj2 (Hn Hne)).
Qed.

Lemma size_allocate_unknown_row_height_witness :
  0 <= 60 < gint_half /\
  is_gint (fst (gtk_grid_view_measure_column_size staggered_start)) /\
  is_gint (snd (gtk_grid_view_measure_column_size staggered_start)) /\
  1 <= min_columns staggered_start /\ 1 <= max_columns staggered_start /\
  item_manager staggered_start <> Leaf /\
  exists self' : GtkGridView,
    gtk_grid_view_size_allocate staggered_start 60 = Some self' /\
    unknown_row_height self'
    = gtk_grid_view_get_unknown_row_size
        (realized_heights self' (cells (item_manager staggered_start))).
Proof.
  assert (H0 : 0 <= 60 < gint_half) by (rewrite gint_half_eq; lia).
  assert (H1 : is_gint (fst (gtk_grid_view_measure_column_size staggered_start)))
    by (unfold is_gint; rewrite gint_half_eq; vm_compute; split; [discriminate|reflexivity]).
  assert (H2 : is_gint (snd (gtk_grid_view_measure_column_size staggered_start)))
    by (unfold is_gint; rewrite gint_half_eq; vm_compute; split; [discriminate|reflexivity]).
  assert (H3 : 1 <= min_columns staggered_start) by (vm_compute; discriminate).
  assert (H4 : 1 <= max_columns staggered_start) by (vm_compute; discriminate).
  assert (H5 : item_manager staggered_start <> Leaf) by discriminate.
  split; [exact H0|]. split; [exact H1|]. split; [exact H2|].
  split; [exact H3|]. split; [exact H4|]. split; [exact H5|].
  exact (size_allocate_unknown_row_height staggered_start 60 H0 H1 H2 H3 H4 H5).
Defined.

(* ================================================================== *)
(** ** Scroll-anchor controller: what is pushed and what is derived *)


Section ScrollAnchorRange.

Context {D : Double}.

(** X14.  The value pushed to an adjustment lies in the range the
    adjustment allows: [gtk_grid_view_update_adjustment_with_values]
    limits the value to [0, upper - page_size], with [upper] raised to the
    page size, mirrors it in that range for a flipped adjustment, and
    configures the adjustment of that orientation, and no other, with
    lower bound 0. *)
Theorem update_adjustment_with_values_clamps
    (s : GridViewState) (o : GtkOrientation) (value upper page_size : Z) :
  is_gint value -> 0 <= upper < gint_half -> 0 <= page_size < gint_half ->
  let range := Z.max upper page_size - page_size in
  let clamped := Z.min (Z.max 0 value) range in
  exists (s' : GridViewState) (v : Z),
    gtk_grid_view_update_adjustment_with_values s o value upper page_size
    = Some (s', v) /\
    v = (if gtk_grid_view_adjustment_is_flipped s o then range - clamped else clamped) /\
    0 <= v <= range /\
    gtk_adjustment_get_value (adjustment s' o) = d_of_Z v /\
    gtk_adjustment_get_lower (adjustment s' o) = d_of_Z 0 /\
    gtk_adjustment_get_upper (adjustment s' o) = d_of_Z (Z.max upper page_size) /\
    gtk_adjustment_get_page_size (adjustment s' o) = d_of_Z page_size /\
    (forall o', orientation_eqb o o' = false -> adjustment s' o' = adjustment s o').
Proof.
  intros Hv Hu Hp range clamped.
  unfold is_gint in Hv. rewrite gint_half_eq in Hv, Hu, Hp.
  unfold gtk_grid_view_update_adjustment_with_values, gtk_adjustment_configure.
  cbn [g_signal_handlers_block_by_func with_adjustment adjustment].
  rewrite !orientation_eqb_refl.
  cbn [handler_connected handler_blocked gtk_adjustment_get_value].
  assert (Hoff : forall b,
             b && handler_connected (adjustment s o)
             && Nat.eqb (if handler_connected (adjustment s o)
                         then S (handler_blocked (adjustment s o))
                         else handler_blocked (adjustment s o)) 0 = false).
  { intros b. destruct (handler_connected (adjustment s o)).
    - cbn [Nat.eqb]. now rewrite andb_false_r.
    - now rewrite andb_false_r. }
  rewrite Hoff. cbn [bind].
  eexists. eexists. split; [reflexivity|].
  cbn [g_signal_handlers_unblock_by_func with_adjustment adjustment].
  rewrite !orientation_eqb_refl.
  cbn [gtk_adjustment_get_value gtk_adjustment_get_lower gtk_adjustment_get_upper
       gtk_adjustment_get_page_size].
  rewrite !MAX_spec, !MIN_spec.
  rewrite (to_gint_small (Z.max upper page_size - page_size))
    by (unfold is_gint; rewrite gint_half_eq; lia).
  fold range. fold clamped.
  assert (Hc : 0 <= clamped <= range) by (unfold clamped, range; lia).
  assert (Hr : range < 2147483648) by (unfold range; lia).
  assert (Efl : (if gtk_grid_view_adjustment_is_flipped
                      (g_signal_handlers_block_by_func s o) o
                 then to_gint (range - clamped) else clamped)
                = (if gtk_grid_view_adjustment_is_flipped s o
                   then range - clamped else clamped)).
  { change (gtk_grid_view_adjustment_is_flipped (g_signal_handlers_block_by_func s o) o)
      with (gtk_grid_view_adjustment_is_flipped s o).
    destruct (gtk_grid_view_adjustment_is_flipped s o); [|reflexivity].
    apply to_gint_small. unfold is_gint. rewrite gint_half_eq. lia. }
  cbv zeta. rewrite Efl.
  split; [reflexivity|].
  split; [destruct (gtk_grid_view_adjustment_is_flipped s o); lia|].
  split; [reflexivity|]. split; [reflexivity|]. split; [reflexivity|].
  split; [reflexivity|].
  intros o' Ho'. rewrite !Ho'.
  cbn [g_signal_handlers_block_by_func with_adjustment adjustment].
  rewrite Ho'. reflexivity.
Qed.



Lemma derive_anchor_across (s : GridViewState) (which : GtkOrientation) :
  orientation_eqb which (orientation (view s)) = false ->
  n_columns (view s) <> 0 ->
  exists (d : DerivedAnchor) (col : Z),
    derive_anchor s which = Some d /\
    (col = to_guint (n_columns (view s) - 1) \/
     (exists x : double, col = d_to_guint x) /\ col < n_columns (view s)) /\
    da_pos d
    = to_guint (col + to_guint (anchor_position s
                                - anchor_position s mod n_columns (view s))) /\
    da_yalign d = anchor_yalign s /\ da_ystart d = anchor_ystart s.
Proof.
  intros Hacross Hn. unfold derive_anchor. cbv zeta. rewrite Hacross.
  unfold umod. destruct (Z.eqb_spec (n_columns (view s)) 0); [contradiction|].
  match goal with
  | |- context [?pos >=? n_columns (view s)] =>
      destruct (Z.geb_spec pos (n_columns (view s))) as [Hge|Hlt]
  end; cbn [bind].
  - eexists. eexists. split; [reflexivity|]. split; [left; reflexivity|].
    repeat split.
  - eexists. eexists. split; [reflexivity|]. split; [right; split; [eauto|exact Hlt]|].
    repeat split.
Qed.

Lemma set_anchor_keeps (s : GridViewState) (pos : Z) (xalign : double) (xstart : bool)
    (yalign : double) (ystart : bool) :
  yalign = anchor_yalign s -> ystart = anchor_ystart s ->
  let s' := gtk_widget_queue_allocate
              (gtk_grid_view_set_anchor s pos xalign xstart yalign ystart) in
  anchor_position s' = pos /\
  anchor_yalign s' = anchor_yalign s /\ anchor_ystart s' = anchor_ystart s.
Proof.
  intros -> ->. unfold gtk_grid_view_set_anchor. cbv zeta.
  destruct (_ || _); repeat split.
Qed.

(** X16.  A scroll across the grid keeps the anchor in its row: the
    handler of the adjustment of the opposite orientation moves the anchor
    to an item of the row it was in, still an existing item, and leaves
    the alignment along the grid as it was. *)
Theorem scroll_across_keeps_row (s : GridViewState) (which : GtkOrientation) :
  orientation_eqb which (orientation (view s)) = false ->
  1 <= n_columns (view s) ->
  (forall x : double, 0 <= d_to_guint x) ->
  0 <= anchor_position s < g_list_model_get_n_items s ->
  g_list_model_get_n_items s < guint_modulus ->
  anchor_position s + n_columns (view s) <= guint_modulus ->
  exists s' : GridViewState,
    gtk_grid_view_adjustment_value_changed_cb s which = Some s' /\
    anchor_position s' / n_columns (view s) = anchor_position s / n_columns (view s) /\
    0 <= anchor_position s' < g_list_model_get_n_items s /\
    anchor_yalign s' = anchor_yalign s /\ anchor_ystart s' = anchor_ystart s.
Proof.
  intros Hacross Hn Hconv Hanchor Hitems Hwrap.
  destruct (derive_anchor_across s which Hacross) as (d & col & Hd & Hcol & Hpos & Hya & Hys);
    [lia|].
  set (n := n_columns (view s)) in *.
  set (A := anchor_position s) in *.
  rewrite guint_modulus_eq in *.
  pose proof (Z.mod_pos_bound A n ltac:(lia)) as Hmod.
  pose proof (Z.div_mod A n ltac:(lia)) as Hdm.
  pose proof (Z.mod_le A n ltac:(lia) ltac:(lia)) as Hle.
  assert (Hc : 0 <= col < n).
  { destruct Hcol as [->|[[x ->] Hlt]].
    - rewrite to_guint_small by (unfold is_guint; rewrite guint_modulus_eq; lia). lia.
    - specialize (Hconv x). lia. }
  assert (Epos : da_pos d = col + n * (A / n)).
  { rewrite Hpos.
    rewrite (to_guint_small (A - A mod n))
      by (unfold is_guint; rewrite guint_modulus_eq; lia).
    rewrite to_guint_small by (unfold is_guint; rewrite guint_modulus_eq; lia). lia. }
  assert (Erow : da_pos d / n = A / n).
  { rewrite Epos, Z.mul_comm, Z.div_add by lia. rewrite Z.div_small by lia. lia. }
  unfold gtk_grid_view_adjustment_value_changed_cb. cbv zeta.
  rewrite derive_anchor_log_event, Hd. cbn [bind].
  cbn [log_event view g_list_model_get_n_items]. fold n.
  rewrite Hya, Hys.
  destruct (Z.geb_spec (da_pos d) (g_list_model_get_n_items s)) as [Hge|Hlt].
  - unfold umod. destruct (Z.eqb_spec n 0); [lia|]. cbn [bind].
    eexists. split; [reflexivity|].
    match goal with
    | |- context [gtk_grid_view_set_anchor ?s0 ?pos ?xa ?xs ?ya ?ys] =>
        destruct (set_anchor_keeps s0 pos xa xs ya ys eq_refl eq_refl) as (-> & -> & ->)
    end.
    cbn [log_event anchor_yalign anchor_ystart].
    rewrite to_guint_small by (unfold is_guint; rewrite guint_modulus_eq; lia).
    split.
    + apply Z.le_antisymm.
      * rewrite <- Erow. apply Z.div_le_mono; lia.
      * apply Z.div_le_mono; lia.
    + repeat split; lia.
  - cbn [bind]. eexists. split; [reflexivity|].
    match goal with
    | |- context [gtk_grid_view_set_anchor ?s0 ?pos ?xa ?xs ?ya ?ys] =>
        destruct (set_anchor_keeps s0 pos xa xs ya ys eq_refl eq_refl) as (-> & -> & ->)
    end.
    cbn [log_event anchor_yalign anchor_ystart].
    split; [exact Erow|]. repeat split; lia.
Qed.

(** X17.  Along the grid, with an anchor set,
    [gtk_grid_view_update_adjustment] runs into a failed assertion exactly
    when the row of the anchor begins at or beyond the number of items in
    the tree (in particular when the tree is empty); otherwise it pushes a
    value and returns. *)
Theorem update_adjustment_asserts_row (s : GridViewState) :
  cache_valid (item_manager (view s)) -> cells_ok (item_manager (view s)) ->
  total_items (item_manager (view s)) < guint_modulus ->
  total_size (item_manager (view s)) < gint_half ->
  1 <= n_columns (view s) ->
  0 <= anchor_position s < GTK_INVALID_LIST_POSITION ->
  gtk_grid_view_update_adjustment s (orientation (view s)) = None <->
  total_items (item_manager (view s))
  <= anchor_position s - anchor_position s mod n_columns (view s).
Proof.
  intros Hv Hok Hitems Hsize Hn Hanchor.
  unfold GTK_INVALID_LIST_POSITION in Hanchor.
  pose proof (Z.mod_pos_bound (anchor_position s) (n_columns (view s)) ltac:(lia)) as Hmod.
  pose proof (Z.mod_le (anchor_position s) (n_columns (view s)) ltac:(lia) ltac:(lia)) as Hle.
  pose proof (total_items_nonneg _ Hok) as HI.
  unfold gtk_grid_view_update_adjustment. cbv zeta.
  destruct (Z.eqb_spec (anchor_position s) GTK_INVALID_LIST_POSITION) as [E|_];
    [unfold GTK_INVALID_LIST_POSITION in E; lia|].
  rewrite orientation_eqb_refl.
  destruct (item_manager (view s)) as [|l c a d r] eqn:Et.
  { cbn [gtk_rb_tree_get_augment bind]. split; [intros _|reflexivity].
    change (total_items Leaf) with 0. lia. }
  assert (Haug : exists aug, gtk_rb_tree_get_augment (Node l c a d r) = Some aug).
  { cbn [gtk_rb_tree_get_augment]. destruct d; eauto. }
  destruct Haug as (aug & ->). cbn [bind]. rewrite <- Et in *.
  destruct (Z.le_gt_cases (total_items (item_manager (view s)))
              (anchor_position s - anchor_position s mod n_columns (view s)))
    as [Hbeyond|Hin].
  - rewrite get_size_at_position_beyond by (assumption || lia).
    cbn [bind size_not_found sp_found]. tauto.
  - unfold gtk_grid_view_get_size_at_position, umod, udiv.
    destruct (Z.eqb_spec (n_columns (view s)) 0); [lia|]. cbn [bind].
    rewrite to_guint_small by (unfold is_guint; lia).
    destruct (size_at_position_loop_finds (item_manager (view s))
                (anchor_position s - anchor_position s mod n_columns (view s)) 0)
      as (h & c' & Eloop & _); try assumption; try lia.
    rewrite Eloop. cbn [bind].
    destruct (if negb _ then _ else _) as [n' pos']. cbn [bind sp_found].
    match goal with
    | |- context [gtk_grid_view_update_adjustment_with_values ?s0 ?o ?v ?u ?p] =>
        destruct (update_adjustment_with_values_events s0 o v u p) as (s' & v' & -> & _)
    end.
    split; [discriminate|lia].
Qed.

(** X18.  Without an anchor ([GTK_INVALID_LIST_POSITION], the empty
    list), [gtk_grid_view_update_adjustment] asserts nothing and does not
    look at the tree: it returns 0 and leaves the adjustment of that
    orientation with value 0, upper bound 0 and page size 0. *)
Theorem update_adjustment_without_anchor (s : GridViewState) (o : GtkOrientation) :
  anchor_position s = GTK_INVALID_LIST_POSITION ->
  exists s' : GridViewState,
    gtk_grid_view_update_adjustment s o = Some (s', 0) /\
    gtk_adjustment_get_value (adjustment s' o) = d_of_Z 0 /\
    gtk_adjustment_get_upper (adjustment s' o) = d_of_Z 0 /\
    gtk_adjustment_get_page_size (adjustment s' o) = d_of_Z 0.
Proof.
  intros Hanchor. unfold gtk_grid_view_update_adjustment. cbv zeta.
  rewrite Hanchor, Z.eqb_refl.
  unfold gtk_grid_view_update_adjustment_with_values, gtk_adjustment_configure.
  cbn [g_signal_handlers_block_by_func with_adjustment adjustment].
  rewrite !orientation_eqb_refl.
  cbn [handler_connected handler_blocked gtk_adjustment_get_value].
  assert (Hoff : forall b,
             b && handler_connected (adjustment s o)
             && Nat.eqb (if handler_connected (adjustment s o)
                         then S (handler_blocked (adjustment s o))
                         else handler_blocked (adjustment s o)) 0 = false).
  { intros b. destruct (handler_connected (adjustment s o)).
    - cbn [Nat.eqb]. now rewrite andb_false_r.
    - now rewrite andb_false_r. }
  rewrite Hoff. cbn [bind].
  eexists. split; [reflexivity|].
  cbn [g_signal_handlers_unblock_by_func with_adjustment adjustment].
  rewrite !orientation_eqb_refl.
  cbn [gtk_adjustment_get_value gtk_adjustment_get_upper gtk_adjustment_get_page_size].
  split; [|split; reflexivity].
  destruct (gtk_grid_view_adjustment_is_flipped _ o); reflexivity.
Qed.

End ScrollAnchorRange.

(* ================================================================== *)
(** ** The controller on the example grids *)

Lemma update_adjustment_with_values_clamps_witness :
  is_gint 25 /\ 0 <= 40 < gint_half /\ 0 <= 20 < gint_half /\
  let range := Z.max 40 20 - 20 in
  let clamped := Z.min (Z.max 0 25) range in
  exists (s' : @GridViewState Q_double) (v : Z),
    gtk_grid_view_update_adjustment_with_values
      scrolled_to_end GTK_ORIENTATION_VERTICAL 25 40 20
    = Some (s', v) /\
    v = (if gtk_grid_view_adjustment_is_flipped scrolled_to_end GTK_ORIENTATION_VERTICAL
         then range - clamped else clamped) /\
    0 <= v <= range /\
    gtk_adjustment_get_value (adjustment s' GTK_ORIENTATION_VERTICAL) = d_of_Z v /\
    gtk_adjustment_get_lower (adjustment s' GTK_ORIENTATION_VERTICAL) = d_of_Z 0 /\
    gtk_adjustment_get_upper (adjustment s' GTK_ORIENTATION_VERTICAL)
    = d_of_Z (Z.max 40 20) /\
    gtk_adjustment_get_page_size (adjustment s' GTK_ORIENTATION_VERTICAL) = d_of_Z 20 /\
    (forall o', orientation_eqb GTK_ORIENTATION_VERTICAL o' = false ->
                adjustment s' o' = adjustment scrolled_to_end o').
Proof.
  assert (H1 : is_gint 25) by (unfold is_gint; rewrite gint_half_eq; lia).
  assert (H2 : 0 <= 40 < gint_half) by (rewrite gint_half_eq; lia).
  assert (H3 : 0 <= 20 < gint_half) by (rewrite gint_half_eq; lia).
  split; [exact H1|]. split; [exact H2|]. split; [exact H3|].
  exact (update_adjustment_with_values_clamps
           scrolled_to_end GTK_ORIENTATION_VERTICAL 25 40 20 H1 H2 H3).
Defined.


Lemma scroll_across_keeps_row_witness :
  orientation_eqb GTK_ORIENTATION_HORIZONTAL (orientation (view scrolled_across)) = false /\
  1 <= n_columns (view scrolled_across) /\
  (forall x : @double Q_guint_double, 0 <= d_to_guint x) /\
  0 <= anchor_position scrolled_across < g_list_model_get_n_items scrolled_across /\
  g_list_model_get_n_items scrolled_across < guint_modulus /\
  anchor_position scrolled_across + n_columns (view scrolled_across) <= guint_modulus /\
  exists s' : @GridViewState Q_guint_double,
    gtk_grid_view_adjustment_value_changed_cb scrolled_across GTK_ORIENTATION_HORIZONTAL
    = Some s' /\
    anchor_position s' / n_columns (view scrolled_across)
    = anchor_position scrolled_across / n_columns (view scrolled_across) /\
    0 <= anchor_position s' < g_list_model_get_n_items scrolled_across /\
    anchor_yalign s' = anchor_yalign scrolled_across /\
    anchor_ystart s' = anchor_ystart scrolled_across.
Proof.
  assert (H1 : orientation_eqb GTK_ORIENTATION_HORIZONTAL
                 (orientation (view scrolled_across)) = false) by reflexivity.
  assert (H2 : 1 <= n_columns (view scrolled_across)) by (vm_compute; discriminate).
  assert (H3 : forall x : @double Q_guint_double, 0 <= d_to_guint x)
    by (intros x; exact (proj1 (Z.mod_pos_bound (Q_truncate x) guint_modulus eq_refl))).
  assert (H4 : 0 <= anchor_position scrolled_across
               < g_list_model_get_n_items scrolled_across)
    by (split; [discriminate | reflexivity]).
  assert (H5 : g_list_model_get_n_items scrolled_across < guint_modulus) by reflexivity.
  assert (H6 : anchor_position scrolled_across + n_columns (view scrolled_across)
               <= guint_modulus) by (vm_compute; discriminate).
  split; [exact H1|]. split; [exact H2|]. split; [exact H3|]. split; [exact H4|].
  split; [exact H5|]. split; [exact H6|].
  exact (scroll_across_keeps_row
           scrolled_across GTK_ORIENTATION_HORIZONTAL H1 H2 H3 H4 H5 H6).
Defined.

(** There the anchor moves from item 4 to item 5, the item of its row in
    the column found 50 pixels from the left of the content. *)
Lemma scroll_across_example :
  option_map anchor_position
    (gtk_grid_view_adjustment_value_changed_cb scrolled_across GTK_ORIENTATION_HORIZONTAL)
  = Some 5.
Proof. vm_compute. reflexivity. Qed.

Lemma update_adjustment_asserts_row_witness :
  cache_valid (item_manager (view scrolled_to_end)) /\
  cells_ok (item_manager (view scrolled_to_end)) /\
  total_items (item_manager (view scrolled_to_end)) < guint_modulus /\
  total_size (item_manager (view scrolled_to_end)) < gint_half /\
  1 <= n_columns (view scrolled_to_end) /\
  0 <= anchor_position scrolled_to_end < GTK_INVALID_LIST_POSITION /\
  (gtk_grid_view_update_adjustment scrolled_to_end (orientation (view scrolled_to_end))
   = None <->
   total_items (item_manager (view scrolled_to_end))
   <= anchor_position scrolled_to_end
      - anchor_position scrolled_to_end mod n_columns (view scrolled_to_end)).
Proof.
  assert (H1 : cache_valid (item_manager (view scrolled_to_end)))
    by exact (proj1 staggered_view_valid).
  assert (H2 : cells_ok (item_manager (view scrolled_to_end)))
    by exact (proj2 staggered_view_valid).
  assert (H3 : total_items (item_manager (view scrolled_to_end)) < guint_modulus)
    by reflexivity.
  assert (H4 : total_size (item_manager (view scrolled_to_end)) < gint_half)
    by reflexivity.
  assert (H5 : 1 <= n_columns (view scrolled_to_end)) by (vm_compute; discriminate).
  assert (H6 : 0 <= anchor_position scrolled_to_end < GTK_INVALID_LIST_POSITION)
    by (split; [discriminate | reflexivity]).
  split; [exact H1|]. split; [exact H2|]. split; [exact H3|]. split; [exact H4|].
  split; [exact H5|]. split; [exact H6|].
  exact (update_adjustment_asserts_row scrolled_to_end H1 H2 H3 H4 H5 H6).
Defined.

Lemma update_adjustment_without_anchor_witness :
  anchor_position without_anchor = GTK_INVALID_LIST_POSITION /\
  exists s' : @GridViewState Q_double,
    gtk_grid_view_update_adjustment without_anchor GTK_ORIENTATION_VERTICAL
    = Some (s', 0) /\
    gtk_adjustment_get_value (adjustment s' GTK_ORIENTATION_VERTICAL) = d_of_Z 0 /\
    gtk_adjustment_get_upper (adjustment s' GTK_ORIENTATION_VERTICAL) = d_of_Z 0 /\
    gtk_adjustment_get_page_size (adjustment s' GTK_ORIENTATION_VERTICAL) = d_of_Z 0.
Proof.
  assert (H1 : anchor_position without_anchor = GTK_INVALID_LIST_POSITION)
    by reflexivity.
  split; [exact H1|].
  exact (update_adjustment_without_anchor without_anchor GTK_ORIENTATION_VERTICAL H1).
Defined.

(* ================================================================== *)
(** ** Measuring *)

Lemma measure_column_size_unrealized (self : GtkGridView) :
  (forall c, In c (cells (item_manager self)) -> widget c = None) ->
  gtk_grid_view_measure_column_size self = (0, 0).
Proof.
  intros Hnone.
  destruct (measure_column_fold (OPPOSITE_ORIENTATION (orientation self))
              (cells (item_manager self)) (0, 0)) as (_ & _ & _ & Hmin & Hnat).
  fold (gtk_grid_view_measure_column_size self) in Hmin, Hnat.
  destruct (gtk_grid_view_measure_column_size self) as [mn nt]. cbn [fst snd] in *.
  destruct Hmin as [->|(c & w & Hin & Hw & _)];
    [|rewrite (Hnone c Hin) in Hw; discriminate].
  destruct Hnat as [->|(c & w & Hin & Hw & _)];
    [|rewrite (Hnone c Hin) in Hw; discriminate].
  reflexivity.
Qed.

Lemma measure_column_fold_le (opposite : GtkOrientation) (cs : list Cell) :
  (forall c w, In c cs -> widget c = Some w ->
               fst (gtk_widget_measure w opposite (-1))
               <= snd (gtk_widget_measure w opposite (-1))) ->
  forall acc : Z * Z,
    fst acc <= snd acc ->
    let res :=
      fold_left
        (fun (acc : Z * Z) (c : Cell) =>
           match widget c with
           | None => acc
           | Some w =>
               let '(child_min, child_nat) := gtk_widget_measure w opposite (-1) in
               (MAX (fst acc) child_min, MAX (snd acc) child_nat)
           end) cs acc in
    fst res <= snd res.
Proof.
  induction cs as [|c cs IH]; intros Hw acc Hacc; cbn [fold_left]; [exact Hacc|].
  apply IH; [intros c' w' Hin; apply Hw; now right|].
  destruct (widget c) as [w|] eqn:Ew; [|exact Hacc].
  specialize (Hw c w (or_introl eq_refl) Ew).
  destruct (gtk_widget_measure w opposite (-1)) as [cm cn]. cbn [fst snd] in *.
  rewrite !MAX_spec. lia.
Qed.

Lemma for_each_cell_read_invariant {S : Type} (body : S -> Cell -> option S)
    (P : S -> Prop) (cs : list Cell) :
  (forall s c, In c cs -> P s -> exists s', body s c = Some s' /\ P s') ->
  forall s, P s -> exists s', for_each_cell_read body cs s = Some s' /\ P s'.
Proof.
  induction cs as [|c cs IH]; intros Hbody s Hs; simpl.
  - eauto.
  - destruct (Hbody s c (or_introl eq_refl) Hs) as (s1 & -> & Hs1). simpl.
    apply IH; [|assumption]. intros s2 c2 Hin. apply Hbody. now right.
Qed.

Lemma measure_list_body_returns (self : GtkGridView) (n column_size : Z)
    (s : MeasureList) (c : Cell) :
  n <> 0 -> exists s', measure_list_body self n column_size s c = Some s'.
Proof.
  intros Hn. unfold measure_list_body.
  destruct (match widget c with Some _ => _ | None => _ end) as [row_height measured].
  destruct (_ >=? n); [|eauto].
  unfold udiv, umod. destruct (Z.eqb_spec n 0); [contradiction|]. cbn [bind]. eauto.
Qed.

Lemma compute_columns_positive
    (for_size min nat : Z) (policy : GtkScrollablePolicy) (lo hi : Z) :
  1 <= lo -> 1 <= hi -> 1 <= compute_columns for_size min nat policy lo hi.
Proof.
  intros Hlo Hhi. unfold compute_columns, clamp.
  match goal with
  | |- 1 <= (if _ <? ?q then _ else _) =>
      destruct (Z.ltb_spec hi q); [lia|]; destruct (Z.ltb_spec q lo); lia
  end.
Qed.

(** X19.  A grid in which no cell is realized measures 0 along its
    orientation, however many items it has: no row height is known, and
    the unknown row height estimated from no heights is 0. *)
Theorem measure_list_unrealized (self : GtkGridView) (for_size : Z) :
  (forall c, In c (cells (item_manager self)) -> widget c = None) ->
  1 <= min_columns self -> 1 <= max_columns self ->
  gtk_grid_view_measure_list self for_size = Some (0, 0).
Proof.
  intros Hnone Hlo Hhi. unfold gtk_grid_view_measure_list.
  rewrite (measure_column_size_unrealized self Hnone).
  rewrite compute_n_columns_contract
    by (unfold is_gint; rewrite gint_half_eq; lia).
  cbn [bind]. cbv zeta.
  set (n := compute_columns _ _ _ _ _ _).
  assert (Hn : 1 <= n) by (apply compute_columns_positive; assumption).
  unfold udiv at 1. destruct (Z.eqb_spec n 0); [lia|]. cbn [bind].
  match goal with
  | |- context [for_each_cell_read ?body ?cs ?s0] =>
      destruct (for_each_cell_read_invariant body
                  (fun s => ml_measured s = false /\ ml_heights s = [] /\ ml_height s = 0)
                  cs) with (s := s0) as (s & -> & Hm & Hh & Hz)
  end.
  - intros s c Hin (Hm & Hh & Hz). unfold measure_list_body.
    rewrite (Hnone c Hin), Hm.
    destruct (_ >=? n).
    + unfold udiv, umod. destruct (Z.eqb_spec n 0); [lia|]. cbn [bind].
      eexists. split; [reflexivity|]. cbn. auto.
    + eexists. split; [reflexivity|]. cbn. auto.
  - cbn. auto.
  - cbn [bind]. rewrite Hm, Hh, Hz.
    assert (E : forall k, to_gint (to_guint 0 + to_guint (k * to_guint 0)) = 0).
    { intros k. change (to_guint 0) with 0. rewrite Z.mul_0_r. reflexivity. }
    destruct (ml_i s >? 0);
      match goal with
      | |- context [negb (?k =? 0)] =>
          destruct (negb (k =? 0)); cbn [gtk_grid_view_get_unknown_row_size];
          rewrite ?E; reflexivity
      end.
Qed.

Section MeasureUniform.

Variable self : GtkGridView.
Variables n column_size h bound : Z.

Hypothesis Hn : 1 <= n < guint_modulus.
Hypothesis Hh : 0 <= h.
Hypothesis Hbound : bound * h < gint_half.




End MeasureUniform.


(** X21.  [gtk_grid_view_measure] reports a minimum that does not exceed
    the natural size, in both orientations, and never traps: along the
    grid both are the same number; across it they are the column size
    times [min_columns] and times [max_columns], when every widget reports
    a minimum not above its natural size and the bounds are ordered. *)
Theorem measure_minimum_le_natural
    (self : GtkGridView) (o : GtkOrientation) (for_size : Z) :
  (forall c w, In c (cells (item_manager self)) -> widget c = Some w ->
     fst (gtk_widget_measure w (OPPOSITE_ORIENTATION (orientation self)) (-1))
     <= snd (gtk_widget_measure w (OPPOSITE_ORIENTATION (orientation self)) (-1))) ->
  1 <= min_columns self <= max_columns self ->
  snd (gtk_grid_view_measure_column_size self) * max_columns self < gint_half ->
  exists minimum natural : Z,
    gtk_grid_view_measure self o for_size = Some (minimum, natural) /\
    minimum <= natural /\
    (orientation_eqb o (orientation self) = true -> minimum = natural) /\
    (orientation_eqb o (orientation self) = false ->
     minimum = fst (gtk_grid_view_measure_column_size self) * min_columns self /\
     natural = snd (gtk_grid_view_measure_column_size self) * max_columns self).
Proof.
  intros Hw Hcols Hfits.
  destruct (measure_column_fold (OPPOSITE_ORIENTATION (orientation self))
              (cells (item_manager self)) (0, 0)) as (Hmin0 & Hnat0 & _).
  pose proof (measure_column_fold_le (OPPOSITE_ORIENTATION (orientation self))
                (cells (item_manager self)) Hw (0, 0) ltac:(cbn; lia)) as Hle.
  cbv zeta in Hle.
  fold (gtk_grid_view_measure_column_size self) in Hmin0, Hnat0, Hle.
  cbn [fst snd] in Hmin0, Hnat0.
  unfold gtk_grid_view_measure, gtk_grid_view_measure_across, gtk_grid_view_measure_list.
  destruct (gtk_grid_view_measure_column_size self) as [col_min col_nat].
  cbn [fst snd] in *. rewrite gint_half_eq in Hfits.
  assert (Hnat : col_nat < 2147483648) by nia.
  destruct (orientation_eqb o (orientation self)).
  - cbv zeta.
    rewrite compute_n_columns_contract
      by (unfold is_gint; rewrite gint_half_eq; lia).
    cbn [bind].
    set (n := compute_columns _ _ _ _ _ _).
    assert (Hn : 1 <= n) by (apply compute_columns_positive; lia).
    unfold udiv at 1. destruct (Z.eqb_spec n 0); [lia|]. cbn [bind].
    match goal with
    | |- context [for_each_cell_read ?body ?cs ?s0] =>
        destruct (for_each_cell_read_invariant body (fun _ => True) cs)
          with (s := s0) as (s & -> & _)
    end.
    + intros s c _ _.
      match goal with
      | |- context [measure_list_body self n ?column_size] =>
          destruct (measure_list_body_returns self n column_size s c) as (s' & ->); [lia|]
      end.
      eauto.
    + exact I.
    + cbn [bind]. destruct (if ml_i s >? 0 then _ else _) as [[heights n_unknown] height].
      eexists. eexists. split; [reflexivity|]. split; [lia|].
      split; [reflexivity|discriminate].
  - rewrite (to_guint_small col_min), (to_guint_small col_nat)
      by (unfold is_guint; rewrite guint_modulus_eq; lia).
    rewrite !to_gint_small by (unfold is_gint; rewrite gint_half_eq; nia).
    eexists. eexists. split; [reflexivity|]. split; [nia|].
    split; [discriminate|]. intros _. split; reflexivity.
Qed.

(* ================================================================== *)
(** ** Measuring the example grids *)

Lemma measure_list_unrealized_witness :
  (forall c, In c (cells (item_manager unrealized_view)) -> widget c = None) /\
  1 <= min_columns unrealized_view /\ 1 <= max_columns unrealized_view /\
  gtk_grid_view_measure_list unrealized_view 60 = Some (0, 0).
Proof.
  assert (H1 : forall c, In c (cells (item_manager unrealized_view)) -> widget c = None)
    by (intros c [<-|[]]; reflexivity).
  assert (H2 : 1 <= min_columns unrealized_view) by (vm_compute; discriminate).
  assert (H3 : 1 <= max_columns unrealized_view) by (vm_compute; discriminate).
  split; [exact H1|]. split; [exact H2|]. split; [exact H3|].
  exact (measure_list_unrealized unrealized_view 60 H1 H2 H3).
Defined.

Lemma uniform_view_cells :
  forall c, In c (cells (item_manager uniform_view)) -> c = realized 10.
Proof.
  intros c Hin. cbn in Hin.
  repeat (destruct Hin as [<-|Hin]; [reflexivity|]). destruct Hin.
Qed.


(** There the five items take two rows of three columns: 20 pixels. *)
Lemma measure_list_uniform_example :
  gtk_grid_view_measure_list uniform_view 60 = Some (20, 20).
Proof. reflexivity. Qed.

Lemma measure_minimum_le_natural_witness :
  (forall c w, In c (cells (item_manager uniform_view)) -> widget c = Some w ->
     fst (gtk_widget_measure w (OPPOSITE_ORIENTATION (orientation uniform_view)) (-1))
     <= snd (gtk_widget_measure w (OPPOSITE_ORIENTATION (orientation uniform_view)) (-1))) /\
  1 <= min_columns uniform_view <= max_columns uniform_view /\
  snd (gtk_grid_view_measure_column_size uniform_view) * max_columns uniform_view
  < gint_half /\
  exists minimum natural : Z,
    gtk_grid_view_measure uniform_view GTK_ORIENTATION_HORIZONTAL 100
    = Some (minimum, natural) /\
    minimum <= natural /\
    (orientation_eqb GTK_ORIENTATION_HORIZONTAL (orientation uniform_view) = true ->
     minimum = natural) /\
    (orientation_eqb GTK_ORIENTATION_HORIZONTAL (orientation uniform_view) = false ->
     minimum = fst (gtk_grid_view_measure_column_size uniform_view)
               * min_columns uniform_view /\
     natural = snd (gtk_grid_view_measure_column_size uniform_view)
               * max_columns uniform_view).
Proof.
  assert (H1 : forall c w, In c (cells (item_manager uniform_view)) ->
                 widget c = Some w ->
                 fst (gtk_widget_measure w
                        (OPPOSITE_ORIENTATION (orientation uniform_view)) (-1))
                 <= snd (gtk_widget_measure w
                           (OPPOSITE_ORIENTATION (orientation uniform_view)) (-1))).
  { intros c w Hin Hw. rewrite (uniform_view_cells c Hin) in Hw.
    injection Hw as <-. cbn. lia. }
  assert (H2 : 1 <= min_columns uniform_view <= max_columns uniform_view)
    by (vm_compute; split; discriminate).
  assert (H3 : snd (gtk_grid_view_measure_column_size uniform_view)
               * max_columns uniform_view < gint_half) by reflexivity.
  split; [exact H1|]. split; [exact H2|]. split; [exact H3|].
  exact (measure_minimum_le_natural uniform_view GTK_ORIENTATION_HORIZONTAL 100 H1 H2 H3).
Defined.

(* ================================================================== *)
(** ** Column bounds *)

Section ColumnBounds.

Context {D : Double}.



End ColumnBounds.


(** The setters do not keep the bounds ordered: there the calls leave a
    minimum of 5 columns above a maximum of 2. *)
Lemma column_setters_cross_bounds :
  min_columns (view (gv_state (fold_left columns_call columns_example_calls
                                 columns_example))) = 5 /\
  max_columns (view (gv_state (fold_left columns_call columns_example_calls
                                 columns_example))) = 2.
Proof. vm_compute. split; reflexivity. Qed.

(* ================================================================== *)
(** ** Placing the children *)

Lemma ForallOrdPairs_snoc {A : Type} (R : A -> A -> Prop) (l : list A) (b : A) :
  ForallOrdPairs R l -> Forall (fun a => R a b) l -> ForallOrdPairs R (l ++ [b]).
Proof.
  induction l as [|a l IH]; intros Hl Hb; cbn [app].
  - constructor; constructor.
  - inversion Hl as [|? ? Ha Hl']; subst. inversion Hb as [|? ? Hab Hb']; subst.
    constructor.
    + apply Forall_app. split; [assumption|]. constructor; [assumption|constructor].
    + now apply IH.
Qed.

Lemma size_allocate_step4_body_returns
    (self : GtkGridView) (dir : GtkTextDirection) (mirror_point x : Z)
    (s : Step4) (c : Cell) :
  n_columns self <> 0 ->
  exists (s' : Step4) (more : list (GtkWidget * GtkAllocation)),
    size_allocate_step4_body self dir mirror_point x s c = Some s' /\
    s4_children s' = s4_children s ++ more.
Proof.
  intros Hn. unfold size_allocate_step4_body, umod, udiv.
  destruct (Z.eqb_spec (n_columns self) 0); [contradiction|].
  destruct (widget c) as [w|].
  - destruct (if s4_i s =? 0 then _ else _) as [y row_height]. cbn [bind].
    eexists. eexists. split; reflexivity.
  - destruct (_ >? n_columns self);
      [|eexists; exists []; split; [reflexivity|cbn; now rewrite app_nil_r]].
    destruct (_ >? n_columns self); cbn [bind];
      (eexists; exists []; split; [reflexivity|cbn; now rewrite app_nil_r]).
Qed.

Lemma size_allocate_step4_loop_returns
    (self : GtkGridView) (dir : GtkTextDirection) (mirror_point x : Z)
    (cs : list Cell) :
  n_columns self <> 0 ->
  forall s : Step4,
  exists (s' : Step4) (more : list (GtkWidget * GtkAllocation)),
    for_each_cell_read (size_allocate_step4_body self dir mirror_point x) cs s
    = Some s' /\
    s4_children s' = s4_children s ++ more.
Proof.
  intros Hn. induction cs as [|c cs IH]; intros s; cbn [for_each_cell_read].
  - exists s, []. split; [reflexivity|now rewrite app_nil_r].
  - destruct (size_allocate_step4_body_returns self dir mirror_point x s c Hn)
      as (s1 & more1 & -> & E1).
    cbn [bind]. destruct (IH s1) as (s' & more & -> & E').
    exists s', (more1 ++ more). split; [reflexivity|].
    now rewrite E', E1, app_assoc.
Qed.

Lemma ForallOrdPairs_map {A B : Type} (R : B -> B -> Prop) (f : A -> B) (l : list A) :
  ForallOrdPairs R (map f l) <-> ForallOrdPairs (fun a b => R (f a) (f b)) l.
Proof.
  induction l as [|a l IH]; cbn [map]; split; intros H; try constructor;
    inversion H as [|? ? Ha Hl]; subst.
  - rewrite Forall_map in Ha. exact Ha.
  - now apply IH.
  - rewrite Forall_map. exact Ha.
  - now apply IH.
Qed.

Lemma ForallOrdPairs_impl {A : Type} (R R' : A -> A -> Prop) (l : list A) :
  (forall a b, R a b -> R' a b) -> ForallOrdPairs R l -> ForallOrdPairs R' l.
Proof.
  intros HR. induction 1 as [|a l Ha Hl IH]; constructor; [|exact IH].
  eapply Forall_impl; [|exact Ha]. intros b. apply HR.
Qed.

Lemma overlap_grid_coordinates
    (self : GtkGridView) (dir : GtkTextDirection) (mirror_point : Z)
    (a b : GtkAllocation) :
  overlap a b ->
  overlap (grid_coordinates self dir mirror_point a)
          (grid_coordinates self dir mirror_point b).
Proof.
  unfold overlap, grid_coordinates.
  destruct (orientation self); [destruct dir|]; cbn; lia.
Qed.

Section ChildrenRealized.

Variable self : GtkGridView.
Variable dir : GtkTextDirection.
Variables mirror_point x y0 total : Z.

Hypothesis Hn : 1 <= n_columns self < guint_modulus.
Hypothesis Hcw : 0 <= column_width self < gint_half.
Hypothesis Hx : - gint_half <= x.
Hypothesis Hxn : x + column_width self * n_columns self < gint_half.
Hypothesis Hy : - gint_half <= y0.
Hypothesis Htotal : total < gint_half.
Hypothesis Hytotal : y0 + total < gint_half.
Hypothesis Hmirror : - gint_half <= mirror_point - y0 - total.
Hypothesis Hmirror0 : mirror_point - y0 < gint_half.

Lemma grid_coordinates_child (cx cy cw ch : Z) :
  y0 <= cy -> 0 <= ch -> cy + ch <= y0 + total ->
  grid_coordinates self dir mirror_point
    (gtk_grid_view_size_allocate_child self dir mirror_point cx cy cw ch)
  = {| alloc_x := cx; alloc_y := cy; alloc_width := cw; alloc_height := ch |}.
Proof.
  intros Hcy Hch Hend. rewrite gint_half_eq in *.
  unfold grid_coordinates, gtk_grid_view_size_allocate_child.
  destruct (orientation self); [destruct dir|]; cbn; try reflexivity.
  rewrite (to_gint_small (mirror_point - cy))
    by (unfold is_gint; rewrite gint_half_eq; lia).
  rewrite to_gint_small by (unfold is_gint; rewrite gint_half_eq; lia).
  f_equal. lia.
Qed.

Lemma size_allocate_step4_body_realized (done : Z) (s : Step4) (c : Cell) (w : GtkWidget) :
  step4_invariant (grid_coordinates self dir mirror_point)
    (n_columns self) (column_width self) x y0 done s ->
  widget c = Some w -> 0 <= size c -> done + size c <= total ->
  exists s',
    size_allocate_step4_body self dir mirror_point x s c = Some s' /\
    step4_invariant (grid_coordinates self dir mirror_point)
      (n_columns self) (column_width self) x y0 (done + size c) s'.
Proof.
  intros (Hi & Hrh & Hy0 & Hydone & Hall & Hpairs) Hw Hsize Hdone.
  set (n := n_columns self) in *. set (cw := column_width self) in *.
  assert (Hcol : 0 <= cw * s4_i s /\ cw * (s4_i s + 1) <= cw * n) by nia.
  unfold size_allocate_step4_body. rewrite Hw. fold cw. fold n.
  rewrite (to_guint_small (s4_i s + 1)) by range_solve.
  replace (cw * (s4_i s + 1) - cw * s4_i s) with cw by lia.
  rewrite (to_gint_small cw) by range_solve.
  rewrite (to_gint_small (x + cw * s4_i s)) by range_solve.
  unfold umod. destruct (Z.eqb_spec n 0); [lia|].
  pose proof (Z.mod_pos_bound (s4_i s + 1) n ltac:(lia)) as Hmod.
  assert (Hnext : (s4_i s + 1) mod n = 0 \/ s4_i s < (s4_i s + 1) mod n).
  { destruct (Z.eq_dec (s4_i s + 1) n) as [E|E].
    - left. rewrite E. apply Z.mod_same. lia.
    - right. rewrite Z.mod_small by lia. lia. }
  destruct (Z.eqb_spec (s4_i s) 0) as [Ezero|Enz]; cbn [bind].
  - rewrite (to_gint_small (s4_y s + s4_row_height s)) by range_solve.
    rewrite (to_gint_small (size c)) by range_solve.
    eexists. split; [reflexivity|].
    unfold step4_invariant.
    cbn [s4_i s4_row_height s4_y s4_children].
    split; [lia|]. split; [lia|]. split; [lia|]. split; [lia|]. split.
    + apply Forall_app. split.
      * eapply Forall_impl; [|exact Hall].
        intros [w' a]. cbn [snd]. intros (Hw' & Hay & Hah & col & Hc & Hax & Hrow).
        split; [exact Hw'|]. split; [exact Hay|]. split; [exact Hah|].
        exists col. split; [exact Hc|]. split; [exact Hax|]. left.
        destruct Hrow as [Hrow|(-> & -> & _)]; lia.
      * constructor; [|constructor]. cbn [snd].
        rewrite grid_coordinates_child by lia.
        cbn [alloc_width alloc_y alloc_height alloc_x].
        split; [reflexivity|]. split; [lia|]. split; [lia|].
        exists (s4_i s). split; [lia|]. split; [reflexivity|]. right.
        split; [reflexivity|]. split; [reflexivity|]. exact Hnext.
    + rewrite map_app. cbn [map snd]. apply ForallOrdPairs_snoc; [exact Hpairs|].
      apply Forall_map. eapply Forall_impl; [|exact Hall].
      intros [w' a]. cbn [snd]. intros (Hw' & Hay & Hah & col & Hc & Hax & Hrow).
      rewrite grid_coordinates_child by lia.
      unfold overlap. cbn [alloc_width alloc_y alloc_height alloc_x].
      destruct Hrow as [Hrow|(Ey & Eh & _)]; lia.
  - eexists. split; [reflexivity|].
    unfold step4_invariant.
    cbn [s4_i s4_row_height s4_y s4_children].
    split; [lia|]. split; [lia|]. split; [lia|]. split; [lia|]. split.
    + apply Forall_app. split.
      * eapply Forall_impl; [|exact Hall].
        intros [w' a]. cbn [snd]. intros (Hw' & Hay & Hah & col & Hc & Hax & Hrow).
        split; [exact Hw'|]. split; [exact Hay|]. split; [exact Hah|].
        exists col. split; [exact Hc|]. split; [exact Hax|].
        destruct Hrow as [Hrow|(Ey & Eh & Hcol')]; [now left|right].
        split; [exact Ey|]. split; [exact Eh|]. lia.
      * constructor; [|constructor]. cbn [snd].
        rewrite grid_coordinates_child by lia.
        cbn [alloc_width alloc_y alloc_height alloc_x].
        split; [reflexivity|]. split; [lia|]. split; [lia|].
        exists (s4_i s). split; [lia|]. split; [reflexivity|]. right.
        split; [reflexivity|]. split; [reflexivity|]. exact Hnext.
    + rewrite map_app. cbn [map snd]. apply ForallOrdPairs_snoc; [exact Hpairs|].
      apply Forall_map. eapply Forall_impl; [|exact Hall].
      intros [w' a]. cbn [snd]. intros (Hw' & Hay & Hah & col & Hc & Hax & Hrow).
      rewrite grid_coordinates_child by lia.
      unfold overlap. cbn [alloc_width alloc_y alloc_height alloc_x].
      destruct Hrow as [Hrow|(Ey & Eh & Hcol')]; [lia|].
      assert (cw * (col + 1) <= cw * s4_i s) by nia. lia.
Qed.

Lemma size_allocate_step4_loop_realized (cs : list Cell) :
  forall (done : Z) (s : Step4),
    step4_invariant (grid_coordinates self dir mirror_point)
      (n_columns self) (column_width self) x y0 done s ->
    Forall (fun c => widget c <> None /\ 0 <= size c) cs ->
    done + fold_right Z.add 0 (map size cs) <= total ->
    exists s',
      for_each_cell_read (size_allocate_step4_body self dir mirror_point x) cs s
      = Some s' /\
      step4_invariant (grid_coordinates self dir mirror_point)
        (n_columns self) (column_width self) x y0
        (done + fold_right Z.add 0 (map size cs)) s'.
Proof.
  induction cs as [|c cs IH]; intros done s Hs Hcs Hdone.
  - exists s. split; [reflexivity|]. cbn. now rewrite Z.add_0_r.
  - inversion Hcs as [|? ? [Hw Hsize] Hcs']; subst.
    cbn [map fold_right] in Hdone |- *.
    assert (Hrest : 0 <= fold_right Z.add 0 (map size cs)).
    { clear - Hcs'. induction Hcs' as [|c' cs' [_ Hc'] _ IH']; cbn; lia. }
    destruct (widget c) as [w|] eqn:Ew; [|contradiction].
    destruct (size_allocate_step4_body_realized done s c w Hs Ew Hsize ltac:(lia))
      as (s1 & E1 & Hs1).
    cbn [for_each_cell_read]. rewrite E1. cbn [bind].
    destruct (IH (done + size c) s1 Hs1 Hcs' ltac:(lia)) as (s' & E' & Hs').
    exists s'. split; [exact E'|]. now rewrite Z.add_assoc.
Qed.

End ChildrenRealized.

(** X23.  In a grid all of whose cells are realized, and whose columns and
    rows fit the range of an [int], step 4 of the layout pass allocates
    every child, in the coordinates of the grid, inside the box of the
    content, with the width of a column and a height that is not
    negative; and no two children overlap, whatever the orientation and
    the text direction. *)
Theorem children_do_not_overlap
    (self : GtkGridView) (dir : GtkTextDirection) (mirror_point x y : Z) :
  1 <= n_columns self < guint_modulus ->
  0 <= column_width self < gint_half ->
  - gint_half <= x -> x + column_width self * n_columns self < gint_half ->
  - gint_half <= y -> total_size (item_manager self) < gint_half ->
  y + total_size (item_manager self) < gint_half ->
  - gint_half <= mirror_point - y - total_size (item_manager self) ->
  mirror_point - y < gint_half ->
  cells_ok (item_manager self) ->
  (forall c, In c (cells (item_manager self)) -> widget c <> None) ->
  exists children : list (GtkWidget * GtkAllocation),
    gtk_grid_view_size_allocate_children self dir mirror_point x y = Some children /\
    Forall
      (fun wa : GtkWidget * GtkAllocation =>
         let a := grid_coordinates self dir mirror_point (snd wa) in
         x <= alloc_x a /\
         alloc_x a + alloc_width a <= x + column_width self * n_columns self /\
         alloc_width a = column_width self /\
         y <= alloc_y a /\ 0 <= alloc_height a /\
         alloc_y a + alloc_height a <= y + total_size (item_manager self))
      children /\
    ForallOrdPairs (fun a b => ~ overlap a b) (map snd children).
Proof.
  intros Hn Hcw Hx Hxn Hy Htotal Hytotal Hmirror Hmirror0 Hok Hall.
  unfold gtk_grid_view_size_allocate_children.
  destruct (size_allocate_step4_loop_realized self dir mirror_point x y
              (total_size (item_manager self))
              Hn Hcw Hx Hxn Hy Htotal Hytotal Hmirror Hmirror0
              (cells (item_manager self)) 0
              {| s4_i := 0; s4_row_height := 0; s4_y := y; s4_children := [] |})
    as (s & -> & Hi & Hrh & Hy0 & Hydone & Hchildren & Hpairs).
  - unfold step4_invariant. cbn [s4_i s4_row_height s4_y s4_children map].
    repeat split; try lia; constructor.
  - apply Forall_forall. intros c Hin. split; [now apply Hall|].
    unfold cells_ok in Hok. rewrite Forall_forall in Hok.
    destruct (Hok c Hin) as [_ Hs]. unfold is_guint in Hs. lia.
  - unfold total_size. lia.
  - cbn [bind]. exists (s4_children s). split; [reflexivity|]. split.
    + eapply Forall_impl; [|exact Hchildren].
      intros [w a]. cbn [snd]. intros (Hw & Hay & Hah & col & Hc & Hax & Hrow).
      change (0 + fold_right Z.add 0 (map size (cells (item_manager self))))
        with (total_size (item_manager self)) in Hydone.
      assert (column_width self * (col + 1) <= column_width self * n_columns self) by nia.
      assert (0 <= column_width self * col) by nia.
      split; [lia|]. split; [lia|]. split; [exact Hw|]. split; [exact Hay|].
      split; [exact Hah|].
      destruct Hrow as [Hrow|(Ey & Eh & _)]; lia.
    + apply ForallOrdPairs_map. apply ForallOrdPairs_map in Hpairs.
      eapply ForallOrdPairs_impl; [|exact Hpairs].
      intros a b Hab Ho. apply Hab.
      now apply overlap_grid_coordinates.
Qed.


(** X24.  A realized child that shares the first row with a leading
    unrealized run of fewer than [n_columns] items is allocated no extent
    along the grid: step 4 never takes the height of that row from the
    run, so the child gets [row_height = 0], at the [y] the loop began
    with. *)
Theorem child_after_leading_run
    (self : GtkGridView) (dir : GtkTextDirection) (mirror_point x y : Z)
    (run c : Cell) (w : GtkWidget) (rest : list Cell) :
  cells (item_manager self) = run :: c :: rest ->
  widget run = None -> widget c = Some w ->
  0 < n_items run < n_columns self -> n_columns self < guint_modulus ->
  exists (a : GtkAllocation) (children : list (GtkWidget * GtkAllocation)),
    gtk_grid_view_size_allocate_children self dir mirror_point x y
    = Some ((w, a) :: children) /\
    match orientation self with
    | GTK_ORIENTATION_VERTICAL => alloc_height a = 0 /\ alloc_y a = y
    | GTK_ORIENTATION_HORIZONTAL => alloc_width a = 0
    end.
Proof.
  intros Hcells Hrun Hc Hitems Hn.
  unfold gtk_grid_view_size_allocate_children. rewrite Hcells.
  cbn [for_each_cell_read].
  unfold size_allocate_step4_body at 1. rewrite Hrun. cbn [s4_i s4_row_height s4_y].
  rewrite Z.add_0_l.
  rewrite (to_guint_small (n_items run)) by (unfold is_guint; lia).
  destruct (Z.gtb_spec (n_items run) (n_columns self)) as [|_]; [lia|].
  cbn [bind].
  unfold size_allocate_step4_body at 1. rewrite Hc. cbn [s4_i s4_row_height s4_y].
  destruct (Z.eqb_spec (n_items run) 0) as [|_]; [lia|].
  unfold umod at 1. destruct (Z.eqb_spec (n_columns self) 0); [lia|]. cbn [bind].
  match goal with
  | |- context [for_each_cell_read ?body rest ?s1] =>
      destruct (size_allocate_step4_loop_returns self dir mirror_point x rest
                  ltac:(lia) s1) as (s' & more & -> & E)
  end.
  cbn [bind]. rewrite E. cbn [s4_children app].
  eexists. eexists. split; [reflexivity|].
  unfold gtk_grid_view_size_allocate_child.
  destruct (orientation self).
  - destruct dir; reflexivity.
  - split; reflexivity.
Qed.

(* ================================================================== *)
(** ** Children of the example grids *)

Lemma uniform_laid_out_layout :
  n_columns uniform_laid_out = 3 /\ column_width uniform_laid_out = 20 /\
  map size (cells (item_manager uniform_laid_out)) = [10; 0; 0; 10; 0].
Proof. vm_compute. repeat split. Qed.

Lemma children_do_not_overlap_witness :
  1 <= n_columns uniform_sideways < guint_modulus /\
  0 <= column_width uniform_sideways < gint_half /\
  - gint_half <= 0 /\
  0 + column_width uniform_sideways * n_columns uniform_sideways < gint_half /\
  - gint_half <= -5 /\
  total_size (item_manager uniform_sideways) < gint_half /\
  -5 + total_size (item_manager uniform_sideways) < gint_half /\
  - gint_half <= 100 - -5 - total_size (item_manager uniform_sideways) /\
  100 - -5 < gint_half /\
  cells_ok (item_manager uniform_sideways) /\
  (forall c, In c (cells (item_manager uniform_sideways)) -> widget c <> None) /\
  exists children : list (GtkWidget * GtkAllocation),
    gtk_grid_view_size_allocate_children uniform_sideways GTK_TEXT_DIR_RTL 100 0 (-5)
    = Some children /\
    Forall
      (fun wa : GtkWidget * GtkAllocation =>
         let a := grid_coordinates uniform_sideways GTK_TEXT_DIR_RTL 100 (snd wa) in
         0 <= alloc_x a /\
         alloc_x a + alloc_width a
         <= 0 + column_width uniform_sideways * n_columns uniform_sideways /\
         alloc_width a = column_width uniform_sideways /\
         -5 <= alloc_y a /\ 0 <= alloc_height a /\
         alloc_y a + alloc_height a <= -5 + total_size (item_manager uniform_sideways))
      children /\
    ForallOrdPairs (fun a b => ~ overlap a b) (map snd children).
Proof.
  assert (H2 : 1 <= n_columns uniform_sideways < guint_modulus)
    by (vm_compute; split; [discriminate | reflexivity]).
  assert (H3 : 0 <= column_width uniform_sideways < gint_half)
    by (vm_compute; split; [discriminate | reflexivity]).
  assert (H4 : - gint_half <= 0) by (vm_compute; discriminate).
  assert (H5 : 0 + column_width uniform_sideways * n_columns uniform_sideways < gint_half)
    by (vm_compute; reflexivity).
  assert (H6 : - gint_half <= -5) by (vm_compute; discriminate).
  assert (H7 : total_size (item_manager uniform_sideways) < gint_half)
    by (vm_compute; reflexivity).
  assert (H8 : -5 + total_size (item_manager uniform_sideways) < gint_half)
    by (vm_compute; reflexivity).
  assert (H8a : - gint_half <= 100 - -5 - total_size (item_manager uniform_sideways))
    by (vm_compute; discriminate).
  assert (H8b : 100 - -5 < gint_half) by (vm_compute; reflexivity).
  assert (H9 : cells_ok (item_manager uniform_sideways)).
  { unfold cells_ok.
    let cs := eval vm_compute in (cells (item_manager uniform_sideways)) in
    change (cells (item_manager uniform_sideways)) with cs.
    repeat (apply Forall_cons;
            [split; unfold is_guint; rewrite guint_modulus_eq; simpl; lia|]).
    apply Forall_nil. }
  assert (H10 : forall c, In c (cells (item_manager uniform_sideways)) ->
                          widget c <> None).
  { intros c Hin.
    let cs := eval vm_compute in (cells (item_manager uniform_sideways)) in
    change (cells (item_manager uniform_sideways)) with cs in Hin.
    repeat (destruct Hin as [<-|Hin]; [discriminate|]). destruct Hin. }
  split; [exact H2|]. split; [exact H3|]. split; [exact H4|].
  split; [exact H5|]. split; [exact H6|]. split; [exact H7|]. split; [exact H8|].
  split; [exact H8a|]. split; [exact H8b|].
  split; [exact H9|]. split; [exact H10|].
  exact (children_do_not_overlap uniform_sideways GTK_TEXT_DIR_RTL 100 0 (-5)
           H2 H3 H4 H5 H6 H7 H8 H8a H8b H9 H10).
Defined.

(** There, from right to left, the five children take two columns of
    width 10 in rows of height 20, the first ending 5 pixels to the right
    of the mirror point. *)
Lemma children_sideways_example :
  option_map (map (fun wa : GtkWidget * GtkAllocation =>
                     (alloc_x (snd wa), alloc_y (snd wa),
                      alloc_width (snd wa), alloc_height (snd wa))))
    (gtk_grid_view_size_allocate_children uniform_sideways GTK_TEXT_DIR_RTL 100 0 (-5))
  = Some [(95, 0, 10, 20); (95, 20, 10, 20); (95, 40, 10, 20);
          (85, 0, 10, 20); (85, 20, 10, 20)].
Proof. vm_compute. reflexivity. Qed.

(** There the five children take two rows of height 10 in columns of
    width 20, beginning 5 pixels above the viewport. *)
Lemma children_example :
  option_map (map (fun wa : GtkWidget * GtkAllocation =>
                     (alloc_x (snd wa), alloc_y (snd wa),
                      alloc_width (snd wa), alloc_height (snd wa))))
    (gtk_grid_view_size_allocate_children uniform_laid_out GTK_TEXT_DIR_LTR 60 0 (-5))
  = Some [(0, -5, 20, 10); (20, -5, 20, 10); (40, -5, 20, 10);
          (0, 5, 20, 10); (20, 5, 20, 10)].
Proof. vm_compute. reflexivity. Qed.

Lemma child_after_leading_run_witness :
  cells (item_manager leading_run_view) = [leading_run; realized 10; realized 10] /\
  widget leading_run = None /\ widget (realized 10) = Some leading_run_child /\
  0 < n_items leading_run < n_columns leading_run_view /\
  n_columns leading_run_view < guint_modulus /\
  exists (a : GtkAllocation) (children : list (GtkWidget * GtkAllocation)),
    gtk_grid_view_size_allocate_children leading_run_view GTK_TEXT_DIR_LTR 60 0 0
    = Some ((leading_run_child, a) :: children) /\
    match orientation leading_run_view with
    | GTK_ORIENTATION_VERTICAL => alloc_height a = 0 /\ alloc_y a = 0
    | GTK_ORIENTATION_HORIZONTAL => alloc_width a = 0
    end.
Proof.
  assert (H1 : cells (item_manager leading_run_view)
               = [leading_run; realized 10; realized 10]) by reflexivity.
  assert (H2 : widget leading_run = None) by reflexivity.
  assert (H3 : widget (realized 10) = Some leading_run_child) by reflexivity.
  assert (H4 : 0 < n_items leading_run < n_columns leading_run_view)
    by (vm_compute; split; reflexivity).
  assert (H5 : n_columns leading_run_view < guint_modulus)
    by (vm_compute; reflexivity).
  split; [exact H1|]. split; [exact H2|]. split; [exact H3|]. split; [exact H4|].
  split; [exact H5|].
  exact (child_after_leading_run leading_run_view GTK_TEXT_DIR_LTR 60 0 0
           leading_run (realized 10) leading_run_child [realized 10] H1 H2 H3 H4 H5).
Defined.

(** There the row of the two children has height 10, as the position
    query reports for item 1, and the children are allocated height 0. *)
Lemma child_after_leading_run_example :
  option_map sp_size (gtk_grid_view_get_size_at_position leading_run_view 1) = Some 10 /\
  option_map (map (fun wa : GtkWidget * GtkAllocation =>
                     (alloc_x (snd wa), alloc_y (snd wa),
                      alloc_width (snd wa), alloc_height (snd wa))))
    (gtk_grid_view_size_allocate_children leading_run_view GTK_TEXT_DIR_LTR 60 0 0)
  = Some [(20, 0, 20, 0); (40, 0, 20, 0)].
Proof. split; vm_compute; reflexivity. Qed.

(* ================================================================== *)
(** ** Layout pass: the rows of a realized grid *)

Lemma handles_length (t : GtkRbTree) :
  length (gtk_rb_tree_handles t) = length (cells t).
Proof.
  rewrite <- (length_map (gtk_rb_tree_node t)), handles_cells. apply length_map.
Qed.

Lemma update_cells (upd : Cell -> Cell) (t : GtkRbTree) :
  forall (k : nat) (h : Handle),
    nth_error (gtk_rb_tree_handles t) k = Some h ->
    exists c,
      gtk_rb_tree_node t h = Some c /\
      nth_error (cells t) k = Some c /\
      cells (gtk_rb_tree_update upd t h)
      = firstn k (cells t) ++ upd c :: skipn (S k) (cells t).
Proof.
  induction t as [|l IHl c a d r IHr]; intros k h Hk.
  { destruct k; discriminate. }
  cbn [gtk_rb_tree_handles cells] in *.
  pose proof (handles_length l) as Hlen. unfold Handle in *.
  assert (Hmap : length (map (cons L) (gtk_rb_tree_handles l)) = length (cells l))
    by (rewrite length_map; exact Hlen).
  destruct (Nat.lt_ge_cases k (length (cells l))) as [Hlt|Hge].
  - rewrite nth_error_app1 in Hk by (rewrite Hmap; exact Hlt).
    rewrite nth_error_map in Hk.
    match type of Hk with
    | option_map _ ?x = _ => destruct x as [h'|] eqn:Eh
    end; cbn [option_map] in Hk; [|discriminate].
    injection Hk as <-.
    destruct (IHl k h' Eh) as (c' & Hnode & Hnth & Hupd).
    exists c'. split; [exact Hnode|]. split.
    + rewrite nth_error_app1 by lia. exact Hnth.
    + cbn [gtk_rb_tree_update cells]. rewrite Hupd.
      rewrite firstn_app, skipn_app.
      replace (k - length (cells l))%nat with 0%nat by lia.
      replace (S k - length (cells l))%nat with 0%nat by lia.
      cbn [firstn skipn]. rewrite app_nil_r, <- app_assoc. reflexivity.
  - rewrite nth_error_app2 in Hk by (rewrite Hmap; exact Hge).
    rewrite Hmap in Hk.
    destruct (k - length (cells l))%nat as [|k'] eqn:Ek.
    + cbn [nth_error] in Hk. injection Hk as <-.
      assert (k = length (cells l)) as -> by lia.
      exists c. split; [reflexivity|]. split.
      * rewrite nth_error_app2 by lia. rewrite Nat.sub_diag. reflexivity.
      * cbn [gtk_rb_tree_update cells].
        rewrite firstn_app, skipn_app, firstn_all, Nat.sub_diag.
        replace (S (length (cells l)) - length (cells l))%nat with 1%nat by lia.
        rewrite skipn_all2 by lia. cbn [firstn skipn app]. now rewrite app_nil_r.
    + cbn [nth_error] in Hk. rewrite nth_error_map in Hk.
      match type of Hk with
      | option_map _ ?x = _ => destruct x as [h'|] eqn:Eh
      end; cbn [option_map] in Hk; [|discriminate].
      injection Hk as <-.
      destruct (IHr k' h' Eh) as (c' & Hnode & Hnth & Hupd).
      exists c'. split; [exact Hnode|]. split.
      * rewrite nth_error_app2 by lia. rewrite Ek. exact Hnth.
      * cbn [gtk_rb_tree_update cells]. rewrite Hupd.
        rewrite firstn_app, skipn_app, Ek.
        replace (S k - length (cells l))%nat with (S (S k')) by lia.
        rewrite (firstn_all2 (n := k) (cells l)) by lia.
        rewrite (skipn_all2 (n := S k) (cells l)) by lia.
        cbn [firstn skipn app]. rewrite <- app_assoc. reflexivity.
Qed.

Lemma sizes_set_size (t : GtkRbTree) (h : Handle) (s : Z)
    (front : list Z) (x : Z) (back : list Z) :
  nth_error (gtk_rb_tree_handles t) (length front) = Some h ->
  map size (cells t) = front ++ x :: back ->
  (exists c, gtk_rb_tree_node t h = Some c /\ size c = x) /\
  map size (cells (cell_set_size t h s)) = front ++ s :: back.
Proof.
  intros Hh Hsizes.
  destruct (update_cells (with_size s) t _ h Hh) as (c & Hnode & Hnth & Hupd).
  assert (Hx : size c = x /\ map size (firstn (length front) (cells t)) = front /\
               map size (skipn (S (length front)) (cells t)) = back).
  { rewrite <- firstn_map, <- skipn_map, Hsizes.
    apply (map_nth_error size) in Hnth. rewrite Hsizes in Hnth.
    rewrite nth_error_app2, Nat.sub_diag in Hnth by lia. injection Hnth as Hx.
    split; [symmetry; exact Hx|]. split.
    - rewrite firstn_app, firstn_all, Nat.sub_diag. cbn. now rewrite app_nil_r.
    - rewrite skipn_app, skipn_all2 by lia.
      replace (S (length front) - length front)%nat with 1%nat by lia. reflexivity. }
  destruct Hx as (Hx & Hfront & Hback).
  split; [eauto|].
  unfold cell_set_size. rewrite Hnode.
  destruct (Z.eqb_spec (size c) s) as [E|_].
  - rewrite Hsizes. congruence.
  - rewrite Hupd, map_app. cbn [map with_size size]. now rewrite Hfront, Hback.
Qed.

Lemma row_sizes_length (row : list Z) : length (row_sizes row) = length row.
Proof. destruct row; cbn; [reflexivity|]. now rewrite length_map. Qed.

Lemma concat_row_sizes_length (rows : list (list Z)) :
  length (concat (map row_sizes rows)) = length (concat rows).
Proof.
  induction rows as [|row rows IH]; [reflexivity|].
  cbn [map concat]. now rewrite !length_app, row_sizes_length, IH.
Qed.

Lemma fold_left_max_bounds (row : list Z) (a : Z) :
  0 <= a < gint_half -> Forall measured row ->
  0 <= fold_left Z.max row a < gint_half.
Proof.
  revert a. induction row as [|h row IH]; intros a Ha Hrow; cbn [fold_left]; [exact Ha|].
  inversion Hrow as [|? ? Hh Hrow']; subst. unfold measured in Hh.
  apply IH; [lia|assumption].
Qed.

Lemma zeros_snoc (open : list Z) (hk : Z) :
  map (fun _ : Z => 0) open ++ [0] = 0 :: map (fun _ : Z => 0) (tl (open ++ [hk])).
Proof.
  destruct open as [|a open]; [reflexivity|].
  cbn [map app tl]. f_equal. rewrite map_app. reflexivity.
Qed.

Lemma row_sizes_snoc (open : list Z) (hk : Z) :
  row_sizes (open ++ [hk])
  = Z.max (fold_left Z.max open 0) hk :: map (fun _ : Z => 0) (tl (open ++ [hk])).
Proof.
  unfold row_sizes. rewrite fold_left_app. cbn [fold_left].
  destruct (open ++ [hk]) as [|a l] eqn:E; [|reflexivity].
  destruct open; discriminate.
Qed.

Lemma size_allocate_step2_body_rows
    (self : GtkGridView) (t0 : GtkRbTree) (n : Z) (done rest : list Z) (o : Z)
    (s : Step2) (h : Handle) (c0 : Cell) (hk : Z) :
  n_columns self = n -> 1 <= n < guint_modulus ->
  step2_rows t0 n done (o :: rest) s ->
  nth_error (gtk_rb_tree_handles t0) (length done) = Some h ->
  gtk_rb_tree_node t0 h = Some c0 -> n_items c0 = 1 ->
  realized_heights self [c0] = [hk] -> measured hk ->
  exists s',
    size_allocate_step2_body self s h = Some s' /\
    step2_rows t0 n (done ++ [hk]) rest s'.
Proof.
  intros Hcols Hn (Hsame & rows & open & Hdone & Hrows & Hopen & Hmeas & Hsizes
                   & Hi & Hrh & Hh & Hstart) Hnth Hc0 Hone Hhk Hmk.
  destruct (same_items_node _ _ _ _ Hsame Hc0) as (c & Hc & Hitems & Hwidget).
  pose proof (same_items_handles _ _ Hsame) as Hhandles.
  rewrite guint_modulus_eq in Hn.
  assert (Hopen_m : Forall measured open).
  { rewrite Hdone in Hmeas. apply Forall_app in Hmeas. tauto. }
  pose proof (fold_left_max_bounds open 0 ltac:(rewrite gint_half_eq; lia) Hopen_m) as Hrow.
  assert (Hmk' := Hmk). unfold measured in Hmk'. rewrite gint_half_eq in Hrow, Hmk'.
  set (front := concat (map row_sizes rows)) in *.
  set (zeros := map (fun _ : Z => 0) open) in *.
  assert (Hfront : length front = length (concat rows))
    by apply concat_row_sizes_length.
  assert (Hpos : length (front ++ zeros) = length done).
  { unfold zeros. rewrite Hdone, !length_app, length_map, Hfront. reflexivity. }
  (* the cell is set to 0 *)
  destruct (sizes_set_size (s2_tree s) h 0 (front ++ zeros) o rest) as [_ Hsizes0].
  { rewrite Hhandles, Hpos. exact Hnth. }
  { rewrite Hsizes, app_assoc. reflexivity. }
  assert (Hsame0 : same_items t0 (cell_set_size (s2_tree s) h 0)).
  { eapply same_items_trans; [exact Hsame|apply same_items_set_size]. }
  (* the start of the open row *)
  assert (Hst : exists st,
             (if s2_i s =? 0 then Some h else s2_start s) = Some st /\
             nth_error (gtk_rb_tree_handles t0) (length front) = Some st).
  { rewrite Hfront. destruct open as [|a open'].
    - rewrite Hi. cbn [length Z.of_nat Z.eqb]. exists h. split; [reflexivity|].
      rewrite Hdone, app_nil_r in Hnth. exact Hnth.
    - destruct (Hstart ltac:(discriminate)) as (st & Est & Hst).
      rewrite Hi. cbn [length]. rewrite Nat2Z.inj_succ.
      destruct (Z.eqb_spec (Z.succ (Z.of_nat (length open'))) 0); [lia|]. eauto. }
  destruct Hst as (st & Est & Hst).
  (* the body *)
  unfold size_allocate_step2_body. rewrite Hc. cbn [bind].
  unfold realized_heights in Hhk. cbn [flat_map] in Hhk. rewrite app_nil_r in Hhk.
  rewrite Hwidget.
  destruct (widget c0) as [w|]; [|discriminate].
  destruct (gtk_widget_measure w (orientation self) (column_width self)) as [mn nt].
  injection Hhk as Hhk. rewrite Est, Hhk, Hitems, Hone, Hi, Hrh, Hh, Hcols, MAX_spec.
  rewrite (to_guint_small (Z.of_nat (length open) + 1))
    by (unfold is_guint; rewrite guint_modulus_eq; lia).
  destruct (Z.geb_spec (Z.of_nat (length open) + 1) n) as [Hfull|Hpart].
  - unfold umod. destruct (Z.eqb_spec n 0); [lia|]. cbn [bind].
    destruct (sizes_set_size (cell_set_size (s2_tree s) h 0) st
                (to_guint (0 + to_guint (Z.max (fold_left Z.max open 0) hk)))
                front 0 (map (fun _ : Z => 0) (tl (open ++ [hk])) ++ rest))
      as [(c1 & Hc1 & Hsize1) Hsizes1].
    { rewrite (same_items_handles _ _ Hsame0). exact Hst. }
    { rewrite Hsizes0. unfold zeros.
      rewrite <- app_assoc. f_equal.
      change (0 :: rest) with ([0] ++ rest). rewrite app_assoc, (zeros_snoc open hk).
      reflexivity. }
    unfold cell_add_size. rewrite Hc1. cbn [bind]. rewrite Hsize1.
    eexists. split; [reflexivity|].
    split.
    { cbn [s2_tree]. eapply same_items_trans; [exact Hsame0|apply same_items_set_size]. }
    exists (rows ++ [open ++ [hk]]), [].
    cbn [s2_tree s2_i s2_row_height s2_start s2_heights].
    split.
    { rewrite concat_app, Hdone. cbn [concat]. rewrite !app_nil_r, app_assoc. reflexivity. }
    split.
    { apply Forall_app. split; [exact Hrows|]. constructor; [|constructor].
      rewrite length_app. cbn [length]. lia. }
    split; [cbn; lia|].
    split.
    { apply Forall_app. split; [exact Hmeas|]. constructor; [exact Hmk|constructor]. }
    split.
    { rewrite Hsizes1, map_app, concat_app. cbn [map concat app].
      rewrite app_nil_r, row_sizes_snoc. fold front.
      rewrite Z.add_0_l, (to_guint_small (Z.max _ _))
        by (unfold is_guint; rewrite guint_modulus_eq; lia).
      rewrite to_guint_small by (unfold is_guint; rewrite guint_modulus_eq; lia).
      rewrite <- app_assoc. reflexivity. }
    split.
    { replace (Z.of_nat (length open) + 1) with n by lia. cbn [length Z.of_nat].
      apply Z.mod_same. lia. }
    split; [reflexivity|]. split; [reflexivity|]. intros Hne. now contradiction Hne.
  - eexists. split; [reflexivity|].
    split; [exact Hsame0|].
    exists rows, (open ++ [hk]).
    cbn [s2_tree s2_i s2_row_height s2_start s2_heights].
    split; [rewrite Hdone, app_assoc; reflexivity|].
    split; [exact Hrows|].
    split; [rewrite length_app; cbn [length]; lia|].
    split.
    { apply Forall_app. split; [exact Hmeas|]. constructor; [exact Hmk|constructor]. }
    split.
    { rewrite Hsizes0, map_app. cbn [map]. fold zeros. fold front.
      rewrite <- !app_assoc. reflexivity. }
    split; [rewrite length_app; cbn [length]; lia|].
    split; [rewrite fold_left_app; reflexivity|].
    split; [reflexivity|].
    intros _. exists st. split; [reflexivity|]. rewrite <- Hfront. exact Hst.
Qed.

Lemma size_allocate_step2_loop_rows
    (self : GtkGridView) (t0 : GtkRbTree) (n : Z) :
  n_columns self = n -> 1 <= n < guint_modulus ->
  forall (hs : list Handle) (cs : list Cell) (done rest : list Z) (s : Step2),
    (forall j h, nth_error hs j = Some h ->
                 nth_error (gtk_rb_tree_handles t0) (length done + j) = Some h) ->
    map (gtk_rb_tree_node t0) hs = map Some cs ->
    Forall (fun c => n_items c = 1 /\
                     exists hk, realized_heights self [c] = [hk] /\ measured hk) cs ->
    length rest = length cs ->
    step2_rows t0 n done rest s ->
    exists s',
      for_each_cell (size_allocate_step2_body self) hs s = Some s' /\
      step2_rows t0 n (done ++ realized_heights self cs) [] s'.
Proof.
  intros Hcols Hn. induction hs as [|h hs IH]; intros cs done rest s Hpos Hcs Hall Hlen Hs.
  - destruct cs; [|discriminate]. destruct rest; [|discriminate].
    exists s. split; [reflexivity|]. cbn. now rewrite app_nil_r.
  - destruct cs as [|c0 cs]; [discriminate|]. destruct rest as [|o rest]; [discriminate|].
    cbn [map] in Hcs. injection Hcs as Hc0 Hcs.
    inversion Hall as [|? ? (Hone & hk & Hhk & Hmk) Hall']; subst.
    destruct (size_allocate_step2_body_rows self t0 (n_columns self) done rest o s h c0 hk
                eq_refl Hn Hs) as (s1 & E1 & Hs1); try assumption.
    { specialize (Hpos 0%nat h eq_refl). now rewrite Nat.add_0_r in Hpos. }
    cbn [for_each_cell]. rewrite E1. cbn [bind].
    destruct (IH cs (done ++ [hk]) rest s1) as (s' & E' & Hs'); try assumption.
    { intros j h' Hj. specialize (Hpos (S j) h' Hj).
      rewrite length_app. cbn [length].
      replace (length done + 1 + j)%nat with (length done + S j)%nat by lia.
      exact Hpos. }
    { cbn [length] in Hlen. lia. }
    exists s'. split; [exact E'|].
    replace (realized_heights self (c0 :: cs)) with ([hk] ++ realized_heights self cs).
    + now rewrite app_assoc.
    + rewrite <- Hhk. unfold realized_heights. cbn [flat_map].
      now rewrite app_nil_r.
Qed.

Lemma size_allocate_step3_loop_realized
    (self : GtkGridView) (t : GtkRbTree) (hs : list Handle) :
  1 <= n_columns self < guint_modulus ->
  (forall h, In h hs ->
     exists c, gtk_rb_tree_node t h = Some c /\ n_items c = 1 /\ widget c <> None) ->
  forall s : Step3,
    s3_tree s = t -> 0 <= s3_i s < n_columns self ->
    (0 < s3_i s -> s3_known s = true) ->
    exists s',
      for_each_cell (size_allocate_step3_body self) hs s = Some s' /\
      s3_tree s' = t /\ (0 < s3_i s' -> s3_known s' = true).
Proof.
  intros Hn Hall s Ht Hi Hknown.
  destruct (for_each_cell_invariant (size_allocate_step3_body self)
              (fun s => s3_tree s = t /\ 0 <= s3_i s < n_columns self /\
                        (0 < s3_i s -> s3_known s = true)) hs) with (s := s)
    as (s' & E & Ht' & _ & Hk'); [|auto|eauto].
  clear s Ht Hi Hknown. intros s h Hin (Ht & Hi & Hknown).
  destruct (Hall h Hin) as (c & Hc & Hone & Hw).
  rewrite guint_modulus_eq in Hn.
  unfold size_allocate_step3_body. rewrite Ht, Hc. cbn [bind]. rewrite Hone.
  destruct (widget c) as [w|]; [|contradiction].
  rewrite (to_guint_small (s3_i s + 1))
    by (unfold is_guint; rewrite guint_modulus_eq; lia).
  destruct (Z.geb_spec (s3_i s + 1) (n_columns self)) as [Hfull|Hpart].
  - cbn [negb bind]. replace (s3_i s + 1 - n_columns self) with 0 by lia.
    change (to_guint 0) with 0.
    destruct (Z.geb_spec 0 (n_columns self)); [lia|].
    eexists. split; [reflexivity|]. cbn. repeat split; lia.
  - eexists. split; [reflexivity|]. cbn. repeat split; lia.
Qed.

(** X26.  On a grid of realized single items whose heights fit an [int],
    a layout pass makes every row as high as its highest cell: the
    heights, taken in rows of [n_columns] (the last row may be shorter),
    give the sizes row by row, the height of the row in its first cell and
    0 in the others. *)
Theorem size_allocate_realized_rows (self : GtkGridView) (for_size : Z) :
  0 <= for_size < gint_half ->
  is_gint (fst (gtk_grid_view_measure_column_size self)) ->
  is_gint (snd (gtk_grid_view_measure_column_size self)) ->
  1 <= min_columns self < guint_modulus -> 1 <= max_columns self < guint_modulus ->
  item_manager self <> Leaf ->
  (forall c, In c (cells (item_manager self)) ->
     n_items c = 1 /\
     exists w, widget c = Some w /\
               forall fs, measured (fst (gtk_widget_measure w (orientation self) fs)) /\
                          measured (snd (gtk_widget_measure w (orientation self) fs))) ->
  exists (self' : GtkGridView) (rows : list (list Z)) (last : list Z),
    gtk_grid_view_size_allocate self for_size = Some self' /\
    realized_heights self' (cells (item_manager self)) = concat rows ++ last /\
    Forall (fun row => Z.of_nat (length row) = n_columns self') rows /\
    Z.of_nat (length last) < n_columns self' /\
    map size (cells (item_manager self')) = concat (map row_sizes rows) ++ row_sizes last.
Proof.
  intros Hav Hmin Hnat Hlo Hhi Hne Hall.
  unfold gtk_grid_view_size_allocate.
  destruct (item_manager self) as [|l c a d r] eqn:Et; [contradiction|].
  destruct (gtk_grid_view_measure_column_size self) as [col_min col_nat].
  cbn [fst snd] in Hmin, Hnat.
  unfold gtk_grid_view_size_allocate_columns.
  rewrite compute_n_columns_contract by assumption. cbn [bind].
  set (n := compute_columns _ _ _ _ _ _).
  assert (Hn : 1 <= n < guint_modulus).
  { split; [apply compute_columns_positive; lia|].
    unfold n, compute_columns, clamp.
    match goal with
    | |- (if _ <? ?q then _ else _) < _ =>
        destruct (Z.ltb_spec (max_columns self) q); [lia|];
        destruct (Z.ltb_spec q (min_columns self)); lia
    end. }
  unfold udiv. destruct (Z.eqb_spec n 0); [lia|]. cbn [bind]. cbv zeta.
  set (self1 := with_columns n _ self).
  assert (Et1 : item_manager self1 = Node l c a d r) by exact Et.
  rewrite Et1. set (t0 := Node l c a d r) in *.
  assert (Hcells : Forall (fun c => n_items c = 1 /\
                                    exists hk, realized_heights self1 [c] = [hk] /\
                                               measured hk) (cells t0)).
  { apply Forall_forall. intros c' Hin.
    destruct (Hall c' Hin) as (Hone & w & Hw & Hm). split; [exact Hone|].
    unfold realized_heights. cbn [flat_map]. rewrite Hw, app_nil_r.
    specialize (Hm (column_width self1)).
    change (orientation self1) with (orientation self).
    destruct (gtk_widget_measure w (orientation self) (column_width self1)) as [mn nt].
    cbn [fst snd] in Hm. eexists. split; [reflexivity|].
    destruct (is_minimum _); tauto. }
  (* step 2 *)
  destruct (size_allocate_step2_loop_rows self1 t0 n eq_refl Hn
              (gtk_rb_tree_handles t0) (cells t0) [] (map size (cells t0))
              {| s2_tree := t0; s2_i := 0; s2_row_height := 0;
                 s2_start := None; s2_heights := [] |})
    as (s2 & -> & Hsame2 & rows & open & Hdone & Hrows & Hopen & Hmeas & Hsizes
        & Hi & Hrh & Hh & Hstart).
  { intros j h Hj. exact Hj. }
  { apply handles_cells. }
  { exact Hcells. }
  { apply length_map. }
  { split; [apply same_items_refl|]. exists [], [].
    cbn. repeat split; try lia; try constructor. intros Hc. now contradiction Hc. }
  cbn [bind app] in *. rewrite app_nil_r in Hsizes.
  set (front := concat (map row_sizes rows)) in *.
  assert (Hopen_m : Forall measured open).
  { rewrite Hdone in Hmeas. apply Forall_app in Hmeas. tauto. }
  pose proof (fold_left_max_bounds open 0 ltac:(rewrite gint_half_eq; lia) Hopen_m) as Hrow.
  rewrite gint_half_eq in Hrow.
  (* the open row *)
  assert (Ht : exists t,
             (if s2_i s2 >? 0
              then st <- s2_start s2 ;;
                   cell_add_size (s2_tree s2) st (to_guint (s2_row_height s2))
              else Some (s2_tree s2)) = Some t /\
             same_items t0 t /\
             map size (cells t) = front ++ row_sizes open).
  { rewrite Hi. destruct open as [|a0 open'].
    - cbn [length Z.of_nat Z.gtb Z.compare]. exists (s2_tree s2).
      split; [reflexivity|]. split; [exact Hsame2|].
      rewrite Hsizes. reflexivity.
    - destruct (Hstart ltac:(discriminate)) as (st & -> & Hst).
      destruct (Z.gtb_spec (Z.of_nat (length (a0 :: open'))) 0) as [_|Hle];
        [|cbn [length] in Hle; lia].
      cbn [bind].
      destruct (sizes_set_size (s2_tree s2) st
                  (to_guint (0 + to_guint (s2_row_height s2)))
                  front 0 (map (fun _ : Z => 0) open'))
        as [(c1 & Hc1 & Hsize1) Hsizes1].
      { rewrite (same_items_handles _ _ Hsame2). unfold front.
        rewrite concat_row_sizes_length. exact Hst. }
      { rewrite Hsizes. reflexivity. }
      unfold cell_add_size. rewrite Hc1. cbn [bind]. rewrite Hsize1.
      eexists. split; [reflexivity|]. split.
      + eapply same_items_trans; [exact Hsame2|apply same_items_set_size].
      + rewrite Hsizes1, Hrh, Z.add_0_l.
        rewrite (to_guint_small (fold_left Z.max (a0 :: open') 0))
          by (unfold is_guint; rewrite guint_modulus_eq; lia).
        rewrite to_guint_small by (unfold is_guint; rewrite guint_modulus_eq; lia).
        reflexivity. }
  destruct Ht as (t & -> & Hsame & Hsizes_t). cbn [bind].
  (* step 3 *)
  set (self2 := with_unknown_row_height _ (with_tree t self1)).
  destruct (size_allocate_step3_loop_realized self2 t (gtk_rb_tree_handles t0))
    with (s := {| s3_tree := t; s3_i := 0; s3_known := false;
                  s3_start := hd_error (gtk_rb_tree_handles t0) |})
    as (s3 & -> & Ht3 & Hknown).
  { exact Hn. }
  { intros h Hin. destruct (handles_node _ _ Hin) as (c0 & Hc0).
    destruct (same_items_node _ _ _ _ Hsame Hc0) as (c' & Hc' & Hitems & Hwidget).
    assert (Hin0 : In c0 (cells t0)).
    { apply (in_map (gtk_rb_tree_node t0)) in Hin. rewrite handles_cells, Hc0 in Hin.
      apply in_map_iff in Hin. destruct Hin as (c2 & [= ->] & Hin). exact Hin. }
    destruct (Hall c0 Hin0) as (Hone & w & Hw & _).
    exists c'. split; [exact Hc'|]. split; [congruence|]. congruence. }
  { reflexivity. }
  { cbn. lia. }
  { cbn. lia. }
  cbn [bind].
  assert (Hlast : (s3_i s3 >? 0) && negb (s3_known s3) = false).
  { destruct (Z.gtb_spec (s3_i s3) 0) as [Hpos|]; [|reflexivity].
    rewrite (Hknown Hpos). reflexivity. }
  rewrite Hlast, Ht3. cbn [bind].
  eexists. exists rows, open. split; [reflexivity|].
  cbn [item_manager n_columns with_tree with_unknown_row_height with_columns].
  split; [exact Hdone|]. split; [exact Hrows|]. split; [exact Hopen|]. exact Hsizes_t.
Qed.

Lemma ragged_view_cells :
  forall c, In c (cells (item_manager ragged_view)) ->
            exists height, 0 <= height < 100 /\ c = realized height.
Proof.
  intros c Hin. cbn in Hin.
  repeat (destruct Hin as [<-|Hin]; [eexists; split; [|reflexivity]; lia|]).
  destruct Hin.
Qed.

Lemma size_allocate_realized_rows_witness :
  0 <= 60 < gint_half /\
  is_gint (fst (gtk_grid_view_measure_column_size ragged_view)) /\
  is_gint (snd (gtk_grid_view_measure_column_size ragged_view)) /\
  1 <= min_columns ragged_view < guint_modulus /\
  1 <= max_columns ragged_view < guint_modulus /\
  item_manager ragged_view <> Leaf /\
  (forall c, In c (cells (item_manager ragged_view)) ->
     n_items c = 1 /\
     exists w, widget c = Some w /\
               forall fs,
                 measured (fst (gtk_widget_measure w (orientation ragged_view) fs)) /\
                 measured (snd (gtk_widget_measure w (orientation ragged_view) fs))) /\
  exists (self' : GtkGridView) (rows : list (list Z)) (last : list Z),
    gtk_grid_view_size_allocate ragged_view 60 = Some self' /\
    realized_heights self' (cells (item_manager ragged_view)) = concat rows ++ last /\
    Forall (fun row => Z.of_nat (length row) = n_columns self') rows /\
    Z.of_nat (length last) < n_columns self' /\
    map size (cells (item_manager self')) = concat (map row_sizes rows) ++ row_sizes last.
Proof.
  assert (H0 : 0 <= 60 < gint_half) by (rewrite gint_half_eq; lia).
  assert (H1 : is_gint (fst (gtk_grid_view_measure_column_size ragged_view)))
    by (unfold is_gint; rewrite gint_half_eq; vm_compute; split; [discriminate|reflexivity]).
  assert (H2 : is_gint (snd (gtk_grid_view_measure_column_size ragged_view)))
    by (unfold is_gint; rewrite gint_half_eq; vm_compute; split; [discriminate|reflexivity]).
  assert (H3 : 1 <= min_columns ragged_view < guint_modulus)
    by (vm_compute; split; [discriminate|reflexivity]).
  assert (H4 : 1 <= max_columns ragged_view < guint_modulus)
    by (vm_compute; split; [discriminate|reflexivity]).
  assert (H5 : item_manager ragged_view <> Leaf) by discriminate.
  assert (H6 : forall c, In c (cells (item_manager ragged_view)) ->
                 n_items c = 1 /\
                 exists w, widget c = Some w /\
                   forall fs,
                     measured (fst (gtk_widget_measure w (orientation ragged_view) fs)) /\
                     measured (snd (gtk_widget_measure w (orientation ragged_view) fs))).
  { intros c Hin. destruct (ragged_view_cells c Hin) as (height & Hh & ->).
    split; [reflexivity|]. eexists. split; [reflexivity|]. intros fs.
    cbn. unfold measured. rewrite gint_half_eq. lia. }
  split; [exact H0|]. split; [exact H1|]. split; [exact H2|]. split; [exact H3|].
  split; [exact H4|]. split; [exact H5|]. split; [exact H6|].
  exact (size_allocate_realized_rows ragged_view 60 H0 H1 H2 H3 H4 H5 H6).
Defined.

(** There the pass yields three columns; the rows of heights 10, 30, 20
    and 5, 7 get the sizes 30 and 7. *)
Lemma size_allocate_realized_rows_example :
  option_map (fun self' => (n_columns self', map size (cells (item_manager self'))))
    (gtk_grid_view_size_allocate ragged_view 60)
  = Some (3, [30; 0; 0; 7; 0]).
Proof. vm_compute. reflexivity. Qed.

(* ================================================================== *)
(** ** Layout pass: the sizes before it *)

Lemma nth_error_replace {A : Type} (l : list A) (k : nat) (v : A) :
  (k < length l)%nat ->
  forall j, nth_error (firstn k l ++ v :: skipn (S k) l) j
            = if Nat.eqb j k then Some v else nth_error l j.
Proof.
  revert k. induction l as [|a l IH]; intros k Hk j; [cbn in Hk; lia|].
  destruct k as [|k].
  - cbn [firstn skipn app]. destruct j; reflexivity.
  - cbn [firstn skipn app]. destruct j as [|j]; [reflexivity|].
    cbn [nth_error Nat.eqb]. apply IH. cbn in Hk. lia.
Qed.

Lemma sizes_set_size_nth (t : GtkRbTree) (h : Handle) (k : nat) :
  nth_error (gtk_rb_tree_handles t) k = Some h ->
  exists c,
    gtk_rb_tree_node t h = Some c /\
    nth_error (map size (cells t)) k = Some (size c) /\
    forall v j,
      nth_error (map size (cells (cell_set_size t h v))) j
      = if Nat.eqb j k then Some v else nth_error (map size (cells t)) j.
Proof.
  intros Hh.
  destruct (update_cells (fun c => c) t k h Hh) as (c & Hnode & Hnth & _).
  exists c. split; [exact Hnode|].
  pose proof (map_nth_error size _ _ Hnth) as Hk.
  split; [exact Hk|]. intros v j.
  assert (Hlt : (k < length (map size (cells t)))%nat).
  { apply nth_error_Some. rewrite Hk. discriminate. }
  unfold cell_set_size. rewrite Hnode.
  destruct (Z.eqb_spec (size c) v) as [E|_].
  - destruct (Nat.eqb_spec j k) as [->|_]; [|reflexivity]. now rewrite Hk, E.
  - destruct (update_cells (with_size v) t k h Hh) as (c2 & Hnode2 & _ & Hupd).
    rewrite Hnode in Hnode2. injection Hnode2 as <-.
    rewrite Hupd, map_app. cbn [map with_size size].
    rewrite <- firstn_map, <- skipn_map. now apply nth_error_replace.
Qed.

Lemma same_items_sym (t t' : GtkRbTree) : same_items t t' -> same_items t' t.
Proof.
  revert t'. induction t as [|l IHl c a d r IHr]; intros [|l' c' a' d' r']; simpl;
    try tauto.
  intros (Hl & Hn & Hw & Hr). auto.
Qed.

Lemma nth_error_ext_length {A : Type} (l l' : list A) :
  length l = length l' ->
  (forall j, (j < length l)%nat -> nth_error l j = nth_error l' j) ->
  l = l'.
Proof.
  revert l'. induction l as [|a l IH]; intros [|a' l'] Hlen Hnth; try discriminate.
  - reflexivity.
  - pose proof (Hnth 0%nat ltac:(cbn; lia)) as H0. injection H0 as <-.
    f_equal. apply IH; [cbn in Hlen; lia|].
    intros j Hj. apply (Hnth (S j)). cbn. lia.
Qed.

Lemma same_items_length (t t' : GtkRbTree) :
  same_items t t' -> length (cells t') = length (cells t).
Proof.
  intros Hsame. rewrite <- !handles_length.
  now rewrite (same_items_handles _ _ Hsame).
Qed.

Lemma measure_column_size_same (self self' : GtkGridView) :
  orientation self = orientation self' ->
  same_items (item_manager self) (item_manager self') ->
  gtk_grid_view_measure_column_size self' = gtk_grid_view_measure_column_size self.
Proof.
  intros Ho Hsame. unfold gtk_grid_view_measure_column_size. rewrite <- Ho.
  destruct (same_items_cells _ _ Hsame) as [_ Hw].
  set (f := fun (acc : Z * Z) (w : option GtkWidget) =>
              match w with
              | None => acc
              | Some w =>
                  let '(child_min, child_nat) :=
                    gtk_widget_measure w (OPPOSITE_ORIENTATION (orientation self)) (-1) in
                  (MAX (fst acc) child_min, MAX (snd acc) child_nat)
              end).
  assert (E : forall cs acc,
             fold_left (fun acc c => f acc (widget c)) cs acc
             = fold_left f (map widget cs) acc).
  { induction cs as [|c cs IH]; intros acc; [reflexivity|]. cbn [map fold_left]. apply IH. }
  change (fold_left (fun acc c => f acc (widget c)) (cells (item_manager self')) (0, 0)
          = fold_left (fun acc c => f acc (widget c)) (cells (item_manager self)) (0, 0)).
  now rewrite !E, Hw.
Qed.

Section TwoPasses.

Variables self self' : GtkGridView.
Variable t0 : GtkRbTree.

Hypothesis Horientation : orientation self' = orientation self.
Hypothesis Hpolicy : forall o, scroll_policy self' o = scroll_policy self o.
Hypothesis Hcolumns : n_columns self' = n_columns self.
Hypothesis Hwidth : column_width self' = column_width self.
Hypothesis Hunknown : unknown_row_height self' = unknown_row_height self.
Hypothesis Hnz : n_columns self <> 0.

Lemma cell_add_size_agree (t t' : GtkRbTree) (st : Handle) (p k : nat) (delta : Z) :
  same_items t0 t -> same_items t0 t' ->
  nth_error (gtk_rb_tree_handles t0) p = Some st ->
  nth_error (map size (cells t)) p = nth_error (map size (cells t')) p ->
  (forall j, (j < k)%nat ->
             nth_error (map size (cells t)) j = nth_error (map size (cells t')) j) ->
  exists t1 t1',
    cell_add_size t st delta = Some t1 /\ cell_add_size t' st delta = Some t1' /\
    same_items t0 t1 /\ same_items t0 t1' /\
    nth_error (map size (cells t1)) p = nth_error (map size (cells t1')) p /\
    (forall j, (j < k)%nat ->
               nth_error (map size (cells t1)) j = nth_error (map size (cells t1')) j).
Proof.
  intros Hsame Hsame' Hst Hp Hagree.
  destruct (sizes_set_size_nth t st p) as (c & Hc & Hcp & Hset).
  { rewrite (same_items_handles _ _ Hsame). exact Hst. }
  destruct (sizes_set_size_nth t' st p) as (c' & Hc' & Hcp' & Hset').
  { rewrite (same_items_handles _ _ Hsame'). exact Hst. }
  assert (Esize : size c' = size c) by congruence.
  unfold cell_add_size. rewrite Hc, Hc'. cbn [bind]. rewrite Esize.
  eexists. eexists. split; [reflexivity|]. split; [reflexivity|].
  split; [eapply same_items_trans; [exact Hsame|apply same_items_set_size]|].
  split; [eapply same_items_trans; [exact Hsame'|apply same_items_set_size]|].
  split.
  - rewrite Hset, Hset', Nat.eqb_refl. reflexivity.
  - intros j Hj. rewrite Hset, Hset'. destruct (Nat.eqb j p); [reflexivity|].
    now apply Hagree.
Qed.

Lemma size_allocate_step2_body_agree (k : nat) (s s' : Step2) (h : Handle) :
  nth_error (gtk_rb_tree_handles t0) k = Some h ->
  step2_agree t0 k s s' ->
  exists s1 s1',
    size_allocate_step2_body self s h = Some s1 /\
    size_allocate_step2_body self' s' h = Some s1' /\
    step2_agree t0 (S k) s1 s1'.
Proof.
  intros Hh (Hsame & Hsame' & Hi & Hrh & Hst & Hhs & Hagree & Hstart).
  destruct (handles_node t0 h (nth_error_In _ _ Hh)) as (c0 & Hc0).
  destruct (same_items_node _ _ _ _ Hsame Hc0) as (c & Hc & Hitems & Hwidget).
  destruct (same_items_node _ _ _ _ Hsame' Hc0) as (c' & Hc' & Hitems' & Hwidget').
  destruct (sizes_set_size_nth (s2_tree s) h k) as (c2 & Hc2 & _ & Hset).
  { rewrite (same_items_handles _ _ Hsame). exact Hh. }
  destruct (sizes_set_size_nth (s2_tree s') h k) as (c2' & Hc2' & _ & Hset').
  { rewrite (same_items_handles _ _ Hsame'). exact Hh. }
  clear c2 Hc2 c2' Hc2'.
  assert (Hsame0 : same_items t0 (cell_set_size (s2_tree s) h 0)).
  { eapply same_items_trans; [exact Hsame|apply same_items_set_size]. }
  assert (Hsame0' : same_items t0 (cell_set_size (s2_tree s') h 0)).
  { eapply same_items_trans; [exact Hsame'|apply same_items_set_size]. }
  assert (Hat : nth_error (map size (cells (cell_set_size (s2_tree s) h 0))) k
                = nth_error (map size (cells (cell_set_size (s2_tree s') h 0))) k).
  { rewrite Hset, Hset', Nat.eqb_refl. reflexivity. }
  assert (Hagree0 : forall j, (j < S k)%nat ->
             nth_error (map size (cells (cell_set_size (s2_tree s) h 0))) j
             = nth_error (map size (cells (cell_set_size (s2_tree s') h 0))) j).
  { intros j Hj. rewrite Hset, Hset'. destruct (Nat.eqb_spec j k); [reflexivity|].
    apply Hagree. lia. }
  assert (Hstart0 : exists st p,
             (if s2_i s =? 0 then Some h else s2_start s) = Some st /\
             (p < S k)%nat /\ nth_error (gtk_rb_tree_handles t0) p = Some st).
  { destruct (Z.eqb_spec (s2_i s) 0) as [|Hne].
    - exists h, k. auto.
    - destruct (Hstart Hne) as (st & p & Est & Hp & Hst'). exists st, p.
      split; [exact Est|]. split; [lia|exact Hst']. }
  destruct Hstart0 as (st & p & Est & Hp & Hstp).
  unfold size_allocate_step2_body. rewrite Hc, Hc'. cbn [bind].
  rewrite Hwidget, Hwidget', Hitems, Hitems', Horientation, Hpolicy, Hwidth, Hcolumns.
  rewrite <- Hi, <- Hrh, <- Hst, <- Hhs, Est.
  destruct (match widget c0 with Some _ => _ | None => _ end) as [heights row_height].
  destruct (to_guint (s2_i s + n_items c0) >=? n_columns self).
  - unfold umod. destruct (Z.eqb_spec (n_columns self) 0); [contradiction|].
    cbn [bind].
    destruct (cell_add_size_agree _ _ st p (S k) (to_guint row_height)
                Hsame0 Hsame0' Hstp (Hagree0 p Hp) Hagree0)
      as (t1 & t1' & -> & -> & Hsame1 & Hsame1' & _ & Hagree1).
    cbn [bind]. eexists. eexists. split; [reflexivity|]. split; [reflexivity|].
    unfold step2_agree. cbn [s2_tree s2_i s2_row_height s2_start s2_heights].
    split; [exact Hsame1|]. split; [exact Hsame1'|].
    split; [reflexivity|]. split; [reflexivity|]. split; [reflexivity|].
    split; [reflexivity|]. split; [exact Hagree1|].
    intros _. exists h, k. auto.
  - eexists. eexists. split; [reflexivity|]. split; [reflexivity|].
    unfold step2_agree. cbn [s2_tree s2_i s2_row_height s2_start s2_heights].
    split; [exact Hsame0|]. split; [exact Hsame0'|].
    split; [reflexivity|]. split; [reflexivity|]. split; [reflexivity|].
    split; [reflexivity|]. split; [exact Hagree0|].
    intros _. exists st, p. auto.
Qed.

Lemma size_allocate_step2_loop_agree (hs : list Handle) :
  forall (k : nat) (s s' : Step2),
    (forall j h, nth_error hs j = Some h ->
                 nth_error (gtk_rb_tree_handles t0) (k + j) = Some h) ->
    step2_agree t0 k s s' ->
    exists s1 s1',
      for_each_cell (size_allocate_step2_body self) hs s = Some s1 /\
      for_each_cell (size_allocate_step2_body self') hs s' = Some s1' /\
      step2_agree t0 (k + length hs) s1 s1'.
Proof.
  induction hs as [|h hs IH]; intros k s s' Hpos Hs.
  - exists s, s'. split; [reflexivity|]. split; [reflexivity|].
    cbn [length]. now rewrite Nat.add_0_r.
  - destruct (size_allocate_step2_body_agree k s s' h) as (s1 & s1' & E & E' & Hs1).
    { specialize (Hpos 0%nat h eq_refl). now rewrite Nat.add_0_r in Hpos. }
    { exact Hs. }
    cbn [for_each_cell]. rewrite E, E'. cbn [bind].
    destruct (IH (S k) s1 s1') as (s2 & s2' & E2 & E2' & Hs2).
    { intros j h' Hj. specialize (Hpos (S j) h' Hj).
      replace (S k + j)%nat with (k + S j)%nat by lia. exact Hpos. }
    { exact Hs1. }
    exists s2, s2'. split; [exact E2|]. split; [exact E2'|].
    cbn [length]. replace (k + S (length hs))%nat with (S k + length hs)%nat by lia.
    exact Hs2.
Qed.

Lemma cell_add_size_agree_all (t t' : GtkRbTree) (st : Handle) (p : nat) (delta : Z) :
  same_items t0 t -> same_items t0 t' ->
  nth_error (gtk_rb_tree_handles t0) p = Some st ->
  map size (cells t) = map size (cells t') ->
  exists t1 t1',
    cell_add_size t st delta = Some t1 /\ cell_add_size t' st delta = Some t1' /\
    same_items t0 t1 /\ same_items t0 t1' /\
    map size (cells t1) = map size (cells t1').
Proof.
  intros Hsame Hsame' Hst Hsizes.
  destruct (cell_add_size_agree t t' st p (length (cells t0)) delta Hsame Hsame' Hst)
    as (t1 & t1' & E & E' & Hsame1 & Hsame1' & _ & Hagree).
  { now rewrite Hsizes. }
  { intros j _. now rewrite Hsizes. }
  exists t1, t1'. split; [exact E|]. split; [exact E'|].
  split; [exact Hsame1|]. split; [exact Hsame1'|].
  apply nth_error_ext_length.
  - rewrite !length_map.
    now rewrite (same_items_length _ _ Hsame1), (same_items_length _ _ Hsame1').
  - intros j Hj. apply Hagree.
    rewrite length_map, (same_items_length _ _ Hsame1) in Hj. exact Hj.
Qed.

Lemma size_allocate_step3_body_agree (s s' : Step3) (h : Handle) :
  In h (gtk_rb_tree_handles t0) ->
  step3_agree t0 s s' ->
  exists s1 s1',
    size_allocate_step3_body self s h = Some s1 /\
    size_allocate_step3_body self' s' h = Some s1' /\
    step3_agree t0 s1 s1'.
Proof.
  intros Hin (Hsame & Hsame' & Hi & Hknown & Hst & Hsizes & Hstart).
  destruct (In_nth_error _ _ Hin) as (k & Hh).
  destruct (handles_node t0 h Hin) as (c0 & Hc0).
  destruct (same_items_node _ _ _ _ Hsame Hc0) as (c & Hc & Hitems & Hwidget).
  destruct (same_items_node _ _ _ _ Hsame' Hc0) as (c' & Hc' & Hitems' & Hwidget').
  assert (Hstart0 : exists st p,
             (if s3_i s =? 0 then Some h else s3_start s) = Some st /\
             nth_error (gtk_rb_tree_handles t0) p = Some st).
  { destruct (Z.eqb_spec (s3_i s) 0) as [|Hne].
    - exists h, k. auto.
    - destruct (Hstart Hne) as (st & p & Est & Hst'). exists st, p. auto. }
  destruct Hstart0 as (st & p & Est & Hstp).
  unfold size_allocate_step3_body. rewrite Hc, Hc'. cbn [bind].
  rewrite Hwidget, Hwidget', Hitems, Hitems', Hcolumns, Hunknown.
  rewrite <- Hi, <- Hknown, <- Hst, Est.
  set (known := match widget c0 with Some _ => true | None => s3_known s end).
  destruct (to_guint (s3_i s + n_items c0) >=? n_columns self).
  - assert (Ht : exists t t',
               (if negb known
                then st0 <- Some st ;;
                     cell_add_size (s3_tree s) st0 (to_guint (unknown_row_height self))
                else Some (s3_tree s)) = Some t /\
               (if negb known
                then st0 <- Some st ;;
                     cell_add_size (s3_tree s') st0 (to_guint (unknown_row_height self))
                else Some (s3_tree s')) = Some t' /\
               same_items t0 t /\ same_items t0 t' /\
               map size (cells t) = map size (cells t')).
    { destruct (negb known); cbn [bind].
      - now apply (cell_add_size_agree_all _ _ st p).
      - exists (s3_tree s), (s3_tree s'). auto. }
    destruct Ht as (t & t' & -> & -> & Hsame1 & Hsame1' & Hsizes1). cbn [bind].
    destruct (to_guint (to_guint (s3_i s + n_items c0) - n_columns self)
              >=? n_columns self).
    + unfold udiv, umod. destruct (Z.eqb_spec (n_columns self) 0); [contradiction|].
      cbn [bind].
      destruct (cell_add_size_agree_all t t' h k
                  (to_guint (to_guint (unknown_row_height self)
                             * (to_guint (to_guint (s3_i s + n_items c0) - n_columns self)
                                / n_columns self)))
                  Hsame1 Hsame1' Hh Hsizes1)
        as (t2 & t2' & -> & -> & Hsame2 & Hsame2' & Hsizes2).
      cbn [bind]. eexists. eexists. split; [reflexivity|]. split; [reflexivity|].
      unfold step3_agree. cbn [s3_tree s3_i s3_known s3_start].
      repeat (split; [assumption || reflexivity|]).
      intros _. exists h, k. auto.
    + eexists. eexists. split; [reflexivity|]. split; [reflexivity|].
      unfold step3_agree. cbn [s3_tree s3_i s3_known s3_start].
      repeat (split; [assumption || reflexivity|]).
      intros _. exists h, k. auto.
  - eexists. eexists. split; [reflexivity|]. split; [reflexivity|].
    unfold step3_agree. cbn [s3_tree s3_i s3_known s3_start].
    repeat (split; [assumption || reflexivity|]).
    intros _. exists st, p. auto.
Qed.

Lemma size_allocate_step3_loop_agree (hs : list Handle) :
  (forall h, In h hs -> In h (gtk_rb_tree_handles t0)) ->
  forall s s' : Step3,
    step3_agree t0 s s' ->
    exists s1 s1',
      for_each_cell (size_allocate_step3_body self) hs s = Some s1 /\
      for_each_cell (size_allocate_step3_body self') hs s' = Some s1' /\
      step3_agree t0 s1 s1'.
Proof.
  induction hs as [|h hs IH]; intros Hin s s' Hs.
  - exists s, s'. auto.
  - destruct (size_allocate_step3_body_agree s s' h (Hin h (or_introl eq_refl)) Hs)
      as (s1 & s1' & E & E' & Hs1).
    cbn [for_each_cell]. rewrite E, E'. cbn [bind].
    apply IH; [|exact Hs1]. intros h' Hh'. apply Hin. now right.
Qed.

End TwoPasses.

Lemma size_allocate_agree (self self' : GtkGridView) (for_size : Z) :
  same_settings self self' ->
  same_items (item_manager self) (item_manager self') ->
  item_manager self <> Leaf ->
  0 <= for_size < gint_half ->
  is_gint (fst (gtk_grid_view_measure_column_size self)) ->
  is_gint (snd (gtk_grid_view_measure_column_size self)) ->
  1 <= min_columns self -> 1 <= max_columns self ->
  exists r r' : GtkGridView,
    gtk_grid_view_size_allocate self for_size = Some r /\
    gtk_grid_view_size_allocate self' for_size = Some r' /\
    same_layout r r' /\
    same_settings self r /\ same_items (item_manager self) (item_manager r).
Proof.
  intros (Ho & Hp & Hmn & Hmx) Hsame Hne Hav Hmin Hnat Hlo Hhi.
  unfold gtk_grid_view_size_allocate.
  rewrite (measure_column_size_same self self' Ho Hsame).
  pose proof (same_items_handles _ _ Hsame) as Hhandles.
  destruct (item_manager self) as [|l c a d r0] eqn:Et; [contradiction|].
  destruct (item_manager self') as [|l' c' a' d' r0'] eqn:Et'; [contradiction|].
  set (t0 := Node l c a d r0) in *. set (t0' := Node l' c' a' d' r0') in *.
  destruct (gtk_grid_view_measure_column_size self) as [col_min col_nat].
  cbn [fst snd] in Hmin, Hnat.
  assert (Ecols : gtk_grid_view_size_allocate_columns self' for_size col_min col_nat
                  = gtk_grid_view_size_allocate_columns self for_size col_min col_nat).
  { unfold gtk_grid_view_size_allocate_columns, gtk_grid_view_compute_n_columns.
    now rewrite <- Ho, <- Hp, <- Hmn, <- Hmx. }
  rewrite Ecols.
  destruct (size_allocate_columns_returns self for_size col_min col_nat
              Hav Hmin Hnat Hlo Hhi) as (n & w & -> & Hn).
  cbn [bind]. cbv zeta.
  set (self1 := with_columns n w self). set (self1' := with_columns n w self').
  change (item_manager self1) with (item_manager self).
  change (item_manager self1') with (item_manager self').
  rewrite Et, Et'. fold t0. fold t0'. rewrite Hhandles.
  (* step 2 *)
  destruct (size_allocate_step2_loop_agree self1 self1' t0
              (eq_sym Ho) (fun o => eq_sym (Hp o)) eq_refl eq_refl
              ltac:(cbn; lia)
              (gtk_rb_tree_handles t0) 0
              {| s2_tree := t0; s2_i := 0; s2_row_height := 0;
                 s2_start := None; s2_heights := [] |}
              {| s2_tree := t0'; s2_i := 0; s2_row_height := 0;
                 s2_start := None; s2_heights := [] |})
    as (s2 & s2' & -> & -> & Hsame2 & Hsame2' & Hi & Hrh & Hst & Hhs & Hagree & Hstart).
  { intros j h Hj. exact Hj. }
  { unfold step2_agree. cbn [s2_tree s2_i s2_row_height s2_start s2_heights].
    split; [apply same_items_refl|]. split; [exact Hsame|].
    repeat (split; [reflexivity|]). split; [intros j Hj; lia|]. congruence. }
  cbn [bind]. cbn [Nat.add] in Hagree, Hstart.
  rewrite <- Hi, <- Hrh, <- Hst, <- Hhs.
  assert (Hsizes2 : map size (cells (s2_tree s2)) = map size (cells (s2_tree s2'))).
  { apply nth_error_ext_length.
    - rewrite !length_map.
      now rewrite (same_items_length _ _ Hsame2), (same_items_length _ _ Hsame2').
    - intros j Hj. apply Hagree.
      rewrite length_map, (same_items_length _ _ Hsame2), <- handles_length in Hj.
      exact Hj. }
  assert (Ht : exists t t',
             (if s2_i s2 >? 0
              then st <- s2_start s2 ;;
                   cell_add_size (s2_tree s2) st (to_guint (s2_row_height s2))
              else Some (s2_tree s2)) = Some t /\
             (if s2_i s2 >? 0
              then st <- s2_start s2 ;;
                   cell_add_size (s2_tree s2') st (to_guint (s2_row_height s2))
              else Some (s2_tree s2')) = Some t' /\
             same_items t0 t /\ same_items t0 t' /\
             map size (cells t) = map size (cells t')).
  { destruct (Z.gtb_spec (s2_i s2) 0) as [Hpos|_].
    - destruct (Hstart ltac:(lia)) as (st & p & -> & _ & Hstp). cbn [bind].
      now apply (cell_add_size_agree_all t0 _ _ st p).
    - exists (s2_tree s2), (s2_tree s2'). auto. }
  destruct Ht as (t & t' & -> & -> & Hsame_t & Hsame_t' & Hsizes_t). cbn [bind].
  (* step 3 *)
  set (u := gtk_grid_view_get_unknown_row_size (s2_heights s2)).
  set (self2 := with_unknown_row_height u (with_tree t self1)).
  set (self2' := with_unknown_row_height u (with_tree t' self1')).
  destruct (size_allocate_step3_loop_agree self2 self2' t0
              eq_refl eq_refl ltac:(cbn; lia)
              (gtk_rb_tree_handles t0) (fun h Hh => Hh)
              {| s3_tree := t; s3_i := 0; s3_known := false;
                 s3_start := hd_error (gtk_rb_tree_handles t0) |}
              {| s3_tree := t'; s3_i := 0; s3_known := false;
                 s3_start := hd_error (gtk_rb_tree_handles t0) |})
    as (s3 & s3' & -> & -> & Hsame3 & Hsame3' & Hi3 & Hk3 & Hst3 & Hsizes3 & Hstart3).
  { unfold step3_agree. cbn [s3_tree s3_i s3_known s3_start].
    repeat (split; [assumption || reflexivity|]). congruence. }
  cbn [bind]. rewrite <- Hi3, <- Hk3, <- Hst3.
  change (unknown_row_height self2') with (unknown_row_height self2).
  assert (Hr : exists tr tr',
             (if (s3_i s3 >? 0) && negb (s3_known s3)
              then st <- s3_start s3 ;;
                   cell_add_size (s3_tree s3) st (to_guint (unknown_row_height self2))
              else Some (s3_tree s3)) = Some tr /\
             (if (s3_i s3 >? 0) && negb (s3_known s3)
              then st <- s3_start s3 ;;
                   cell_add_size (s3_tree s3') st (to_guint (unknown_row_height self2))
              else Some (s3_tree s3')) = Some tr' /\
             same_items t0 tr /\ map size (cells tr) = map size (cells tr')).
  { destruct (Z.gtb_spec (s3_i s3) 0) as [Hpos|_]; cbn [andb].
    - destruct (negb (s3_known s3)).
      + destruct (Hstart3 ltac:(lia)) as (st & p & -> & Hstp). cbn [bind].
        destruct (cell_add_size_agree_all t0 _ _ st p
                    (to_guint (unknown_row_height self2)) Hsame3 Hsame3' Hstp Hsizes3)
          as (tr & tr' & E & E' & Hs & _ & Hz).
        exists tr, tr'. auto.
      + exists (s3_tree s3), (s3_tree s3'). auto.
    - exists (s3_tree s3), (s3_tree s3'). auto. }
  destruct Hr as (tr & tr' & -> & -> & Hsame_r & Hsizes_r). cbn [bind].
  eexists. eexists. split; [reflexivity|]. split; [reflexivity|].
  split; [|split].
  - unfold same_layout. cbn. auto.
  - unfold same_settings. cbn. auto.
  - cbn. exact Hsame_r.
Qed.

(** X27.  A layout pass forgets the layout it finds: on two views with
    the same settings and the same items, which may differ in the sizes
    of the cells, the column count, the column width and the unknown row
    height, the pass returns for both and leaves the same layout. *)
Theorem size_allocate_forgets_sizes (self self' : GtkGridView) (for_size : Z) :
  same_settings self self' ->
  same_items (item_manager self) (item_manager self') ->
  item_manager self <> Leaf ->
  0 <= for_size < gint_half ->
  is_gint (fst (gtk_grid_view_measure_column_size self)) ->
  is_gint (snd (gtk_grid_view_measure_column_size self)) ->
  1 <= min_columns self -> 1 <= max_columns self ->
  exists r r' : GtkGridView,
    gtk_grid_view_size_allocate self for_size = Some r /\
    gtk_grid_view_size_allocate self' for_size = Some r' /\
    same_layout r r'.
Proof.
  intros Hsettings Hsame Hne Hav Hmin Hnat Hlo Hhi.
  destruct (size_allocate_agree self self' for_size Hsettings Hsame Hne Hav Hmin Hnat Hlo Hhi)
    as (r & r' & E & E' & Hlayout & _).
  exists r, r'. split; [exact E|]. split; [exact E'|]. exact Hlayout.
Qed.

(** X28.  A layout pass is idempotent: a second pass for the same size
    returns as well and leaves the layout of the first. *)
Theorem size_allocate_idempotent (self : GtkGridView) (for_size : Z) :
  item_manager self <> Leaf ->
  0 <= for_size < gint_half ->
  is_gint (fst (gtk_grid_view_measure_column_size self)) ->
  is_gint (snd (gtk_grid_view_measure_column_size self)) ->
  1 <= min_columns self -> 1 <= max_columns self ->
  exists r r2 : GtkGridView,
    gtk_grid_view_size_allocate self for_size = Some r /\
    gtk_grid_view_size_allocate r for_size = Some r2 /\
    same_layout r r2.
Proof.
  intros Hne Hav Hmin Hnat Hlo Hhi.
  assert (Hrefl : same_settings self self) by (repeat split).
  destruct (size_allocate_agree self self for_size Hrefl (same_items_refl _)
              Hne Hav Hmin Hnat Hlo Hhi)
    as (r & _ & E & _ & _ & Hsettings & Hsame).
  destruct (size_allocate_agree self r for_size Hsettings Hsame Hne Hav Hmin Hnat Hlo Hhi)
    as (r1 & r2 & E1 & E2 & Hlayout & _).
  rewrite E in E1. injection E1 as <-.
  exists r, r2. split; [exact E|]. split; [exact E2|]. exact Hlayout.
Qed.

Lemma size_allocate_forgets_sizes_witness :
  same_settings staggered_start staggered_view /\
  same_items (item_manager staggered_start) (item_manager staggered_view) /\
  item_manager staggered_start <> Leaf /\
  0 <= 90 < gint_half /\
  is_gint (fst (gtk_grid_view_measure_column_size staggered_start)) /\
  is_gint (snd (gtk_grid_view_measure_column_size staggered_start)) /\
  1 <= min_columns staggered_start /\ 1 <= max_columns staggered_start /\
  exists r r' : GtkGridView,
    gtk_grid_view_size_allocate staggered_start 90 = Some r /\
    gtk_grid_view_size_allocate staggered_view 90 = Some r' /\
    same_layout r r'.
Proof.
  assert (Hs : same_settings staggered_start staggered_view).
  { split; [reflexivity|]. split; [intros o; reflexivity|]. split; reflexivity. }
  assert (Hi : same_items (item_manager staggered_start) (item_manager staggered_view)).
  { vm_compute. repeat split. }
  assert (Hne : item_manager staggered_start <> Leaf) by discriminate.
  assert (H0 : 0 <= 90 < gint_half) by (rewrite gint_half_eq; lia).
  assert (H1 : is_gint (fst (gtk_grid_view_measure_column_size staggered_start)))
    by (unfold is_gint; rewrite gint_half_eq; vm_compute; split; [discriminate|reflexivity]).
  assert (H2 : is_gint (snd (gtk_grid_view_measure_column_size staggered_start)))
    by (unfold is_gint; rewrite gint_half_eq; vm_compute; split; [discriminate|reflexivity]).
  assert (H3 : 1 <= min_columns staggered_start) by (vm_compute; discriminate).
  assert (H4 : 1 <= max_columns staggered_start) by (vm_compute; discriminate).
  split; [exact Hs|]. split; [exact Hi|]. split; [exact Hne|]. split; [exact H0|].
  split; [exact H1|]. split; [exact H2|]. split; [exact H3|]. split; [exact H4|].
  exact (size_allocate_forgets_sizes staggered_start staggered_view 90
           Hs Hi Hne H0 H1 H2 H3 H4).
Defined.

Lemma size_allocate_idempotent_witness :
  item_manager staggered_start <> Leaf /\
  0 <= 60 < gint_half /\
  is_gint (fst (gtk_grid_view_measure_column_size staggered_start)) /\
  is_gint (snd (gtk_grid_view_measure_column_size staggered_start)) /\
  1 <= min_columns staggered_start /\ 1 <= max_columns staggered_start /\
  exists r r2 : GtkGridView,
    gtk_grid_view_size_allocate staggered_start 60 = Some r /\
    gtk_grid_view_size_allocate r 60 = Some r2 /\
    same_layout r r2.
Proof.
  assert (Hne : item_manager staggered_start <> Leaf) by discriminate.
  assert (H0 : 0 <= 60 < gint_half) by (rewrite gint_half_eq; lia).
  assert (H1 : is_gint (fst (gtk_grid_view_measure_column_size staggered_start)))
    by (unfold is_gint; rewrite gint_half_eq; vm_compute; split; [discriminate|reflexivity]).
  assert (H2 : is_gint (snd (gtk_grid_view_measure_column_size staggered_start)))
    by (unfold is_gint; rewrite gint_half_eq; vm_compute; split; [discriminate|reflexivity]).
  assert (H3 : 1 <= min_columns staggered_start) by (vm_compute; discriminate).
  assert (H4 : 1 <= max_columns staggered_start) by (vm_compute; discriminate).
  split; [exact Hne|]. split; [exact H0|]. split; [exact H1|]. split; [exact H2|].
  split; [exact H3|]. split; [exact H4|].
  exact (size_allocate_idempotent staggered_start 60 Hne H0 H1 H2 H3 H4).
Defined.
